(** * ai-interpreter: the JSON extractor, the capability registry and the
      task orchestrator, as a shallow embedding of the TypeScript sources.

    Sources embedded here:
    - [src/src/assistant/assistant.ts]: [extractJson], [isRetryableError],
      [retryOperation], [callTool], [selectBestMemory], [extractUsedTools],
      [unescapeTemplateLiteral], [callScript], [prepareContext],
      [callAgent];
    - [src/unnamed/part_000] (the tool registry): [Tool.call],
      [Tool.updateMetrics], [Tool.runTests], the getter [tools], [getTool],
      [loadTool], [ToolRegistry.callTool], [ToolRegistry.updateMetrics],
      [getToolHistory], [ToolRegistry.updateTool],
      [ToolRegistry.incrementVersion], [rollbackTool], [addTool],
      [ToolRegistry.removeTool].

    Conventions.  A JavaScript string is a [string]; the characters the code
    inspects are ASCII.  A JavaScript object used as a map keeps its keys in
    insertion order and is a list of pairs ([obj_get], [obj_set]).  A plain
    object read by a name answers also for the members of its prototype:
    where the code reads [this.tools] or the metrics table by a name that a
    caller chooses, the embedding says what the prototype answers
    ([inherited], [tools_lookup], [answered_by_prototype]); the own entries
    of the metrics table are a [gmap].  A number the code computes with is a
    double: the version arithmetic rounds as IEEE 754 does ([nearest]) and
    prints as [Number::toString] does ([show_num]).  An object that is kept,
    handed out and changed in place is a cell of a heap, and what is handed
    out is a reference to the cell.  An [async] function is a function of
    the state that returns an [Outcome]: a returned value or a thrown one,
    together with the state it leaves behind; a call that is not awaited
    keeps its effects up to the point where it throws and drops the
    throw. *)

From Stdlib Require Import ZArith QArith Qround String Ascii List Lia Bool.
From Stdlib Require Import SpecFloat.
From Stdlib Require Import DecimalString DecimalN DecimalZ.
From stdpp Require Import gmap strings list fin_maps pretty.

Close Scope Q_scope.
Open Scope string_scope.
Open Scope list_scope.
Set Warnings "-register-all".

(** ** Values of the host language *)

(** The values [JSON.parse] can produce, and [undefined].  A number literal is
    kept as mantissa and decimal exponent ([VNum m e] is [m * 10^e]); the
    rounding to a double is not modelled.  [JSON.parse] returns trees.  An
    object or an array that the assistant keeps, hands out and changes in
    place is a cell of the assistant's heap, and what is kept and handed out
    is the reference [VRef l] to the cell [l]. *)
Inductive value : Type :=
| VUndef
| VNull
| VBool (b : bool)
| VNum (m e : Z)
| VStr (s : string)
| VArr (items : list value)
| VObj (fields : list (string * value))
| VRef (l : nat).

(** A thrown value, taken not to be [null] or [undefined]: an [Error] has a
    message and a stack, a thrown value of another kind may have neither, so
    both are optional; [shown] is its text in a template. *)
Record thrown : Type := Thrown {
  message : option string;
  stack : option string;
  shown : string
}.

Definition Error (msg : string) : thrown :=
  {| message := Some msg; stack := Some ("Error: " +:+ msg); shown := "Error: " +:+ msg |}.

Definition TypeError (msg : string) : thrown :=
  {| message := Some msg; stack := Some ("TypeError: " +:+ msg);
     shown := "TypeError: " +:+ msg |}.

Inductive Outcome (A : Type) : Type :=
| Ret (a : A)
| Throw (e : thrown).
Arguments Ret {A} a.
Arguments Throw {A} e.

(** The double quote, by its code. *)
Definition dquote : ascii := "034"%char.

(** ** JavaScript objects as ordered maps *)

Section Objects.
Context {V : Type}.

Fixpoint obj_get (k : string) (o : list (string * V)) : option V :=
  match o with
  | [] => None
  | (k', v) :: o' => if String.eqb k k' then Some v else obj_get k o'
  end.

(** [o[k] = v]: an existing key keeps its place, a new key goes last. *)
Fixpoint obj_set (k : string) (v : V) (o : list (string * V)) : list (string * V) :=
  match o with
  | [] => [(k, v)]
  | (k', v') :: o' =>
      if String.eqb k k' then (k, v) :: o' else (k', v') :: obj_set k v o'
  end.

Definition obj_keys (o : list (string * V)) : list string := map fst o.

End Objects.

(** The names every object inherits from [Object.prototype].  Read from an
    object that has no key of that name of its own, each is a function, and
    [__proto__] is the prototype itself: a value that counts as true. *)
Definition prototype_names : list string :=
  ["constructor"; "__defineGetter__"; "__defineSetter__"; "hasOwnProperty";
   "__lookupGetter__"; "__lookupSetter__"; "isPrototypeOf"; "propertyIsEnumerable";
   "toString"; "valueOf"; "__proto__"; "toLocaleString"].

Definition inherited (k : string) : bool := existsb (String.eqb k) prototype_names.

(** ** The JSON extractor ([extractJson], assistant.ts 703-764) *)

Module Extractor.

(** The local variables of the scan. [jsonObjects] is generic in the type of
    parsed values so that the same scan can also list the raw candidates. *)
Record scan (A : Type) : Type := Scan {
  jsonObjects : list A;
  depth : Z;
  currentJson : string;
  inString : bool;
  escapeNext : bool
}.
Arguments Scan {A}.
Arguments jsonObjects {A}.
Arguments depth {A}.
Arguments currentJson {A}.
Arguments inString {A}.
Arguments escapeNext {A}.

Definition init {A} : scan A := Scan [] 0 "" false false.

(** [currentJson += char] *)
Definition push_char (s : string) (c : ascii) : string := s +:+ String c "".

Definition is_open (c : ascii) : bool := Ascii.eqb c "{" || Ascii.eqb c "[".
Definition is_close (c : ascii) : bool := Ascii.eqb c "}" || Ascii.eqb c "]".

Section Scan.
Context {A : Type}.
(** [JSON.parse]: returns the parsed value or throws. *)
Variable parse : string -> Outcome A.

(** [try { jsonObjects.push(JSON.parse(currentJson)) } catch (error) { }] *)
Definition try_push (objs : list A) (candidate : string) : list A :=
  match parse candidate with
  | Ret parsed => objs ++ [parsed]
  | Throw _ => objs
  end.

(** One iteration of the [for] loop, in the order of the source. *)
Definition scan_char (st : scan A) (c : ascii) : scan A :=
  let '(Scan objs d cur ins esc) := st in
  if esc then Scan objs d (push_char cur c) ins false
  else if Ascii.eqb c "\" then Scan objs d (push_char cur c) ins true
  else if Ascii.eqb c dquote && negb ins then Scan objs d (push_char cur c) true esc
  else if Ascii.eqb c dquote && ins then Scan objs d (push_char cur c) false esc
  else if negb ins then
    if is_open c then
      let cur' := if (d =? 0)%Z then "" else cur in
      Scan objs (d + 1) (push_char cur' c) ins esc
    else if is_close c then
      if (d - 1 =? 0)%Z then
        Scan (try_push objs (push_char cur c)) (d - 1) "" ins esc
      else Scan objs (d - 1) (push_char cur c) ins esc
    else Scan objs d (push_char cur c) ins esc
  else Scan objs d (push_char cur c) ins esc.

Definition scan_from (st : scan A) (content : string) : scan A :=
  fold_left scan_char (list_ascii_of_string content) st.

(** [extractJson] as an operation that could throw: the result is an
    [Outcome], and the theorems show it is always [Ret]. *)
Definition extractJson (content : string) : Outcome (list A) :=
  Ret (jsonObjects (scan_from init content)).
End Scan.

(** The bracket-balanced substrings the scan hands to the parser, in the
    order they close: the scan with a parser that accepts everything and
    returns its argument. *)
Definition candidates (content : string) : list string :=
  jsonObjects (scan_from (fun s => Ret s) init content).

(** What an outcome returned, if it returned. *)
Definition ok {A} (o : Outcome A) : option A :=
  match o with Ret a => Some a | Throw _ => None end.

(** Two scans agree when they are at the same place of the same text: the
    second has collected the raw candidates, the first the parsed ones. *)
Definition agree {A} (parse : string -> Outcome A) (st : scan A) (raw : scan string) : Prop :=
  depth st = depth raw /\ currentJson st = currentJson raw /\
  inString st = inString raw /\ escapeNext st = escapeNext raw /\
  jsonObjects st = omap (fun s => ok (parse s)) (jsonObjects raw).

End Extractor.

(** ** [JSON.parse]

  The host's parser, for the JSON grammar (ECMA-404): white space, the three
  literals, numbers, strings with their escapes, arrays and objects.  A
  repeated key keeps its first position and its last value, as in the host.
  Characters are 8-bit here, so a [\uXXXX] escape above [00FF] has no
  image and is refused; no statement below parses such a text.  Failure is
  the host's [SyntaxError]. *)
Module Json.

Definition is_ws (c : ascii) : bool :=
  Ascii.eqb c " " || Ascii.eqb c "009" || Ascii.eqb c "010" || Ascii.eqb c "013".

Fixpoint skip_ws (s : list ascii) : list ascii :=
  match s with
  | c :: s' => if is_ws c then skip_ws s' else s
  | [] => []
  end.

Definition digit_of (c : ascii) : option Z :=
  let n := Z.of_nat (nat_of_ascii c) in
  if (48 <=? n)%Z && (n <=? 57)%Z then Some (n - 48)%Z else None.

Definition hex_of (c : ascii) : option Z :=
  let n := Z.of_nat (nat_of_ascii c) in
  if (48 <=? n)%Z && (n <=? 57)%Z then Some (n - 48)%Z
  else if (65 <=? n)%Z && (n <=? 70)%Z then Some (n - 55)%Z
  else if (97 <=? n)%Z && (n <=? 102)%Z then Some (n - 87)%Z
  else None.

(** The longest run of digits at the head: its value, its length, the rest. *)
Fixpoint digits (s : list ascii) (acc : Z) (len : nat) : Z * nat * list ascii :=
  match s with
  | c :: s' =>
      match digit_of c with
      | Some d => digits s' (10 * acc + d)%Z (S len)
      | None => (acc, len, s)
      end
  | [] => (acc, len, s)
  end.

Fixpoint strip_prefix (p s : list ascii) : option (list ascii) :=
  match p, s with
  | [], _ => Some s
  | a :: p', b :: s' => if Ascii.eqb a b then strip_prefix p' s' else None
  | _ :: _, [] => None
  end.

Definition simple_escape (c : ascii) : option ascii :=
  if Ascii.eqb c dquote then Some dquote
  else if Ascii.eqb c "\" then Some "\"%char
  else if Ascii.eqb c "/" then Some "/"%char
  else if Ascii.eqb c "b" then Some "008"%char
  else if Ascii.eqb c "f" then Some "012"%char
  else if Ascii.eqb c "n" then Some "010"%char
  else if Ascii.eqb c "r" then Some "013"%char
  else if Ascii.eqb c "t" then Some "009"%char
  else None.

Definition unicode_escape (h1 h2 h3 h4 : ascii) : option ascii :=
  match hex_of h1, hex_of h2, hex_of h3, hex_of h4 with
  | Some a, Some b, Some c, Some d =>
      let n := (4096 * a + 256 * b + 16 * c + d)%Z in
      if (n <? 256)%Z then Some (ascii_of_nat (Z.to_nat n)) else None
  | _, _, _, _ => None
  end.

(** The characters of a string literal after its opening quote. *)
Fixpoint string_body (s : list ascii) (acc : string) : option (string * list ascii) :=
  match s with
  | [] => None
  | c :: s' =>
      if Ascii.eqb c dquote then Some (acc, s')
      else if Ascii.eqb c "\" then
        match s' with
        | e :: s'' =>
            if Ascii.eqb e "u" then
              match s'' with
              | h1 :: h2 :: h3 :: h4 :: rest =>
                  match unicode_escape h1 h2 h3 h4 with
                  | Some u => string_body rest (acc +:+ String u "")
                  | None => None
                  end
              | _ => None
              end
            else
              match simple_escape e with
              | Some u => string_body s'' (acc +:+ String u "")
              | None => None
              end
        | [] => None
        end
      else if (nat_of_ascii c <? 32)%nat then None
      else string_body s' (acc +:+ String c "")
  end.

(** [-? int frac? exp?], with no leading zero in [int]. *)
Definition number (s : list ascii) : option (value * list ascii) :=
  let '(neg, s0) :=
    match s with
    | c :: s' => if Ascii.eqb c "-" then (true, s') else (false, s)
    | [] => (false, s)
    end in
  let '(i, ilen, s1) := digits s0 0%Z 0%nat in
  let leading_zero :=
    match s0 with
    | c :: _ => Ascii.eqb c "0" && (1 <? ilen)%nat
    | [] => false
    end in
  if (ilen =? 0)%nat || leading_zero then None else
  let frac :=
    match s1 with
    | c :: s' =>
        if Ascii.eqb c "." then
          let '(f, flen, s2) := digits s' i 0%nat in
          if (flen =? 0)%nat then None else Some (f, flen, s2)
        else Some (i, 0%nat, s1)
    | [] => Some (i, 0%nat, s1)
    end in
  match frac with
  | None => None
  | Some (m, flen, s2) =>
      let sign := if neg then (-1)%Z else 1%Z in
      let expo :=
        match s2 with
        | c :: s' =>
            if Ascii.eqb c "e" || Ascii.eqb c "E" then
              let '(eneg, s3) :=
                match s' with
                | d :: s'' =>
                    if Ascii.eqb d "-" then (true, s'')
                    else if Ascii.eqb d "+" then (false, s'')
                    else (false, s')
                | [] => (false, s')
                end in
              let '(e, elen, s4) := digits s3 0%Z 0%nat in
              if (elen =? 0)%nat then None
              else Some ((if eneg then - e else e)%Z, s4)
            else Some (0%Z, s2)
        | [] => Some (0%Z, s2)
        end in
      match expo with
      | None => None
      | Some (e, s4) => Some (VNum (sign * m) (e - Z.of_nat flen), s4)
      end
  end.

Fixpoint parse_value (fuel : nat) (s : list ascii) : option (value * list ascii) :=
  match fuel with
  | O => None
  | S fuel' =>
      match skip_ws s with
      | [] => None
      | c :: s1 =>
          if Ascii.eqb c "{" then
            match skip_ws s1 with
            | c' :: s2 =>
                if Ascii.eqb c' "}" then Some (VObj [], s2)
                else parse_members fuel' s1 []
            | [] => None
            end
          else if Ascii.eqb c "[" then
            match skip_ws s1 with
            | c' :: s2 =>
                if Ascii.eqb c' "]" then Some (VArr [], s2)
                else parse_elements fuel' s1 []
            | [] => None
            end
          else if Ascii.eqb c dquote then
            match string_body s1 "" with
            | Some (str, s2) => Some (VStr str, s2)
            | None => None
            end
          else
            match strip_prefix (list_ascii_of_string "true") (c :: s1),
                  strip_prefix (list_ascii_of_string "false") (c :: s1),
                  strip_prefix (list_ascii_of_string "null") (c :: s1) with
            | Some s2, _, _ => Some (VBool true, s2)
            | _, Some s2, _ => Some (VBool false, s2)
            | _, _, Some s2 => Some (VNull, s2)
            | None, None, None => number (c :: s1)
            end
      end
  end
with parse_elements (fuel : nat) (s : list ascii) (acc : list value)
  : option (value * list ascii) :=
  match fuel with
  | O => None
  | S fuel' =>
      match parse_value fuel' s with
      | Some (v, s1) =>
          match skip_ws s1 with
          | c :: s2 =>
              if Ascii.eqb c "," then parse_elements fuel' s2 (acc ++ [v])
              else if Ascii.eqb c "]" then Some (VArr (acc ++ [v]), s2)
              else None
          | [] => None
          end
      | None => None
      end
  end
with parse_members (fuel : nat) (s : list ascii) (acc : list (string * value))
  : option (value * list ascii) :=
  match fuel with
  | O => None
  | S fuel' =>
      match skip_ws s with
      | q :: s1 =>
          if Ascii.eqb q dquote then
            match string_body s1 "" with
            | Some (key, s2) =>
                match skip_ws s2 with
                | c :: s3 =>
                    if Ascii.eqb c ":" then
                      match parse_value fuel' s3 with
                      | Some (v, s4) =>
                          match skip_ws s4 with
                          | c' :: s5 =>
                              if Ascii.eqb c' "," then parse_members fuel' s5 (obj_set key v acc)
                              else if Ascii.eqb c' "}" then Some (VObj (obj_set key v acc), s5)
                              else None
                          | [] => None
                          end
                      | None => None
                      end
                    else None
                | [] => None
                end
            | None => None
            end
          else None
      | [] => None
      end
  end.

Definition SyntaxError : thrown :=
  {| message := Some "Unexpected token in JSON";
     stack := Some "SyntaxError: Unexpected token in JSON";
     shown := "SyntaxError: Unexpected token in JSON" |}.

(** Every call of the three functions above consumes a character before it
    recurses twice, so twice the length of the text is fuel enough. *)
Definition parse (text : string) : Outcome value :=
  let s := list_ascii_of_string text in
  match parse_value (2 * length s + 2) s with
  | Some (v, rest) =>
      match skip_ws rest with
      | [] => Ret v
      | _ :: _ => Throw SyntaxError
      end
  | None => Throw SyntaxError
  end.

End Json.

(** Texts with double quotes in them are written with [q]. *)
Definition q : string := String dquote "".


(** ** Sample texts *)

(** [prefix {"a":1} middle [1,2,{"b":"}"}] suffix] *)
Definition sample_text : string :=
  "prefix {" +:+ q +:+ "a" +:+ q +:+ ":1} middle [1,2,{" +:+ q +:+ "b" +:+ q +:+ ":"
  +:+ q +:+ "}" +:+ q +:+ "}] suffix".

(** [{a:} then {"a":1}]: a candidate that does not parse, then one that does. *)
Definition malformed_then_valid : string :=
  "{a:} then {" +:+ q +:+ "a" +:+ q +:+ ":1}".

(** ** Computations on a state that may throw

    An [async] function of the sources runs to completion between two of its
    [await]s, and the embedded functions await every call they make unless
    said otherwise; so a call is a function from the state before to the
    outcome and the state after.  A thrown value leaves the state as it was
    when it was thrown. *)

Definition M (S A : Type) : Type := S -> Outcome A * S.

Definition ret {S A} (a : A) : M S A := fun s => (Ret a, s).

Definition throw {S A} (e : thrown) : M S A := fun s => (Throw e, s).

Definition bind {S A B} (m : M S A) (k : A -> M S B) : M S B :=
  fun s =>
    match m s with
    | (Ret a, s') => k a s'
    | (Throw e, s') => (Throw e, s')
    end.

(** [try { m } catch (e) { h e }] *)
Definition try_catch {S A} (m : M S A) (h : thrown -> M S A) : M S A :=
  fun s =>
    match m s with
    | (Ret a, s') => (Ret a, s')
    | (Throw e, s') => h e s'
    end.

Definition gets {S A} (f : S -> A) : M S A := fun s => (Ret (f s), s).

Definition modify {S} (f : S -> S) : M S unit := fun s => (Ret tt, f s).

Notation "x <- m ;; k" := (bind m (fun x => k))
  (at level 100, m at next level, right associativity,
   format "'[v' x  <-  m  ;;  '/' k ']'").
Notation "m ;;; k" := (bind m (fun _ => k))
  (at level 100, right associativity, format "'[v' m  ;;;  '/' k ']'").

(** An invariant [I] of the state that a computation keeps, however it ends,
    with a property [Q] of what it returns. *)
Definition keeps {S A} (I : S -> Prop) (m : M S A) (Q : A -> Prop) : Prop :=
  forall s, I s ->
    match m s with
    | (Ret a, s') => I s' /\ Q a
    | (Throw _, s') => I s'
    end.

(** ** Strings of the host *)

(** [s.split(sep)] for a separator of one character. *)
Fixpoint split_go (sep : ascii) (s : string) (cur : string) : list string :=
  match s with
  | EmptyString => [cur]
  | String c s' =>
      if Ascii.eqb c sep then cur :: split_go sep s' ""
      else split_go sep s' (cur +:+ String c "")
  end.

Definition str_split (sep : ascii) (s : string) : list string := split_go sep s "".

(** A number of the host is a double.  The texts of a version are turned
    into numbers by [Number], one is added to the last, and the numbers are
    turned into texts again by a template: the three operations are those of
    the language ([StringToNumber], the addition of doubles, and
    [Number::toString]), with the rounding to the nearest double, ties to
    the even one, taken from [SpecFloat].  A text is a text of characters
    below 256; of the white space of the language it can hold the six ASCII
    ones and the no-break space. *)

Definition is_space (c : ascii) : bool :=
  Ascii.eqb c " " || Ascii.eqb c "009" || Ascii.eqb c "010" || Ascii.eqb c "011"
  || Ascii.eqb c "012" || Ascii.eqb c "013" || Ascii.eqb c "160".

Fixpoint trim_left (s : string) : string :=
  match s with
  | String c s' => if is_space c then trim_left s' else s
  | EmptyString => EmptyString
  end.

Fixpoint trim_right (s : string) : string :=
  match s with
  | EmptyString => EmptyString
  | String c s' =>
      match trim_right s' with
      | EmptyString => if is_space c then EmptyString else String c EmptyString
      | String c' t => String c (String c' t)
      end
  end.

Definition trim (s : string) : string := trim_right (trim_left s).

(** A non-empty run of decimal digits. *)
Definition digits_value (s : string) : option Z :=
  match s with
  | EmptyString => None
  | String _ _ =>
      match DecimalString.NilEmpty.uint_of_string s with
      | Some d => Some (Z.of_N (N.of_uint d))
      | None => None
      end
  end.

Definition string_of_Z (z : Z) : string :=
  DecimalString.NilZero.string_of_int (Z.to_int z).

Definition is_digit (c : ascii) : bool :=
  (48 <=? nat_of_ascii c)%nat && (nat_of_ascii c <=? 57)%nat.

Fixpoint all_digits (s : string) : bool :=
  match s with
  | EmptyString => true
  | String c s' => is_digit c && all_digits s'
  end.

(** A number of the host: a double.  [Int z] is the double whose value is the
    integer [z], [Frac q] one whose value [q] is no integer; the two zeros
    are one here, since neither [+ 1] nor the conversion to a text tells
    them apart. *)
Inductive jsnum : Type :=
| NaN
| Inf (negative : bool)
| Int (z : Z)
| Frac (q : Q).

(** The value of a binary64 number of [SpecFloat]. *)
Definition of_spec (x : spec_float) : jsnum :=
  match x with
  | S754_zero _ => Int 0
  | S754_infinity s => Inf s
  | S754_nan => NaN
  | S754_finite s m e =>
      let z := if s then Z.neg m else Z.pos m in
      if (0 <=? e)%Z then Int (z * 2 ^ e)
      else
        let q := Qred (Qmake z (Z.to_pos (2 ^ (- e)))) in
        if (Qden q =? 1)%positive then Int (Qnum q) else Frac q
  end.

(** The double nearest to [num / den], ties to the even one: the division of
    [SpecFloat], which rounds the exact quotient once. *)
Definition nearest (num : Z) (den : positive) : jsnum :=
  match num with
  | Z0 => Int 0
  | Zpos p => of_spec (SFdiv 53 1024 (S754_finite false p 0) (S754_finite false den 0))
  | Zneg p => of_spec (SFdiv 53 1024 (S754_finite true p 0) (S754_finite false den 0))
  end.

(** Every integer up to [2^53] in absolute value is a double. *)
Definition safe (z : Z) : bool := (Z.abs z <=? 2 ^ 53)%Z.

Definition round_Z (z : Z) : jsnum := if safe z then Int z else nearest z 1.

Definition round_Q (q : Q) : jsnum :=
  let r := Qred q in
  if (Qden r =? 1)%positive then round_Z (Qnum r) else nearest (Qnum r) (Qden r).

Definition pow10 (n : Z) : Q :=
  if (0 <=? n)%Z then inject_Z (10 ^ n) else Qmake 1 (Z.to_pos (10 ^ (- n))).

(** ** [Number(s)], the grammar of [StringNumericLiteral] *)

Fixpoint span_digits (s : string) : string * string :=
  match s with
  | String c s' =>
      if is_digit c then let '(d, r) := span_digits s' in (String c d, r) else ("", s)
  | EmptyString => ("", "")
  end.

Definition digit_of (radix : Z) (c : ascii) : option Z :=
  let n := Z.of_nat (nat_of_ascii c) in
  let v := if (48 <=? n)%Z && (n <=? 57)%Z then Some (n - 48)%Z
           else if (97 <=? n)%Z && (n <=? 102)%Z then Some (n - 87)%Z
           else if (65 <=? n)%Z && (n <=? 70)%Z then Some (n - 55)%Z
           else None in
  match v with
  | Some d => if (d <? radix)%Z then Some d else None
  | None => None
  end.

Fixpoint radix_value (radix : Z) (s : string) (acc : Z) : option Z :=
  match s with
  | EmptyString => Some acc
  | String c s' =>
      match digit_of radix c with
      | Some d => radix_value radix s' (acc * radix + d)
      | None => None
      end
  end.

(** [0x], [0o] and [0b] literals, which take no sign. *)
Definition radix_of (c : ascii) : option Z :=
  if Ascii.eqb c "x" || Ascii.eqb c "X" then Some 16%Z
  else if Ascii.eqb c "o" || Ascii.eqb c "O" then Some 8%Z
  else if Ascii.eqb c "b" || Ascii.eqb c "B" then Some 2%Z
  else None.

Definition non_decimal (s : string) : option Z :=
  match s with
  | String z (String c (String d rest)) =>
      if Ascii.eqb z "0" then
        match radix_of c with
        | Some r => radix_value r (String d rest) 0
        | None => None
        end
      else None
  | _ => None
  end.

(** The digits of an empty run count as zero where the grammar lets the run
    be empty. *)
Definition digits_or_zero (s : string) : option Z :=
  match s with
  | EmptyString => Some 0%Z
  | _ => digits_value s
  end.

(** [ExponentPart]: nothing, or [e] or [E] and a signed run of digits. *)
Definition exponent_part (s : string) : option Z :=
  match s with
  | EmptyString => Some 0%Z
  | String c rest =>
      if Ascii.eqb c "e" || Ascii.eqb c "E" then
        match rest with
        | String "-" ds => option_map Z.opp (digits_value ds)
        | String "+" ds => digits_value ds
        | _ => digits_value rest
        end
      else None
  end.

(** [StrUnsignedDecimalLiteral] but [Infinity]: the mantissa as an integer
    and the power of ten it is multiplied by. *)
Definition unsigned_decimal (s : string) : option (Z * Z) :=
  let '(whole, rest) := span_digits s in
  match rest with
  | String "." rest' =>
      let '(fraction, rest'') := span_digits rest' in
      match whole, fraction with
      | EmptyString, EmptyString => None
      | _, _ =>
          match digits_or_zero (whole +:+ fraction), exponent_part rest'' with
          | Some m, Some e => Some (m, (e - Z.of_nat (String.length fraction))%Z)
          | _, _ => None
          end
      end
  | _ =>
      match digits_value whole, exponent_part rest with
      | Some m, Some e => Some (m, e)
      | _, _ => None
      end
  end.

Definition decimal_number (negative : bool) (s : string) : jsnum :=
  if String.eqb s "Infinity" then Inf negative
  else
    match unsigned_decimal s with
    | Some (m, e) =>
        let m' := if negative then (- m)%Z else m in
        if (0 <=? e)%Z then round_Z (m' * 10 ^ e) else round_Q (inject_Z m' * pow10 e)
    | None => NaN
    end.

(** [Number(s)]: the value of the text, rounded to the nearest double. *)
Definition Number (s : string) : jsnum :=
  match trim s with
  | EmptyString => Int 0
  | String c rest =>
      match non_decimal (String c rest) with
      | Some z => round_Z z
      | None =>
          if Ascii.eqb c "-" then decimal_number true rest
          else if Ascii.eqb c "+" then decimal_number false rest
          else decimal_number false (String c rest)
      end
  end.

(** ** [Number::toString] *)

Definition same (x : jsnum) (q : Q) : bool :=
  match x with
  | Int z => Qeq_bool (inject_Z z) q
  | Frac r => Qeq_bool r q
  | _ => false
  end.

(** For [q > 0], the [n] with [10^(n-1) <= q < 10^n]. *)
Definition decimal_length (z : Z) : Z := Z.of_nat (String.length (string_of_Z z)).

Definition magnitude (q : Q) : Z :=
  let n0 := (decimal_length (Qnum q) - decimal_length (Z.pos (Qden q)))%Z in
  if Qle_bool (pow10 n0) q then (n0 + 1)%Z else n0.

(** The least [k] from [k] on, and the [s] of [k] digits, such that
    [s * 10^(n-k)] is read back as [v]; of two such [s] the nearer to [v]. *)
Fixpoint shortest (fuel : nat) (k : Z) (v : Q) (n : Z) : Z * Z :=
  let unit := pow10 (n - k) in
  let lo := Qfloor (v / unit) in
  let hi := (lo + 1)%Z in
  let lo_ok := same (round_Q (inject_Z lo * unit)) v in
  let hi_ok := same (round_Q (inject_Z hi * unit)) v in
  let below := (v - inject_Z lo * unit)%Q in
  let above := (inject_Z hi * unit - v)%Q in
  match fuel with
  | O => (lo, k)
  | S fuel' =>
      if lo_ok && hi_ok then
        (if Qle_bool below above
         then (if Qeq_bool below above && Z.odd lo then (hi, k) else (lo, k))
         else (hi, k))
      else if lo_ok then (lo, k)
      else if hi_ok then (hi, k)
      else shortest fuel' (k + 1) v n
  end.

Fixpoint strip_zeros (rev_digits : list ascii) : list ascii :=
  match rev_digits with
  | c :: l => if Ascii.eqb c "0" then strip_zeros l else rev_digits
  | [] => []
  end.

Definition zeros (n : Z) : string := string_of_list_ascii (repeat "0"%char (Z.to_nat n)).

Definition take_string (n : Z) (s : string) : string :=
  string_of_list_ascii (firstn (Z.to_nat n) (list_ascii_of_string s)).

Definition skip_string (n : Z) (s : string) : string :=
  string_of_list_ascii (skipn (Z.to_nat n) (list_ascii_of_string s)).

(** The text of the digits [digits] with the decimal point after the [n]-th
    (steps 6 to 10 of [Number::toString]). *)
Definition place_point (digits : string) (n : Z) : string :=
  let k := Z.of_nat (String.length digits) in
  if (k <=? n)%Z && (n <=? 21)%Z then digits +:+ zeros (n - k)
  else if (0 <? n)%Z && (n <=? 21)%Z then take_string n digits +:+ "." +:+ skip_string n digits
  else if (-6 <? n)%Z && (n <=? 0)%Z then "0." +:+ zeros (- n) +:+ digits
  else
    let e := (n - 1)%Z in
    let exponent := (if (e <? 0)%Z then "-" else "+") +:+ string_of_Z (Z.abs e) in
    match digits with
    | String d EmptyString => String d "" +:+ "e" +:+ exponent
    | String d rest => String d "" +:+ "." +:+ rest +:+ "e" +:+ exponent
    | EmptyString => EmptyString
    end.

Definition show_positive (v : Q) : string :=
  let n := magnitude v in
  let '(s, k) := shortest 17 1 v n in
  let all := string_of_Z s in
  let digits := string_of_list_ascii (rev (strip_zeros (rev (list_ascii_of_string all)))) in
  place_point digits (n + (Z.of_nat (String.length all) - k)).

Definition show_Q (q : Q) : string :=
  if Qle_bool 0 q then show_positive q else "-" +:+ show_positive (- q).

(** [`${x}`] for a number that may be missing ([undefined]). *)
Definition show_num (x : option jsnum) : string :=
  match x with
  | None => "undefined"
  | Some NaN => "NaN"
  | Some (Inf false) => "Infinity"
  | Some (Inf true) => "-Infinity"
  | Some (Int z) => if safe z then string_of_Z z else show_Q (inject_Z z)
  | Some (Frac q) => show_Q q
  end.

(** [x + 1] *)
Definition plus_one (x : option jsnum) : option jsnum :=
  match x with
  | Some (Int z) => Some (round_Z (z + 1))
  | Some (Frac q) => Some (round_Q (q + 1))
  | Some (Inf s) => Some (Inf s)
  | _ => Some NaN
  end.

(** A key that is an array index: the canonical text of an integer below
    [2^32 - 1].  An object lists such keys first, in ascending order, and then
    its other keys in the order they were added. *)
Definition array_index (k : string) : option Z :=
  match digits_value k with
  | Some z => if String.eqb (string_of_Z z) k && (z <? 4294967295)%Z then Some z else None
  | None => None
  end.


(** A version text from its three components. *)
Definition show_version (major minor patch : Z) : string :=
  string_of_Z major +:+ "." +:+ string_of_Z minor +:+ "." +:+ string_of_Z patch.

(** ** The tool registry ([src/unnamed/part_000], the file of [class Tool] and
       [class ToolRegistry])

    The numbers of the metrics that are not counters (times, averages, the
    error rate) are doubles in the source.  Their arithmetic is a parameter
    here ([Arith]): the statements hold for every interpretation of the
    operations, the double one included; [Exact] is the instance used to
    evaluate examples.  Counters are integers.  Console output is not part of
    the state. *)

Module Registry.

Class Arith (num : Type) : Type := {
  of_Z : Z -> num;
  add : num -> num -> num;
  mul : num -> num -> num;
  div : num -> num -> num;
  num_min : num -> num -> num;
  num_max : num -> num -> num;
  infinity : num
}.

Section Model.
Context {num : Type} {arith : Arith num} {W : Type}.

Record TestResults : Type := {
  totalRuns : Z;
  passed : Z;
  failed : Z;
  lastRun : option Z
}.

Record ExecutionStats : Type := {
  totalExecutions : Z;
  averageExecutionTime : num;
  lastExecutionTime : option Z;
  fastestExecutionTime : num;
  slowestExecutionTime : num
}.

Record Metrics : Type := {
  versions : list string;
  totalUpdates : Z;
  lastUpdated : option Z;
  testResults : TestResults;
  executionStats : ExecutionStats;
  errorRate : num;
  usageCount : Z
}.

(** The argument pair [(updateType, data)] of the two [updateMetrics]. *)
Inductive update : Type :=
| UVersion (data : string)
| UTest (success : bool)
| UExecution (executionTime : Z)
| UError (data : bool)
| UUsage.

(** A schema is an object; [schema !== tool.schema] compares identities, so a
    schema carries its own. *)
Record Schema : Type := { schema_id : nat; schema_body : value }.

(** The fields of a [Tool] the embedded methods read or write.  [instance]
    tells an object built by [new Tool] from a plain object read back from
    the registry file by [JSON.parse], which has the fields but no method. *)
Record Tool : Type := {
  name : string;
  version : string;
  source : string;
  tags : option (list string);
  schema : option Schema;
  active : bool;
  testHarness : string;
  lastTestResult : option (bool * string);
  metrics : Metrics;
  instance : bool
}.

(** What the registry calls outside itself, as functions of the world [W]:
    the clock, the model behind [conversation.chat], the module a tool's
    source is imported from, [MetadataManager] (not in the sources at hand),
    the files and the listeners of [emit].  [emit] returns what the emitter
    does: an ['error'] event without a listener throws.  A tool object has
    more properties than [Tool] lists, its own and those it inherits:
    [tool_member] tells whether the property of that name counts as true. *)
Record Host : Type := {
  clock : W -> Z * W;
  harness_of : string -> option Schema -> W -> Outcome string * W;
  execute : string -> value -> W -> Outcome value * W;
  getMetadata : string -> W -> Outcome value * W;
  updateMetadata : string -> value -> W -> Outcome unit * W;
  writeRegistryFile : list Tool -> W -> W;
  writeMetricsFile : gmap string Metrics -> W -> W;
  writeToolFile : string -> option string -> W -> W;
  emit : string -> string -> W -> Outcome unit * W;
  tool_member : Tool -> string -> bool
}.

Variable host : Host.

(** The registry: [registryData.tools], the metrics table [metrics], and the
    world. *)
Record State : Type := {
  tools : list Tool;
  table : gmap string Metrics;
  world : W
}.

Definition set_tools (f : list Tool -> list Tool) (st : State) : State :=
  {| tools := f (tools st); table := table st; world := world st |}.

Definition set_table (f : gmap string Metrics -> gmap string Metrics) (st : State) : State :=
  {| tools := tools st; table := f (table st); world := world st |}.

Definition set_world (f : W -> W) (st : State) : State :=
  {| tools := tools st; table := table st; world := f (world st) |}.

(** A call into the world that may throw. *)
Definition ask {A} (f : W -> Outcome A * W) : M State A :=
  fun st => let '(r, w) := f (world st) in (r, set_world (fun _ => w) st).

Definition now : M State Z :=
  fun st => let '(t, w) := clock host (world st) in (Ret t, set_world (fun _ => w) st).

(** The [switch] of [Tool.updateMetrics] (405-437) and of
    [ToolRegistry.updateMetrics] (593-624): the same text twice. *)
Definition update_switch (u : update) (m : Metrics) (w : W) : Metrics * W :=
  match u with
  | UVersion data =>
      let '(t, w') := clock host w in
      ({| versions := versions m ++ [data];
          totalUpdates := totalUpdates m + 1;
          lastUpdated := Some t;
          testResults := testResults m;
          executionStats := executionStats m;
          errorRate := errorRate m;
          usageCount := usageCount m |}, w')
  | UTest success =>
      let '(t, w') := clock host w in
      let r := testResults m in
      ({| versions := versions m;
          totalUpdates := totalUpdates m;
          lastUpdated := lastUpdated m;
          testResults :=
            {| totalRuns := totalRuns r + 1;
               passed := if success then passed r + 1 else passed r;
               failed := if success then failed r else failed r + 1;
               lastRun := Some t |};
          executionStats := executionStats m;
          errorRate := errorRate m;
          usageCount := usageCount m |}, w')
  | UExecution executionTime =>
      let e := executionStats m in
      let n := (totalExecutions e + 1)%Z in
      ({| versions := versions m;
          totalUpdates := totalUpdates m;
          lastUpdated := lastUpdated m;
          testResults := testResults m;
          executionStats :=
            {| totalExecutions := n;
               averageExecutionTime :=
                 div (add (mul (averageExecutionTime e) (of_Z (n - 1))) (of_Z executionTime))
                     (of_Z n);
               lastExecutionTime := Some executionTime;
               fastestExecutionTime := num_min (fastestExecutionTime e) (of_Z executionTime);
               slowestExecutionTime := num_max (slowestExecutionTime e) (of_Z executionTime) |};
          errorRate := errorRate m;
          usageCount := usageCount m |}, w)
  | UError data =>
      ({| versions := versions m;
          totalUpdates := totalUpdates m;
          lastUpdated := lastUpdated m;
          testResults := testResults m;
          executionStats := executionStats m;
          errorRate :=
            div (add (mul (errorRate m) (of_Z (usageCount m)))
                     (of_Z (if data then 1 else 0)))
                (of_Z (usageCount m + 1));
          usageCount := usageCount m |}, w)
  | UUsage =>
      ({| versions := versions m;
          totalUpdates := totalUpdates m;
          lastUpdated := lastUpdated m;
          testResults := testResults m;
          executionStats := executionStats m;
          errorRate := errorRate m;
          usageCount := usageCount m + 1 |}, w)
  end.

(** The entry [ToolRegistry.updateMetrics] creates for a name it does not
    know (569-588). *)
Definition fresh_metrics : Metrics :=
  {| versions := [];
     totalUpdates := 0;
     lastUpdated := None;
     testResults := {| totalRuns := 0; passed := 0; failed := 0; lastRun := None |};
     executionStats :=
       {| totalExecutions := 0;
          averageExecutionTime := of_Z 0;
          lastExecutionTime := None;
          fastestExecutionTime := infinity;
          slowestExecutionTime := of_Z 0 |};
     errorRate := of_Z 0;
     usageCount := 0 |}.

(** [ToolRegistry.saveRegistry] (712-723) and [ToolRegistry.saveMetrics]
    (1227-1235): each catches what the write throws. *)
Definition saveRegistry : M State unit :=
  modify (fun st => set_world (writeRegistryFile host (tools st)) st).

Definition saveMetrics : M State unit :=
  modify (fun st => set_world (writeMetricsFile host (table st)) st).

(** [this.metrics[toolName]] counts as true although the table has no entry
    of that name: the table is a plain object, and the name is that of a
    member of [Object.prototype]. *)
Definition answered_by_prototype (toolName : string) (st : State) : bool :=
  match table st !! toolName with
  | Some _ => false
  | None => inherited toolName
  end.

(** The body of [ToolRegistry.updateMetrics] (567-627).  For a name the
    prototype answers, no entry is made: the updates that reach into
    [versions], [testResults] or [executionStats] throw, as the member has
    none of them, and the other two write a property of the member, which is
    no part of the table. *)
Definition updateMetrics_body (toolName : string) (u : update) : M State unit :=
  fun st =>
    if answered_by_prototype toolName st then
      match u with
      | UVersion _ => throw (TypeError "Cannot read properties of undefined (reading 'push')") st
      | UTest _ =>
          throw (TypeError "Cannot read properties of undefined (reading 'totalRuns')") st
      | UExecution _ =>
          throw (TypeError "Cannot read properties of undefined (reading 'totalExecutions')") st
      | UError _ | UUsage => saveMetrics st
      end
    else
      (modify (fun st =>
         let entry := default fresh_metrics (table st !! toolName) in
         let '(entry', w) := update_switch u entry (world st) in
         {| tools := tools st; table := <[toolName := entry']> (table st); world := w |}) ;;;
       saveMetrics) st.

(** [ToolRegistry.updateMetrics] as it is called: it is [async] and no caller
    awaits it, so what its body throws reaches nobody. *)
Definition updateMetrics (toolName : string) (u : update) : M State unit :=
  fun st => (Ret tt, snd (updateMetrics_body toolName u st)).

(** [tools.findIndex(t => t.name === name)] *)
Fixpoint findIndex (n : string) (l : list Tool) : option nat :=
  match l with
  | [] => None
  | t :: l' => if String.eqb (name t) n then Some O else option_map S (findIndex n l')
  end.

(** The methods of [Tool] act on [this]; here [this] is the tool at an index
    of [registryData.tools], where the registry keeps it. *)
Definition this (i : nat) : M State Tool :=
  fun st =>
    match tools st !! i with
    | Some t => (Ret t, st)
    | None => (Throw (TypeError "Cannot read properties of undefined"), st)
    end.

Definition set_metrics (m : Metrics) (t : Tool) : Tool :=
  {| name := name t; version := version t; source := source t; tags := tags t;
     schema := schema t; active := active t; testHarness := testHarness t;
     lastTestResult := lastTestResult t; metrics := m; instance := instance t |}.

(** [Tool.saveMetrics] (219-221). *)
Definition Tool_saveMetrics (i : nat) : M State unit :=
  t <- this i ;;
  updateMetrics (name t) (UVersion (version t)).

(** [Tool.updateMetrics] (405-439). *)
Definition Tool_updateMetrics (i : nat) (u : update) : M State unit :=
  t <- this i ;;
  modify (fun st =>
    let '(m, w) := update_switch u (metrics t) (world st) in
    {| tools := <[i := set_metrics m t]> (tools st); table := table st; world := w |}) ;;;
  Tool_saveMetrics i.

(** [Tool.call] (390-403).  [executor()] imports [this.source] and runs its
    [execute]; what that does is the host's [execute], which acts on the world
    and not on the registry. *)
Definition Tool_call (i : nat) (params : value) : M State value :=
  try_catch
    (Tool_updateMetrics i UUsage ;;;
     startTime <- now ;;
     t <- this i ;;
     result <- ask (execute host (source t) params) ;;
     endTime <- now ;;
     Tool_updateMetrics i (UExecution (endTime - startTime)) ;;;
     ret result)
    (fun error =>
       Tool_updateMetrics i (UError true) ;;;
       t <- this i ;;
       ask (emit host "error" ("Error executing tool " +:+ name t +:+ ":")) ;;;
       throw error).

(** [ToolRegistry.call] (502-508); a plain object has no [call]. *)
Definition call (n : string) (params : value) : M State value :=
  l <- gets tools ;;
  match findIndex n l with
  | Some i =>
      tool <- this i ;;
      if instance tool then Tool_call i params
      else throw (TypeError "tool.call is not a function")
  | None => throw (Error ("Tool not found: " +:+ n))
  end.

(** [ToolRegistry.incrementVersion] (971-974):
    [[major, minor, patch] = version.split('.').map(Number)], then
    [`${major}.${minor}.${patch + 1}`]. *)
Definition incrementVersion (v : string) : string :=
  let parts := map Number (str_split "." v) in
  let major := parts !! 0%nat in
  let minor := parts !! 1%nat in
  let patch := parts !! 2%nat in
  show_num major +:+ "." +:+ show_num minor +:+ "." +:+ show_num (plus_one patch).

(** [Tool.saveTool] (375-388).  Its callers do not await it, so what it
    throws reaches nobody: the outcome is dropped and the state kept.  [this]
    is written at the first index that has its name. *)
Definition Tool_saveTool (i : nat) : M State unit :=
  fun st =>
    (Ret tt,
     snd (try_catch
            (t <- this i ;;
             l <- gets tools ;;
             match findIndex (name t) l with
             | None => ask (emit host "error" ("Tool not found: " +:+ name t))
             | Some toolIndex =>
                 modify (set_tools (fun l => <[toolIndex := t]> l)) ;;;
                 saveRegistry ;;;
                 ask (emit host "info" ("Tool " +:+ name t +:+ " saved successfully."))
             end)
            (fun error => ask (emit host "error" "Error saving tool:"))
            st)).

Definition set_testHarness (h : string) (t : Tool) : Tool :=
  {| name := name t; version := version t; source := source t; tags := tags t;
     schema := schema t; active := active t; testHarness := h;
     lastTestResult := lastTestResult t; metrics := metrics t; instance := instance t |}.

(** [Tool.generateTestHarness] (223-258); the text the model returns for the
    messages built from [source] and [schema] is the host's [harness_of].  A
    plain object has no such method: calling it throws. *)
Definition Tool_generateTestHarness (i : nat) : M State unit :=
  t <- this i ;;
  if instance t then
    try_catch
      (text <- ask (harness_of host (source t) (schema t)) ;;
       modify (set_tools (fun l => <[i := set_testHarness text t]> l)) ;;;
       Tool_saveTool i ;;;
       ask (emit host "info" ("Test harness generated for tool " +:+ name t)))
      (fun error =>
         ask (emit host "error" ("Error generating test harness for tool " +:+ name t +:+ ":")))
  else throw (TypeError "tool.generateTestHarness is not a function").

(** [metadata.schema = schema], in strict mode. *)
Definition set_schema_field (metadata : value) (s : Schema) : Outcome value :=
  match metadata with
  | VObj fields => Ret (VObj (obj_set "schema" (schema_body s) fields))
  | VArr items => Ret (VArr items)
  | VUndef | VNull => Throw (TypeError "Cannot set properties of undefined (setting 'schema')")
  | _ => Throw (TypeError "Cannot create property 'schema'")
  end.

Definition lift {A} (o : Outcome A) : M State A := fun st => (o, st).

(** [schema !== tool.schema] for a schema that is given. *)
Definition differs (s : Schema) (current : option Schema) : bool :=
  match current with
  | Some c => negb (Nat.eqb (schema_id s) (schema_id c))
  | None => true
  end.

(** A string is truthy when it is not empty. *)
Definition truthy (s : option string) : bool :=
  match s with
  | Some (String _ _) => true
  | _ => false
  end.

Definition bump (newVersion : string) (newTags : option (list string)) (t : Tool) : Tool :=
  {| name := name t; version := newVersion; source := source t; tags := newTags;
     schema := schema t; active := true; testHarness := testHarness t;
     lastTestResult := lastTestResult t; metrics := metrics t; instance := instance t |}.

Definition set_source_schema (src : option string) (sch : option Schema) (t : Tool) : Tool :=
  {| name := name t; version := version t;
     source := if truthy src then default "" src else source t;
     tags := tags t;
     schema := match sch with Some s => Some s | None => schema t end;
     active := active t; testHarness := testHarness t;
     lastTestResult := lastTestResult t; metrics := metrics t; instance := instance t |}.

(** [ToolRegistry.saveToolToRepo] (881-890): it catches what the write
    throws. *)
Definition saveToolToRepo (n : string) (src : option string) : M State unit :=
  modify (set_world (writeToolFile host n src)).

(** [ToolRegistry.updateTool] (827-870), in two parts: what follows
    [tool.active = true] (841-865), then the whole. *)
Definition updateTool_rest (n : string) (src : option string) (sch : option Schema)
    (newVersion : string) (toolIndex : nat) : M State bool :=
  saveRegistry ;;;
  tool <- this toolIndex ;;
  (if match sch with Some s => differs s (schema tool) | None => false end
      || truthy src
   then
     modify (set_tools (fun l => <[toolIndex := set_source_schema src sch tool]> l)) ;;;
     match sch with
     | Some s =>
         metadata <- ask (getMetadata host n) ;;
         metadata' <- lift (set_schema_field metadata s) ;;
         ask (updateMetadata host n metadata')
     | None => ret tt
     end ;;;
     Tool_generateTestHarness toolIndex ;;;
     updateMetrics n (UVersion newVersion)
   else ret tt) ;;;
  saveToolToRepo n src ;;;
  updateMetrics n (UVersion newVersion) ;;;
  ret true.

Definition updateTool (n : string) (src : option string) (sch : option Schema)
    (newTags : option (list string)) : M State bool :=
  try_catch
    (l <- gets tools ;;
     match findIndex n l with
     | None => ret false
     | Some toolIndex =>
         tool <- this toolIndex ;;
         let newVersion := incrementVersion (version tool) in
         modify (set_tools (fun l => <[toolIndex := bump newVersion newTags tool]> l)) ;;;
         updateTool_rest n src sch newVersion toolIndex
     end)
    (fun error => ret false).

(** [tool.name === n] *)
Definition named (n : string) (t : Tool) : bool := String.eqb (name t) n.

(** [ToolRegistry.removeTool] (1167-1176). *)
Definition removeTool (n : string) : M State bool :=
  initialLength <- gets (fun st => length (tools st)) ;;
  modify (set_tools (filter (fun tool => name tool <> n))) ;;;
  newLength <- gets (fun st => length (tools st)) ;;
  let removed := (newLength <? initialLength)%nat in
  (if removed then saveRegistry else ret tt) ;;;
  ret removed.

(** The metrics after [updateMetrics('usage')], after
    [updateMetrics('execution', d)] and after [updateMetrics('error', true)];
    none of the three reads the clock, so the world is left where it is. *)
Definition used (m : Metrics) (w : W) : Metrics := fst (update_switch UUsage m w).

Definition executed (d : Z) (m : Metrics) (w : W) : Metrics :=
  fst (update_switch (UExecution d) m w).

Definition failed_once (m : Metrics) (w : W) : Metrics :=
  fst (update_switch (UError true) m w).

(** The error rate after a failed call as the specification words it:
    [(rate * usageCount + 1) / (usageCount + 1)], with the [usageCount] from
    before the call's own increment. *)
Definition spec_error_rate (rate : num) (usageCount_before : Z) : num :=
  div (add (mul rate (of_Z usageCount_before)) (of_Z 1)) (of_Z (usageCount_before + 1)).

(** The rest of [Tool.call] once [updateMetrics('usage')] has run: the [try]
    block from [Date.now()] on, and the [catch] block. *)
Definition Tool_call_rest (i : nat) (params : value) : M State value :=
  startTime <- now ;;
  t <- this i ;;
  result <- ask (execute host (source t) params) ;;
  endTime <- now ;;
  Tool_updateMetrics i (UExecution (endTime - startTime)) ;;;
  ret result.

Definition Tool_call_catch (i : nat) (error : thrown) : M State value :=
  Tool_updateMetrics i (UError true) ;;;
  t <- this i ;;
  ask (emit host "error" ("Error executing tool " +:+ name t +:+ ":")) ;;;
  throw error.

(** The tool [t] is named [n] and has version [v]; the registry finds the
    name [n] at index [i], where such a tool is. *)
Definition is_version (n v : string) (t : Tool) : Prop := version t = v /\ name t = n.

Definition at_version (n : string) (i : nat) (v : string) (st : State) : Prop :=
  findIndex n (tools st) = Some i /\
  exists t, tools st !! i = Some t /\ is_version n v t.

End Model.
End Registry.

(** ** Exact arithmetic, to evaluate examples

    Non-negative rationals with an infinity and a not-a-number; results are
    reduced so that equal numbers are equal terms. *)

Module Exact.

Inductive xnum : Type :=
| XNum (x : Q)
| XInf
| XNaN.

Definition xadd (a b : xnum) : xnum :=
  match a, b with
  | XNum x, XNum y => XNum (Qred (x + y))
  | XNaN, _ | _, XNaN => XNaN
  | _, _ => XInf
  end.

Definition xmul (a b : xnum) : xnum :=
  match a, b with
  | XNum x, XNum y => XNum (Qred (x * y))
  | XNaN, _ | _, XNaN => XNaN
  | XInf, XNum y | XNum y, XInf => if Qeq_bool y 0 then XNaN else XInf
  | XInf, XInf => XInf
  end.

Definition xdiv (a b : xnum) : xnum :=
  match a, b with
  | XNum x, XNum y =>
      if Qeq_bool y 0 then (if Qeq_bool x 0 then XNaN else XInf)
      else XNum (Qred (x / y))
  | XNaN, _ | _, XNaN => XNaN
  | XNum _, XInf => XNum 0
  | XInf, XNum _ => XInf
  | XInf, XInf => XNaN
  end.

Definition xmin (a b : xnum) : xnum :=
  match a, b with
  | XNum x, XNum y => if Qle_bool x y then a else b
  | XNaN, _ | _, XNaN => XNaN
  | XInf, _ => b
  | _, XInf => a
  end.

Definition xmax (a b : xnum) : xnum :=
  match a, b with
  | XNum x, XNum y => if Qle_bool x y then b else a
  | XNaN, _ | _, XNaN => XNaN
  | _, _ => XInf
  end.

#[global] Instance arith : Registry.Arith xnum := {|
  Registry.of_Z := fun z => XNum (inject_Z z);
  Registry.add := xadd;
  Registry.mul := xmul;
  Registry.div := xdiv;
  Registry.num_min := xmin;
  Registry.num_max := xmax;
  Registry.infinity := XInf
|}.

End Exact.

(** ** A small registry, to evaluate examples *)

Module RegistryExample.
Import Registry Exact.

Definition XTool : Type := Tool (num := xnum).
Definition XState : Type := State (num := xnum) (W := Z).

(** The world is the clock, in milliseconds.  A tool whose source is [fail]
    throws, any other returns [null] ten milliseconds later; nobody listens
    to ['error'] events. *)
Definition host : Host (num := xnum) (W := Z) := {|
  clock := fun w => (w, (w + 1)%Z);
  harness_of := fun _ _ w => (Ret "const testHarness = {}", w);
  execute := fun src _ w =>
    if String.eqb src "fail" then (Throw (Error "invalid parameter"), w)
    else (Ret VNull, (w + 10)%Z);
  getMetadata := fun _ w => (Ret (VObj []), w);
  updateMetadata := fun _ _ w => (Ret tt, w);
  writeRegistryFile := fun _ w => w;
  writeMetricsFile := fun _ w => w;
  writeToolFile := fun _ _ w => w;
  emit := fun event _ w =>
    if String.eqb event "error" then (Throw (Error "Unhandled error."), w) else (Ret tt, w);
  tool_member := fun _ k => inherited k
|}.

(** [new Tool(registry, n, '1.0.0', ..., src, [], schema)] *)
Definition new_tool (n src : string) : Tool (num := xnum) := {|
  name := n;
  version := "1.0.0";
  source := src;
  tags := Some [];
  schema := Some {| schema_id := 0; schema_body := VObj [] |};
  active := true;
  testHarness := "";
  lastTestResult := None;
  metrics := {|
    versions := ["1.0.0"];
    totalUpdates := 0;
    lastUpdated := Some 0%Z;
    testResults := {| totalRuns := 0; passed := 0; failed := 0; lastRun := None |};
    executionStats := {|
      totalExecutions := 0;
      averageExecutionTime := XNum 0;
      lastExecutionTime := None;
      fastestExecutionTime := XInf;
      slowestExecutionTime := XNum 0 |};
    errorRate := XNum 0;
    usageCount := 0 |};
  instance := true
|}.

(** Two tools, and a metrics entry for the first. *)
Definition registry : State (num := xnum) (W := Z) := {|
  tools := [new_tool "echo" "ok"; new_tool "flaky" "fail"];
  table := {[ "echo" := fresh_metrics ]};
  world := 1000%Z
|}.

End RegistryExample.

(** ** The assistant ([src/src/assistant/assistant.ts])

    The assistant's own state is its [store], the heap of the objects it
    shares, its retry counter, and what it has emitted, logged and waited
    for.  The objects of a plan and the array of results are cells of the
    heap: the store, the events and the context of a script hold references
    to them, and a change in place is seen through every reference.  What
    the assistant calls of [toolRegistry], [memoryStore],
    [confidenceCalculator] and [Conversation] is a function of the world [W]
    that may throw, and acts on the world; the evaluation of a script and
    the listeners of the events are given the assistant and its objects,
    and are functions of the whole state.  The store is an object: the key
    [__proto__] and the keys that are array indices are written like any
    other key here, and the statements about the store are about other
    keys. *)

Module Assistant.

(** [s.toLowerCase()], on the letters [A] to [Z]. *)
Definition lower_char (c : ascii) : ascii :=
  let n := nat_of_ascii c in
  if (65 <=? n)%nat && (n <=? 90)%nat then ascii_of_nat (n + 32) else c.

Fixpoint toLowerCase (s : string) : string :=
  match s with
  | EmptyString => EmptyString
  | String c s' => String (lower_char c) (toLowerCase s')
  end.

(** [s.includes(part)] *)
Fixpoint includes (part s : string) : bool :=
  String.prefix part s ||
  match s with
  | EmptyString => false
  | String _ s' => includes part s'
  end.

Definition retryableErrorMessages : list string :=
  ["network timeout"; "connection refused"; "server unavailable"].

(** [isRetryableError] (117-126).  A thrown value without a string [message]
    makes [error.message.toLowerCase()] throw. *)
Definition isRetryableError (error : thrown) : Outcome bool :=
  match message error with
  | Some msg => Ret (existsb (fun m => includes m (toLowerCase msg)) retryableErrorMessages)
  | None => Throw (TypeError "Cannot read properties of undefined (reading 'toLowerCase')")
  end.

(** [text.replace(/pattern/g, '')] for a pattern without operators: the
    occurrences are taken from the left and do not overlap. *)
Fixpoint remove_all_go (pattern : string) (skip : nat) (s : string) : string :=
  match s with
  | EmptyString => EmptyString
  | String c s' =>
      match skip with
      | S k => remove_all_go pattern k s'
      | O =>
          if String.prefix pattern s
          then remove_all_go pattern (String.length pattern - 1) s'
          else String c (remove_all_go pattern O s')
      end
  end.

Definition remove_all (pattern s : string) : string := remove_all_go pattern O s.

(** [text.replace(/pattern/g, replacement)], likewise. *)
Fixpoint replace_all_go (pattern replacement : string) (skip : nat) (s : string) : string :=
  match s with
  | EmptyString => EmptyString
  | String c s' =>
      match skip with
      | S k => replace_all_go pattern replacement k s'
      | O =>
          if String.prefix pattern s
          then replacement +:+ replace_all_go pattern replacement (String.length pattern - 1) s'
          else String c (replace_all_go pattern replacement O s')
      end
  end.

Definition replace_all (pattern replacement s : string) : string :=
  replace_all_go pattern replacement O s.

Definition newline : string := String "010" "".
Definition backtick : string := "`".

(** [unescapeTemplateLiteral] (698-700). *)
Definition unescapeTemplateLiteral (s : string) : string :=
  replace_all "\${" "${" (replace_all ("\" +:+ backtick) backtick s).

(** A word character of a regular expression. *)
Definition is_word (c : ascii) : bool :=
  let n := nat_of_ascii c in
  ((48 <=? n) && (n <=? 57) || (65 <=? n) && (n <=? 90) || (97 <=? n) && (n <=? 122)
   || (n =? 95))%nat.

Fixpoint word_prefix (s : string) : string :=
  match s with
  | String c s' => if is_word c then String c (word_prefix s') else EmptyString
  | EmptyString => EmptyString
  end.

Fixpoint drop_string (n : nat) (s : string) : string :=
  match n, s with
  | S k, String _ s' => drop_string k s'
  | _, _ => s
  end.

(** The names after [tools.] in a script, in order of appearance: the
    matches of [/tools\.(\w+)/g]. *)
Fixpoint tool_matches (skip : nat) (s : string) : list string :=
  match s with
  | EmptyString => []
  | String _ s' =>
      match skip with
      | S k => tool_matches k s'
      | O =>
          let w := word_prefix (drop_string 6 s) in
          if String.prefix "tools." s && negb (String.eqb w "")
          then w :: tool_matches (5 + String.length w) s'
          else tool_matches O s'
      end
  end.

Fixpoint dedup (l : list string) : list string :=
  match l with
  | [] => []
  | x :: l' => x :: filter (fun y => y <> x) (dedup l')
  end.

(** [extractUsedTools] (472-476); a script that is not a string has no
    [match]. *)
Definition extractUsedTools (script : value) : Outcome (list string) :=
  match script with
  | VStr s => Ret (dedup (tool_matches O s))
  | _ => Throw (TypeError "script.match is not a function")
  end.

(** Reading a property in a destructuring: [null] and [undefined] have
    none. *)
Definition get_field (k : string) (v : value) : Outcome value :=
  match v with
  | VObj fields => Ret (default VUndef (obj_get k fields))
  | VNull | VUndef => Throw (TypeError "Cannot destructure property of null or undefined")
  | _ => Ret VUndef
  end.

(** What a value is: the cell a reference points to, or the value itself. *)
Definition deref (h : list value) (v : value) : value :=
  match v with
  | VRef l => default VUndef (h !! l)
  | _ => v
  end.

(** The elements of an array. *)
Definition items_of (h : list value) (v : value) : list value :=
  match deref h v with
  | VArr items => items
  | _ => []
  end.

(** [target[k] = x] on an object of the heap. *)
Definition write_property (k : string) (x : value) (target : value) (h : list value)
    : list value :=
  match target with
  | VRef l =>
      match h !! l with
      | Some (VObj fields) => <[l := VObj (obj_set k x fields)]> h
      | _ => h
      end
  | _ => h
  end.

(** [target.push(x)] on an array of the heap. *)
Definition write_push (x : value) (target : value) (h : list value) : list value :=
  match target with
  | VRef l =>
      match h !! l with
      | Some (VArr items) => <[l := VArr (items ++ [x])]> h
      | _ => h
      end
  | _ => h
  end.

(** A list is gone through from the left, with a state. *)
Section Thread.
Context {A B S : Type}.
Variable f : A -> S -> B * S.

Fixpoint thread (l : list A) (s : S) : list B * S :=
  match l with
  | [] => ([], s)
  | x :: l' =>
      let '(y, s1) := f x s in
      let '(l'', s2) := thread l' s1 in
      (y :: l'', s2)
  end.

End Thread.

(** The objects and arrays of a tree become cells, the inner ones first;
    what is returned refers to the cell of the outermost. *)
Fixpoint allocate (v : value) (h : list value) : value * list value :=
  match v with
  | VArr items =>
      let '(items', h') := thread allocate items h in
      (VRef (length h'), h' ++ [VArr items'])
  | VObj fields =>
      let '(fields', h') :=
        thread (fun kx h => let '(x', h1) := allocate (snd kx) h in ((fst kx, x'), h1))
          fields h in
      (VRef (length h'), h' ++ [VObj fields'])
  | _ => (v, h)
  end.

(** [JSON.stringify] follows the references: every reference of a value is
    replaced by its cell, as often as the heap has cells; a reference that is
    left then lies on a circle. *)
Fixpoint follow (h : list value) (v : value) : value :=
  match v with
  | VRef l => default VUndef (h !! l)
  | VArr items => VArr (map (follow h) items)
  | VObj fields => VObj (map (fun kx => (fst kx, follow h (snd kx))) fields)
  | _ => v
  end.

Fixpoint has_ref (v : value) : bool :=
  match v with
  | VRef _ => true
  | VArr items => existsb has_ref items
  | VObj fields => existsb (fun kx => has_ref (snd kx)) fields
  | _ => false
  end.

Definition written (h : list value) (v : value) : option value :=
  let tree := Nat.iter (S (length h)) (follow h) v in
  if has_ref tree then None else Some tree.



(** The error of [JSON.stringify] on a circle; its message goes on with the
    path of the circle. *)
Definition circular : thrown := TypeError "Converting circular structure to JSON".

(** [taskName.split(':')], then the choice of [taskId] and [taskName]
    (405-410). *)
Definition taskId_of (taskName : string) : string :=
  match str_split ":" taskName with
  | first :: _ :: _ => first
  | _ => taskName
  end.

Definition taskName_of (taskName : string) : string :=
  match str_split ":" taskName with
  | _ :: second :: _ => second
  | _ => taskName
  end.

Definition task_identity (taskName : value) : Outcome (string * string) :=
  match taskName with
  | VStr s => Ret (taskId_of s, taskName_of s)
  | _ => Throw (TypeError "taskName.split is not a function")
  end.

Definition globalRetryLimit : Z := 100.

Section Model.
Context {W : Type}.

(** The assistant: [this.store]; the heap of the objects and arrays it has
    made or taken in, which the store, the events and the scripts refer to;
    the retry counter; the events emitted, the lines logged and the waits,
    in order; and the world. *)
Record State : Type := {
  store : list (string * value);
  heap : list value;
  globalRetryCount : Z;
  emitted : list (string * value);
  logged : list (string * string);
  slept : list Z;
  world : W
}.

Definition set_store (f : list (string * value) -> list (string * value)) (st : State) : State :=
  {| store := f (store st); heap := heap st; globalRetryCount := globalRetryCount st;
     emitted := emitted st; logged := logged st; slept := slept st; world := world st |}.

Definition set_heap (f : list value -> list value) (st : State) : State :=
  {| store := store st; heap := f (heap st); globalRetryCount := globalRetryCount st;
     emitted := emitted st; logged := logged st; slept := slept st; world := world st |}.

Definition set_globalRetryCount (f : Z -> Z) (st : State) : State :=
  {| store := store st; heap := heap st; globalRetryCount := f (globalRetryCount st);
     emitted := emitted st; logged := logged st; slept := slept st; world := world st |}.

Definition set_emitted (f : list (string * value) -> list (string * value)) (st : State) : State :=
  {| store := store st; heap := heap st; globalRetryCount := globalRetryCount st;
     emitted := f (emitted st); logged := logged st; slept := slept st; world := world st |}.

Definition set_logged (f : list (string * string) -> list (string * string)) (st : State) : State :=
  {| store := store st; heap := heap st; globalRetryCount := globalRetryCount st;
     emitted := emitted st; logged := f (logged st); slept := slept st; world := world st |}.

Definition set_slept (f : list Z -> list Z) (st : State) : State :=
  {| store := store st; heap := heap st; globalRetryCount := globalRetryCount st;
     emitted := emitted st; logged := logged st; slept := f (slept st); world := world st |}.

Definition set_world (f : W -> W) (st : State) : State :=
  {| store := store st; heap := heap st; globalRetryCount := globalRetryCount st;
     emitted := emitted st; logged := logged st; slept := slept st; world := f (world st) |}.

(** A call into the world that may throw. *)
Definition ask {A} (f : W -> Outcome A * W) : M State A :=
  fun st => let '(r, w) := f (world st) in (r, set_world (fun _ => w) st).

Definition lift {A} (o : Outcome A) : M State A := fun st => (o, st).

(** [log(level, message, 'Assistant')] *)
Definition log (level message : string) : M State unit :=
  modify (set_logged (fun l => l ++ [(level, message)])).

(** [await new Promise(resolve => setTimeout(resolve, duration))], also
    [pause] (113-115). *)
Definition pause (duration : Z) : M State unit :=
  modify (set_slept (fun l => l ++ [duration])).

(** The [try] block of [retryOperation] (132-137): one attempt. *)
Definition attempt {T} (operation : M State T) : M State T :=
  modify (set_globalRetryCount (fun n => n + 1)%Z) ;;;
  count <- gets globalRetryCount ;;
  (if (globalRetryLimit <? count)%Z then throw (Error "Global retry limit exceeded.")
   else ret tt) ;;;
  pause 1000 ;;;
  operation.

(** [delay * Math.pow(2, retries)] *)
Definition retryDelay (delay retries : Z) : Z := (delay * 2 ^ retries)%Z.

Definition retry_message (toolName : option string) (msg : string) (d : Z) : string :=
  match toolName with
  | Some n => "Error calling tool '" +:+ n +:+ "': " +:+ msg
  | None => "Error: " +:+ msg
  end +:+ ". Retrying in " +:+ string_of_Z d +:+ "ms...".

(** The [while (true)] loop of [retryOperation] (130-149).  Every turn that
    does not leave the loop adds one to [retries], and the loop is left when
    [retries >= maxRetries]: [left] is the number of turns that can still
    follow, [maxRetries - retries] (zero when that is negative). *)
Fixpoint retry_loop {T} (operation : M State T) (maxRetries delay : Z)
    (toolName : option string) (left : nat) (retries : Z) : M State T :=
  try_catch (attempt operation)
    (fun error =>
       match left with
       | O => throw error
       | S left' =>
           if (maxRetries <=? retries)%Z then throw error else
           retryable <- lift (isRetryableError error) ;;
           if negb retryable then throw error else
           let retries' := (retries + 1)%Z in
           log "warn" (retry_message toolName (default "" (message error))
                         (retryDelay delay retries')) ;;;
           pause (retryDelay delay retries') ;;;
           retry_loop operation maxRetries delay toolName left' retries'
       end).

(** [retryOperation] (128-150). *)
Definition retryOperation {T} (operation : M State T) (maxRetries delay : Z)
    (toolName : option string) : M State T :=
  retry_loop operation maxRetries delay toolName (Z.to_nat maxRetries) 0.

(** [callTool] (152-178): [retryOperation] with three retries and a delay of
    1000 ms.  The operation is the closure of lines 156-176: it loads the
    tool and calls it through the registry, with two recoveries, one of which
    calls [callTool] again; it is a parameter here. *)
Definition callTool {T} (operation : M State T) (toolName : string) : M State T :=
  retryOperation operation 3 1000 (Some toolName).

(** The error of the global ceiling; the state an attempt leaves when it is
    refused, and the state in which the operation starts when it is not. *)
Definition global_error : thrown := Error "Global retry limit exceeded.".

Definition counted (st : State) : State := set_globalRetryCount (fun n => n + 1)%Z st.

Definition started (st : State) : State := set_slept (fun l => l ++ [1000%Z]) (counted st).

(** The state after the warning and the wait that follow a failure that is
    retried. *)
Definition waiting (toolName : option string) (msg : string) (d : Z) (st : State) : State :=
  set_slept (fun l => l ++ [d])
    (set_logged (fun l => l ++ [("warn", retry_message toolName msg d)]) st).

(** The waits of a run of [left + 1] attempts that all fail and are all
    retried, from [retries] on: 1000 ms before each attempt, and the retry
    delay after each attempt but the last. *)
Fixpoint turns (delay retries : Z) (left : nat) : list Z :=
  match left with
  | O => [1000%Z]
  | S left' =>
      1000%Z :: retryDelay delay (retries + 1) :: turns delay (retries + 1) left'
  end.

(** An operation that throws [e] whenever it is run, and touches neither the
    counter nor the waits. *)
Definition fails_with {T} (e : thrown) (operation : M State T) : Prop :=
  forall st, exists st',
    operation st = (Throw e, st') /\
    globalRetryCount st' = globalRetryCount st /\ slept st' = slept st.

End Model.

(** The scores of the memories are doubles in the source; their
    multiplication, their comparison and the two thresholds are parameters. *)
Class Scores (num : Type) : Type := {
  times : num -> num -> num;
  gt : num -> num -> bool;
  CONFIDENCE_THRESHOLD : num;
  SIMILARITY_THRESHOLD : num;
  one : num
}.

Section Orchestrator.
Context {num : Type} {scores : Scores num} {W : Type}.

(** A memory as [findSimilarMemories] returns it. *)
Record Memory : Type := {
  input : string;
  response : string;
  confidence : num;
  similarity : num;
  usedTools : list string
}.

(** What a property of the context holds. *)
Inductive binding : Type :=
| Builtin (n : string)
| ToolsObject
| TaskResultsObject
| RegistryTool (n : string)
| ImportedTool (n : string)
| Stored (v : value).

(** The context [prepareContext] builds: [context.tools],
    [context.taskResults], and the own properties of [context] itself.  A
    script is evaluated inside [with (context)] in a function made by [new
    Function]: the names it can use are these properties, those the context
    inherits, and those of the function and of the global scope; what a
    script finds is left to [evaluate]. *)
Record Context : Type := {
  ctx_tools : list (string * binding);
  ctx_taskResults : list (string * value);
  ctx_properties : list (string * binding)
}.

(** What [callScript] tells the error log and the model about a failed
    attempt: the parts of [errDescription] (520-523). *)
Record Failure : Type := {
  attempt_number : nat;
  attempt_limit : nat;
  errorMessage : option string;
  failed_script : value;
  errorLine : option Z;
  stackTrace : string;
  availableTools : list string;
  inContext : list string;
  halfway : bool
}.

(** What the assistant calls outside itself.  Of [toolRegistry]:
    [predictLikelyTools], [getCompactRepresentation], [getTool] (the name of
    the tool it finds), [callTool] with the parameters [{}], the names in
    [tools], and the two calls that are not awaited
    ([analyzeAndCreateToolFromScript] through [considerAddingAsTool],
    [improveTools] through [optimizeScripts]), of which only the effect on the
    world is kept.  Of [memoryStore] and [confidenceCalculator]: their
    methods.  Of [Conversation]: the text of the reply to the prompt of
    [adaptMemoryToInput], to the prompt of the decomposition, and to the
    repair prompt of [callScript].  [evaluate] is the evaluation of a script
    in a context by [new Function], and [listeners] what the listeners of an
    event do: a script is given the tools, which are given the assistant, and
    the values of the store, a listener the payload of the event, so that
    both can read and change the objects of the heap, and a script the
    assistant itself; they are functions of the state of the assistant.
    [registry_tools] are the keys of [toolRegistry.tools] and
    [enumerable_tools] the names [for ... in] finds in it, which are the
    same unless the object has been given a prototype of its own.
    [errorLine_of] is the match of [/at .*? \(.*?:(\d+):\d+\)/];
    [importedTools] are the names exported by [./tools].  The memory store
    and the confidence calculator are given the value [JSON.stringify]
    writes, not its text. *)
Record Host : Type := {
  predictLikelyTools : string -> W -> Outcome (list string) * W;
  getCompactRepresentation : list string -> W -> Outcome string * W;
  getTool : value -> W -> Outcome (option string) * W;
  registry_callTool : string -> W -> Outcome value * W;
  registry_tools : W -> list string;
  enumerable_tools : W -> list string;
  analyzeAndCreateToolFromScript : value -> W -> W;
  improveTools : list value -> W -> W;
  findSimilarMemories : string -> num -> W -> Outcome (list Memory) * W;
  calculateRetrievalConfidence : num -> num -> W -> Outcome num * W;
  calculateInitialConfidence : num -> value -> W -> Outcome num * W;
  updateConfidence : num -> num -> W -> Outcome num * W;
  storeMemory : string -> value -> num -> W -> Outcome unit * W;
  updateMemory : string -> string -> num -> W -> Outcome unit * W;
  adapted_text : Memory -> string -> string -> W -> Outcome value * W;
  decomposition_text : string -> list Memory -> string -> string -> W -> Outcome value * W;
  repair_text : Failure -> W -> Outcome string * W;
  evaluate : value -> Context -> State (W := W) -> Outcome value * State (W := W);
  errorLogger_logError : Failure -> W -> Outcome unit * W;
  listeners : string -> value -> State (W := W) -> Outcome unit * State (W := W);
  errorLine_of : string -> option Z;
  importedTools : list string
}.

Variable host : Host.
Variable JSON_parse : string -> Outcome value.

Local Abbreviation St := (State (W := W)).

(** [this.emit(event, payload)] *)
Definition emit (event : string) (payload : value) : M St unit :=
  modify (set_emitted (fun l => l ++ [(event, payload)])) ;;;
  listeners host event payload.

(** [this.store[key] = v] *)
Definition store_set (key : string) (v : value) : M St unit :=
  modify (set_store (obj_set key v)).

(** [prepareContext] (596-633), as a function of the names in
    [toolRegistry.tools], of the names exported by [./tools] and of the store.
    A registry tool named [tools] or a stored key [taskResults] replaces the
    object of that name in the source, and the later writes go to the
    replacement; here they still go to the original object. *)
Definition build_context (registry imported : list string) (stored : list (string * value))
    : Context :=
  let builtins :=
    [("tools", ToolsObject); ("taskResults", TaskResultsObject);
     ("console", Builtin "console"); ("require", Builtin "require");
     ("fs", Builtin "fs"); ("path", Builtin "path"); ("axios", Builtin "axios");
     ("_", Builtin "lodash")] in
  let with_registry :=
    fold_left (fun c n =>
                 {| ctx_tools := obj_set n (RegistryTool n) (ctx_tools c);
                    ctx_taskResults := ctx_taskResults c;
                    ctx_properties := obj_set n (RegistryTool n) (ctx_properties c) |})
      registry
      {| ctx_tools := []; ctx_taskResults := []; ctx_properties := builtins |} in
  let with_imported :=
    fold_left (fun c n =>
                 {| ctx_tools := obj_set n (ImportedTool n) (ctx_tools c);
                    ctx_taskResults := ctx_taskResults c;
                    ctx_properties := obj_set n (ImportedTool n) (ctx_properties c) |})
      imported with_registry in
  fold_left (fun c kv =>
               {| ctx_tools := ctx_tools c;
                  ctx_taskResults := obj_set (fst kv) (snd kv) (ctx_taskResults c);
                  ctx_properties := obj_set (fst kv) (Stored (snd kv)) (ctx_properties c) |})
    stored with_imported.

Definition prepareContext : M St Context :=
  gets (fun st => build_context (enumerable_tools host (world st)) (importedTools host) (store st)).

(** [executeScript] (636-656). *)
Definition executeScript (script : value) (context : Context) : M St value :=
  evaluate host script context.

(** [extractErrorLine] (675-679); [stackTrace.match] needs a string. *)
Definition extractErrorLine (stackTrace : option string) : Outcome (option Z) :=
  match stackTrace with
  | Some s => Ret (errorLine_of host s)
  | None => Throw (TypeError "Cannot read properties of undefined (reading 'match')")
  end.

(** The [try] block of [callScript] (489-499). *)
Definition callScript_try (script : value) : M St value :=
  existingTool <- ask (getTool host script) ;;
  match existingTool with
  | Some n => ask (registry_callTool host n)
  | None =>
      modify (set_world (analyzeAndCreateToolFromScript host script)) ;;;
      context <- prepareContext ;;
      executeScript script context
  end.

(** The inner [try] of the [catch] block (527-549): ask the model for a
    repaired script; whatever goes wrong is logged and the script kept.  The
    reply is the text of [llmResponse.content[0].text]. *)
Definition repaired (script : value) (report : Failure) : M St value :=
  try_catch
    (text <- ask (repair_text host report) ;;
     reply <- lift (JSON_parse text) ;;
     modifiedScript <- lift (get_field "modifiedScript" reply) ;;
     explanation <- lift (get_field "explanation" reply) ;;
     log "info" (match explanation with VStr s => s | _ => "" end) ;;;
     match modifiedScript with
     | VStr s => ret (VStr (unescapeTemplateLiteral s))
     | _ => throw (TypeError "str.replace is not a function")
     end)
    (fun fixError =>
       log "error" ("Error attempting to fix the script: " +:+ shown fixError) ;;;
       ret script).

(** The [while] loop of [callScript] (486-553).  [retryCount] grows by one
    each turn and the loop is left when it reaches [retryLimit]: [left] is
    [retryLimit - retryCount], the number of turns that can still begin. *)
Fixpoint callScript_loop (retryLimit : nat) (left : nat) (retryCount : nat) (script : value)
    : M St value :=
  match left with
  | O => throw (Error "Reached end of callScript function. This should not happen.")
  | S left' =>
      try_catch (callScript_try script)
        (fun error =>
           log "error" ("Error calling script: " +:+ shown error) ;;;
           let retryCount' := S retryCount in
           if (retryLimit <=? retryCount')%nat then
             ask (errorLogger_logError host
                    {| attempt_number := retryCount'; attempt_limit := retryLimit;
                       errorMessage := message error; failed_script := script;
                       errorLine := None; stackTrace := default "" (stack error);
                       availableTools := []; inContext := []; halfway := false |}) ;;;
             throw (Error ("Script execution failed after "
                           +:+ string_of_Z (Z.of_nat retryLimit) +:+ " attempts."))
           else
             line <- lift (extractErrorLine (stack error)) ;;
             names <- gets (fun st => registry_tools host (world st)) ;;
             context <- prepareContext ;;
             let report :=
               {| attempt_number := retryCount'; attempt_limit := retryLimit;
                  errorMessage := message error; failed_script := script;
                  errorLine := line; stackTrace := default "" (stack error);
                  availableTools := names; inContext := obj_keys (ctx_properties context);
                  halfway := (2 * retryCount' =? retryLimit)%nat |} in
             ask (errorLogger_logError host report) ;;;
             script' <- repaired script report ;;
             pause (1000 * Z.of_nat retryCount') ;;;
             callScript_loop retryLimit left' retryCount' script')
  end.

(** [callScript] (483-556). *)
Definition callScript (script : value) (retryLimit : nat) : M St value :=
  callScript_loop retryLimit retryLimit 0 script.

(** [selectBestMemory] (211-215): [reduce] without an initial value, on
    memories paired with their adjusted confidence.  On an empty array
    [reduce] throws. *)
Definition better (best current : Memory * num) : Memory * num :=
  if gt (times (confidence (fst current)) (similarity (fst current)))
        (times (confidence (fst best)) (similarity (fst best)))
  then current else best.

Definition selectBestMemory (memories : list (Memory * num)) : Outcome (Memory * num) :=
  match memories with
  | [] => Throw (TypeError "Reduce of empty array with no initial value")
  | first :: rest => Ret (fold_left better rest first)
  end.

(** [updateMemoryConfidence] (478-481). *)
Definition updateMemoryConfidence (memory : Memory) : M St unit :=
  newConfidence <- ask (updateConfidence host (confidence memory) (similarity memory)) ;;
  ask (updateMemory host (input memory) (response memory) newConfidence).

(** [for (const x of l) await f(x)] *)
Fixpoint for_each {A} (f : A -> M St unit) (l : list A) : M St unit :=
  match l with
  | [] => ret tt
  | x :: l' => f x ;;; for_each f l'
  end.

(** [similarMemories.map(memory => ({...memory, adjustedConfidence}))]
    (251-254). *)
Fixpoint adjust (memories : list Memory) : M St (list (Memory * num)) :=
  match memories with
  | [] => ret []
  | memory :: rest =>
      adjusted <- ask (calculateRetrievalConfidence host (confidence memory) (similarity memory)) ;;
      others <- adjust rest ;;
      ret ((memory, adjusted) :: others)
  end.

(** A new object or array. *)
Definition alloc (cell : value) : M St value :=
  fun st => (Ret (VRef (length (heap st))), set_heap (fun h => h ++ [cell]) st).

(** Reading a property of a value in a destructuring. *)
Definition field (k : string) (v : value) : M St value :=
  fun st => (get_field k (deref (heap st) v), st).

(** The object [rout] (432). *)
Definition rout (taskId taskName : string) (script sr : value) : value :=
  VObj [("id", VStr taskId); ("task", VStr taskName); ("script", script); ("result", sr)].

(** The body of the [for] loop of [callAgent] (404-435), for one task.  The
    task is the object of the plan itself: [task.scriptResult = sr] changes
    the object the store has under [<taskId>_task] and the array of tasks
    has as its element.  A task that gets as far as that assignment is an
    object, since its [task] is a text. *)
Definition run_task (task results : value) : M St unit :=
  taskName <- field "task" task ;;
  script <- field "script" task ;;
  chat <- field "chat" task ;;
  ids <- lift (task_identity taskName) ;;
  let taskId := fst ids in
  let taskName := snd ids in
  store_set "currentTaskId" (VStr taskId) ;;;
  emit "taskId" (VStr taskId) ;;;
  store_set (taskId +:+ "_task") task ;;;
  emit (taskId +:+ "_task") task ;;;
  store_set (taskId +:+ "_chat") chat ;;;
  emit (taskId +:+ "_chat") chat ;;;
  store_set (taskId +:+ "_script") script ;;;
  emit (taskId +:+ "_script") script ;;;
  sr <- callScript script 10 ;;
  modify (set_heap (write_property "scriptResult" sr task)) ;;;
  toolsUsedInScript <- lift (extractUsedTools script) ;;
  store_set (taskId +:+ "_result") sr ;;;
  store_set (taskId +:+ "_results") sr ;;;
  r <- alloc (rout taskId taskName script sr) ;;
  emit (taskId +:+ "_results") r ;;;
  modify (set_heap (write_push r results)).

(** The loop (403-436), from the index [i] on: each turn takes the element
    the array has at the index when the turn begins.  [turns] is the length
    of the array when the loop begins: a script that adds tasks to the array
    while the loop runs is followed for that many turns. *)
Fixpoint run_tasks (turns : nat) (i : nat) (tasks results : value) : M St unit :=
  match turns with
  | O => ret tt
  | S turns' =>
      items <- gets (fun st => items_of (heap st) tasks) ;;
      match items !! i with
      | None => ret tt
      | Some task => run_task task results ;;; run_tasks turns' (S i) tasks results
      end
  end.

(** [if (Array.isArray(tasks[0])) tasks = tasks[0]] (395-397). *)
Definition planned (tasks : value) : M St value :=
  gets (fun st =>
          match items_of (heap st) tasks with
          | first :: _ =>
              match deref (heap st) first with
              | VArr _ => first
              | _ => tasks
              end
          | [] => tasks
          end).

(** [JSON.stringify(v)] *)
Definition JSON_stringify (v : value) : M St value :=
  fun st =>
    match written (heap st) v with
    | Some tree => (Ret tree, st)
    | None => (Throw circular, st)
    end.

(** The text of the model's reply made ready for the extractor (374-376). *)
Definition clean (text : string) : string :=
  remove_all newline
    (remove_all (backtick +:+ backtick +:+ backtick)
       (remove_all (backtick +:+ backtick +:+ backtick +:+ "json") text)).

(** [if (resultVar) this.store[resultVar] = results] *)
Definition store_results (resultVar : option string) (results : value) : M St unit :=
  match resultVar with
  | Some (String c k) => store_set (String c k) results
  | _ => ret tt
  end.

(** The plan is run (384-436): the array the extractor returned becomes
    cells, [results] is a new array, and the loop goes through the tasks.
    What is returned is the array the loop went through, and [results]. *)
Definition run_plan (request : string) (resultVar : option string) (tasks : list value)
    : M St (value * value) :=
  tasks <- (fun st => let '(r, h) := allocate (VArr tasks) (heap st) in
                      (Ret r, set_heap (fun _ => h) st)) ;;
  results <- alloc (VArr []) ;;
  store_set request tasks ;;;
  tasks <- planned tasks ;;
  store_results resultVar results ;;;
  turns <- gets (fun st => length (items_of (heap st) tasks)) ;;
  run_tasks turns 0 tasks results ;;;
  ret (tasks, results).

(** The run is remembered (438-455). *)
Definition remember_plan (request : string) (similarMemories : list Memory)
    (resultVar : option string) (tasks results : value) : M St value :=
  newMemory <- JSON_stringify tasks ;;
  initialConfidence <- ask (calculateInitialConfidence host one newMemory) ;;
  ask (storeMemory host request newMemory initialConfidence) ;;;
  for_each updateMemoryConfidence similarMemories ;;;
  store_results resultVar results ;;;
  items <- gets (fun st => items_of (heap st) tasks) ;;
  modify (set_world (improveTools host items)) ;;;
  ret results.

(** The [try] block of [callAgent] (245-456). *)
Definition callAgent_try (request model : string) (resultVar : option string) : M St value :=
  relevantTools <- ask (predictLikelyTools host request) ;;
  similarMemories <- ask (findSimilarMemories host request SIMILARITY_THRESHOLD) ;;
  reused <-
    match similarMemories with
    | [] => ret None
    | _ :: _ =>
        adjustedMemories <- adjust similarMemories ;;
        bestMemory <- lift (selectBestMemory adjustedMemories) ;;
        if gt (snd bestMemory) CONFIDENCE_THRESHOLD then
          adaptedResponse <- ask (adapted_text host (fst bestMemory) request model) ;;
          updateMemoryConfidence (fst bestMemory) ;;;
          ret (Some adaptedResponse)
        else ret None
    end ;;
  match reused with
  | Some adaptedResponse => ret adaptedResponse
  | None =>
      toolsRepresentation <- ask (getCompactRepresentation host relevantTools) ;;
      reply <- ask (decomposition_text host toolsRepresentation similarMemories request model) ;;
      text <- match reply with
              | VStr s => ret s
              | _ => throw (TypeError "tasks.replace is not a function")
              end ;;
      extracted <-
        try_catch (objs <- lift (Extractor.extractJson JSON_parse (clean text)) ;; ret (objs, ""))
                  (fun error => ret ([], default "undefined" (message error))) ;;
      let tasks := fst extracted in
      let message := snd extracted in
      match tasks with
      | [] =>
          log "error" message ;;;
          throw (Error ("The task must be an array of subtasks. Check the format and try again. RETURN ONLY JSON RESPONSES"
                        +:+ message))
      | first :: _ =>
          ran <- run_plan request resultVar tasks ;;
          remember_plan request similarMemories resultVar (fst ran) (snd ran)
      end
  end.

(** What [callAgent] resolves to: [{success: true, data}] or
    [{success: false, error}]. *)
Inductive AgentResult : Type :=
| Success (data : value)
| Failed (error : thrown).

(** [callAgent] (240-460). *)
Definition callAgent (request model : string) (resultVar : option string)
    : M St AgentResult :=
  try_catch
    (data <- callAgent_try request model resultVar ;; ret (Success data))
    (fun error => ret (Failed error)).



End Orchestrator.
End Assistant.

(** ** An assistant, to evaluate examples *)

Module AssistantExample.
Import Assistant.

(** A new assistant, in a world without content. *)
Definition fresh : State (W := unit) :=
  {| store := []; heap := []; globalRetryCount := 0; emitted := []; logged := [];
     slept := []; world := tt |}.

(** The same after 101 attempts. *)
Definition worn : State (W := unit) := set_globalRetryCount (fun _ => 101%Z) fresh.

(** Scores as rationals. *)
#[global] Instance scores : Scores Q := {|
  times := Qmult;
  gt := fun a b => negb (Qle_bool a b);
  CONFIDENCE_THRESHOLD := (8 # 10)%Q;
  SIMILARITY_THRESHOLD := (9 # 10)%Q;
  one := 1%Q
|}.

Definition quoted (s : string) : string := q +:+ s +:+ q.

Definition member (k v : string) : string := quoted k +:+ ":" +:+ quoted v.

(** A plan of two subtasks; the first declares the result variable [r], the
    script of the second reads [reads] from [taskResults]:
    [[{"task":"a:first","script":"return 1","chat":"one","resultVar":"r"},
      {"task":"b:second","script":"return taskResults.<reads>","chat":"two"}]],
    between code fences. *)
Definition plan (reads : string) : string :=
  backtick +:+ backtick +:+ backtick +:+ "json" +:+ newline
  +:+ "[{" +:+ member "task" "a:first" +:+ "," +:+ member "script" "return 1" +:+ ","
  +:+ member "chat" "one" +:+ "," +:+ member "resultVar" "r" +:+ "},"
  +:+ newline
  +:+ "{" +:+ member "task" "b:second" +:+ ","
  +:+ member "script" ("return taskResults." +:+ reads) +:+ ","
  +:+ member "chat" "two" +:+ "}]" +:+ newline
  +:+ backtick +:+ backtick +:+ backtick.

(** What the two scripts evaluate to: [return 1] to 1, and
    [return taskResults.x] to the property [x] of [taskResults]. *)
Definition first_result (_ : Context) : value := VNum 1 0.

Definition read_result (x : string) (ctx : Context) : value :=
  default VUndef (obj_get x (ctx_taskResults ctx)).

(** What the two scripts of [plan reads] evaluate to; no other text is a
    script. *)
Definition scripts (reads : string) (script : value) (ctx : Context) : Outcome value :=
  match script with
  | VStr "return 1" => Ret (first_result ctx)
  | VStr s =>
      if String.eqb s ("return taskResults." +:+ reads) then Ret (read_result reads ctx)
      else Throw (Error "Unexpected token")
  | _ => Throw (TypeError "not a script")
  end.

(** A host without memories and without registered tools other than [bash]:
    the model answers the decomposition with [reply] and repairs nothing,
    scripts evaluate as [run] says, and the memory store accepts a new memory
    or throws [stored]. *)
Definition make_host (reply : Outcome value) (run : value -> Context -> Outcome value)
    (stored : Outcome unit) : Host (num := Q) (W := unit) := {|
  predictLikelyTools := fun _ w => (Ret [], w);
  getCompactRepresentation := fun _ w => (Ret "bash(command) - run a command", w);
  getTool := fun _ w => (Ret None, w);
  registry_callTool := fun _ w => (Ret VUndef, w);
  registry_tools := fun _ => ["bash"];
  enumerable_tools := fun _ => ["bash"];
  analyzeAndCreateToolFromScript := fun _ w => w;
  improveTools := fun _ w => w;
  findSimilarMemories := fun _ _ w => (Ret [], w);
  calculateRetrievalConfidence := fun _ _ w => (Ret 1%Q, w);
  calculateInitialConfidence := fun _ _ w => (Ret 1%Q, w);
  updateConfidence := fun _ _ w => (Ret 1%Q, w);
  storeMemory := fun _ _ _ w => (stored, w);
  updateMemory := fun _ _ _ w => (Ret tt, w);
  adapted_text := fun _ _ _ w => (Ret VUndef, w);
  decomposition_text := fun _ _ _ _ w => (reply, w);
  repair_text := fun _ w => (Throw (Error "no model"), w);
  evaluate := fun script ctx st => (run script ctx, st);
  errorLogger_logError := fun _ w => (Ret tt, w);
  listeners := fun _ _ st => (Ret tt, st);
  errorLine_of := fun _ => None;
  importedTools := []
|}.

(** The model answers with [plan reads] and everything works. *)
Definition host (reads : string) : Host (num := Q) (W := unit) :=
  make_host (Ret (VStr (plan reads))) (scripts reads) (Ret tt).

(** The fields of the two tasks of [plan reads]. *)
Definition first_task : list (string * value) :=
  [("task", VStr "a:first"); ("script", VStr "return 1"); ("chat", VStr "one");
   ("resultVar", VStr "r")].

Definition second_task (reads : string) : list (string * value) :=
  [("task", VStr "b:second"); ("script", VStr ("return taskResults." +:+ reads));
   ("chat", VStr "two")].

Definition refused : thrown := Error "connection refused while dialing".

Definition invalid : thrown := Error "invalid parameter".

End AssistantExample.

(** ** Tactics *)

(** Name the components of every pair the goal takes apart. *)
Ltac break_pairs :=
  repeat match goal with
         | |- context [match ?x with (_, _) => _ end] => destruct x eqn:?
         end.


(** ** What the extractor's results are made of *)

Module ExtractorMore.
Import Extractor.

(** A candidate of the scan inside a text: a piece of the text that begins
    with an opening bracket, ends with a closing one and parses to [v]. *)
Definition parsed_piece {A} (parse : string -> Outcome A) (content : string) (v : A) : Prop :=
  exists pre o body c post,
    content = pre +:+ (String o body +:+ String c "") +:+ post /\
    is_open o = true /\ is_close c = true /\
    parse (String o body +:+ String c "") = Ret v.

(** What the scan knows after the characters [done] of [done ++ todo]. *)
Definition pieces_so_far {A} (parse : string -> Outcome A) (done todo : list ascii)
    (st : scan A) : Prop :=
  (exists pre, done = pre ++ list_ascii_of_string (currentJson st)) /\
  (0 < depth st -> exists o rest, currentJson st = String o rest /\ is_open o = true)%Z /\
  Forall (parsed_piece parse (string_of_list_ascii (done ++ todo))) (jsonObjects st).

(** Two scans of the same characters that differ only in what precedes the
    last opening bracket at depth zero. *)
Definition same_from_here {A} (before : list A) (st st' : scan A) : Prop :=
  depth st = depth st' /\ inString st = inString st' /\ escapeNext st = escapeNext st' /\
  ((0 < depth st)%Z -> currentJson st = currentJson st') /\
  jsonObjects st = before ++ jsonObjects st'.

End ExtractorMore.

(** ** Ranking of memories, waits and the properties of the context *)

Module Ranking.
Import Assistant.
Section Ranking.
Context {num : Type} {scores : Scores num}.

(** What [selectBestMemory] compares: [confidence * similarity]. *)
Definition score (m : Memory (num := num) * num) : num :=
  times (confidence (fst m)) (similarity (fst m)).

(** The scripts a repair can leave: the one it was given, or a text the
    model sent, unescaped. *)
Definition repair_of (script script' : value) : Prop :=
  script' = script \/ exists s, script' = VStr (unescapeTemplateLiteral s).


(** The properties of the context that are not results of subtasks. *)
Definition builtins : list (string * binding) :=
  [("tools", ToolsObject); ("taskResults", TaskResultsObject);
   ("console", Builtin "console"); ("require", Builtin "require");
   ("fs", Builtin "fs"); ("path", Builtin "path"); ("axios", Builtin "axios");
   ("_", Builtin "lodash")].

(** What the context has under a name as its own property, by precedence: a
    key of the store, then a tool of [./tools], then a tool of the registry,
    then one of the properties it starts with. *)
Definition resolve (registry imported : list string) (stored : list (string * value))
    (k : string) : option binding :=
  match obj_get k stored with
  | Some v => Some (Stored v)
  | None =>
      if decide (k ∈ imported) then Some (ImportedTool k)
      else if decide (k ∈ registry) then Some (RegistryTool k)
      else obj_get k builtins
  end.

End Ranking.
End Ranking.

(** ** An assistant with a memory, to evaluate examples *)

Module MemoryExample.
Import Assistant.

(** A request answered before, and a less similar one. *)
Definition remembered : Memory (num := Q) :=
  {| input := "list the files"; response := "ls"; confidence := (9 # 10)%Q;
     similarity := (95 # 100)%Q; usedTools := ["bash"] |}.

Definition vague : Memory (num := Q) :=
  {| input := "show things"; response := "echo"; confidence := (5 # 10)%Q;
     similarity := (91 # 100)%Q; usedTools := [] |}.

(** The retrieval confidence is the product of confidence and similarity. *)
Definition retrieval (confidence similarity : Q) : Q := Qmult confidence similarity.

(** A host that remembers [remembered] and [vague] for every request, and
    whose model adapts a remembered response to [ls -a]; no script can be
    evaluated. *)
Definition host : Host (num := Q) (W := unit) := {|
  predictLikelyTools := fun _ w => (Ret ["bash"], w);
  getCompactRepresentation := fun _ w => (Ret "bash(command) - run a command", w);
  getTool := fun _ w => (Ret None, w);
  registry_callTool := fun _ w => (Ret VUndef, w);
  registry_tools := fun _ => ["bash"];
  enumerable_tools := fun _ => ["bash"];
  analyzeAndCreateToolFromScript := fun _ w => w;
  improveTools := fun _ w => w;
  findSimilarMemories := fun _ _ w => (Ret [vague; remembered], w);
  calculateRetrievalConfidence := fun c s w => (Ret (retrieval c s), w);
  calculateInitialConfidence := fun _ _ w => (Ret 1%Q, w);
  updateConfidence := fun c _ w => (Ret c, w);
  storeMemory := fun _ _ _ w => (Ret tt, w);
  updateMemory := fun _ _ _ w => (Ret tt, w);
  adapted_text := fun _ _ _ w => (Ret (VStr "ls -a"), w);
  decomposition_text := fun _ _ _ _ w => (Throw (Error "not asked"), w);
  repair_text := fun _ w => (Throw (Error "no model"), w);
  evaluate := fun _ _ st => (Throw (Error "x is not defined"), st);
  errorLogger_logError := fun _ w => (Ret tt, w);
  listeners := fun _ _ st => (Ret tt, st);
  errorLine_of := fun _ => None;
  importedTools := ["bash"]
|}.

End MemoryExample.

(** ** More of the registry ([src/unnamed/part_000])

    [getToolHistory], the getter [tools], [getTool], [rollbackTool],
    [addTool], [addAutoGeneratedTool], [ToolRegistry.callTool], [loadTool]
    and [Tool.runTests]. *)

Module RegistryOps.
Import Registry.

Section Model.
Context {num : Type} {arith : Arith num} {W : Type}.

(** What these methods call outside the registry, besides [Registry.Host]:
    the listeners of the registry's own events; the text the model returns
    to [standardizeTool]; the default export of the module
    [<repoPath>/<name>.js]; the run of the default export of the module at a
    tool's [_path], a path made of its name, on the parameters; the same for
    the path [undefined], which is what a value that is no tool has for
    [_path]; the run of a test harness, that is of the function made of
    [return] followed by its text, with the [beforeAll] and the tests of the
    object it returns, whose [log] and [assert] emit events of the tool. *)
Record Services : Type := {
  registry_listeners : string -> string -> W -> Outcome unit * W;
  standardized : string -> string -> option Schema -> W -> Outcome string * W;
  import_module : string -> W -> Outcome value * W;
  run_module : string -> value -> W -> Outcome value * W;
  run_missing : value -> W -> Outcome value * W;
  run_harness : string -> string -> W -> Outcome unit * W
}.

Variable host : Host (num := num) (W := W).
Variable services : Services.

Local Abbreviation St := (State (num := num) (W := W)).
Local Abbreviation ToolT := (Tool (num := num)).

(** [this.emit(event, message)] of the registry. *)
Definition registry_emit (event message : string) : M St unit :=
  ask (registry_listeners services event message).

(** An entry of the metrics table after the version [v] has been recorded
    in it, and nothing else. *)
Definition recorded (v : string) (before after : Metrics (num := num)) : Prop :=
  versions after = versions before ++ [v] /\
  totalUpdates after = (totalUpdates before + 1)%Z /\
  testResults after = testResults before /\
  executionStats after = executionStats before /\
  errorRate after = errorRate before /\
  usageCount after = usageCount before.

(** The entry of a name in the table, or the one [updateMetrics] would
    create. *)
Definition entry (n : string) (st : St) : Metrics :=
  default fresh_metrics (table st !! n).

(** [getToolHistory] (688-694). *)
Definition getToolHistory (n : string) : M St (list string) :=
  l <- gets tools ;;
  match findIndex n l with
  | None => throw (Error ("Tool not found: " +:+ n))
  | Some _ =>
      tb <- gets table ;;
      ret (match tb !! n with Some m => versions m | None => [] end)
  end.

(** The getter [tools] (660-665) makes an object of the list:
    [tools[tool.name] = tool] for each tool in turn, a later tool taking the
    place of an earlier one of the same name.  For a tool named [__proto__]
    the assignment makes no key: it puts the tool in the place of the
    object's prototype.  [tools_object] has the keys of the object,
    [prototype_tool] the tool that is its prototype, if any. *)
Definition tools_object (l : list ToolT) : list (string * ToolT) :=
  fold_left (fun o t => if String.eqb (name t) "__proto__" then o else obj_set (name t) t o) l [].

Definition prototype_tool (l : list ToolT) : option ToolT :=
  last (filter (fun t => name t = "__proto__") l).

(** The last tool of a list that has the name [n], or [acc]. *)
Definition last_named (n : string) (l : list ToolT) (acc : option ToolT) : option ToolT :=
  fold_left (fun acc t => if String.eqb (name t) n then Some t else acc) l acc.

(** What [this.tools[n]] is: a tool, another value that counts as true, or a
    value that does not. *)
Inductive looked_up : Type :=
| Own (tool : ToolT)
| Other
| Absent.

(** [this.tools[n]]: the tool under the key [n]; without such a key, what the
    prototype has for [n]: a member of [Object.prototype], or a property of
    the tool that is the prototype, that tool itself for [__proto__]. *)
Definition tools_lookup (n : string) (l : list ToolT) : looked_up :=
  match obj_get n (tools_object l) with
  | Some tool => Own tool
  | None =>
      match prototype_tool l with
      | Some tool =>
          if String.eqb n "__proto__" then Own tool
          else if tool_member host tool n then Other else Absent
      | None => if inherited n then Other else Absent
      end
  end.

Fixpoint insert_by_index {V} (z : Z) (v : V) (l : list (Z * V)) : list (Z * V) :=
  match l with
  | [] => [(z, v)]
  | (z', v') :: l' => if (z <? z')%Z then (z, v) :: l else (z', v') :: insert_by_index z v l'
  end.

(** [Object.values(o)] *)
Definition Object_values {V} (o : list (string * V)) : list V :=
  let indexed :=
    fold_right (fun kv acc =>
                  match array_index (fst kv) with
                  | Some z => insert_by_index z (snd kv) acc
                  | None => acc
                  end) [] o in
  let named := filter (fun kv => array_index (fst kv) = None) o in
  map snd indexed ++ map snd named.

(** [getTool] (929-940): by name, then by source; [Absent] is [null]. *)
Definition getTool (scriptOrName : string) : M St looked_up :=
  l <- gets tools ;;
  match tools_lookup scriptOrName l with
  | Absent =>
      ret (match List.find (fun t => String.eqb (source t) scriptOrName)
                   (Object_values (tools_object l)) with
           | Some t => Own t
           | None => Absent
           end)
  | tool => ret tool
  end.

Definition relabel (newVersion : string) (t : ToolT) : ToolT :=
  {| name := name t; version := newVersion; source := source t; tags := tags t;
     schema := schema t; active := true; testHarness := testHarness t;
     lastTestResult := lastTestResult t; metrics := metrics t; instance := instance t |}.

(** [rollbackTool] (942-969). *)
Definition rollbackTool (n newVersion : string) : M St bool :=
  try_catch
    (l <- gets tools ;;
     match findIndex n l with
     | None => registry_emit "error" ("Tool not found: " +:+ n) ;;; ret false
     | Some toolIndex =>
         found <- getTool n ;;
         match found with
         | Absent =>
             registry_emit "error"
               ("Source code not found for tool " +:+ n +:+ " version " +:+ newVersion) ;;;
             ret false
         | _ =>
             tool <- this toolIndex ;;
             modify (set_tools (fun l => <[toolIndex := relabel newVersion tool]> l)) ;;;
             saveRegistry host ;;;
             registry_emit "text"
               ("Tool " +:+ n +:+ " rolled back to version " +:+ newVersion +:+ " successfully.") ;;;
             updateMetrics host n (UVersion newVersion) ;;;
             ret true
         end
     end)
    (fun error => registry_emit "error" ("Error rolling back tool " +:+ n +:+ ":") ;;; ret false).

(** [initializeMetrics] of a tool (189-210), at the time [t]. *)
Definition initial_metrics (v : string) (t : Z) : Metrics :=
  {| versions := [v];
     totalUpdates := 0;
     lastUpdated := Some t;
     testResults := {| totalRuns := 0; passed := 0; failed := 0; lastRun := None |};
     executionStats :=
       {| totalExecutions := 0;
          averageExecutionTime := of_Z 0;
          lastExecutionTime := None;
          fastestExecutionTime := infinity;
          slowestExecutionTime := of_Z 0 |};
     errorRate := of_Z 0;
     usageCount := 0 |}.

(** [new Tool(registry, n, v, description, src, tags, schema)] (156-187): the
    constructor does not set [active]. *)
Definition new_Tool (n v src : string) (newTags : option (list string)) (sch : Schema) (t : Z)
    : ToolT :=
  {| name := n; version := v; source := src; tags := newTags; schema := Some sch;
     active := false; testHarness := ""; lastTestResult := None;
     metrics := initial_metrics v t; instance := true |}.

(** [addTool] (1178-1204).  The constructor reads the clock three times, for
    the metrics and for the two dates of the metadata. *)
Definition addTool (n src : string) (sch : option Schema) (newTags : option (list string))
    : M St bool :=
  try_catch
    (l <- gets tools ;;
     if existsb (named n) l then ret false else
     standardizedSource <-
       try_catch (ask (standardized services n src sch)) (fun error => ret src) ;;
     match sch with
     | None => throw (TypeError "Cannot read properties of undefined (reading 'description')")
     | Some s =>
         t <- now host ;;
         creationDate <- now host ;;
         lastModifiedDate <- now host ;;
         modify (set_tools (fun l => l ++ [new_Tool n "1.0.0" standardizedSource newTags s t])) ;;;
         saveRegistry host ;;;
         saveToolToRepo host n (Some standardizedSource) ;;;
         ret true
     end)
    (fun error => ret false).

(** [addAutoGeneratedTool] (1106-1118). *)
Definition similar (n : string) (t : ToolT) : bool :=
  Assistant.includes (Assistant.toLowerCase n) (Assistant.toLowerCase (name t))
  || Assistant.includes (Assistant.toLowerCase (name t)) (Assistant.toLowerCase n).

Definition addAutoGeneratedTool (n src : string) (sch : option Schema) : M St bool :=
  l <- gets tools ;;
  if existsb (similar n) l then ret false
  else addTool n src sch (Some ["auto-generated"]).

(** [ToolRegistry.callTool] (892-907): the result of the module is not
    returned. *)
Definition callTool (n : string) (params : value) : M St value :=
  l <- gets tools ;;
  match tools_lookup n l with
  | Absent => throw (Error ("Tool not found: " +:+ n))
  | found =>
      startTime <- now host ;;
      result <- ask (match found with
                     | Own tool => run_module services (name tool) params
                     | _ => run_missing services params
                     end) ;;
      endTime <- now host ;;
      updateMetrics host n (UExecution (endTime - startTime)) ;;;
      ret VUndef
  end.

(** The registry with its set [loadedTools]. *)
Record Loader : Type := {
  registry : St;
  loadedTools : gset string
}.

(** A method of the registry that leaves [loadedTools] alone. *)
Definition on_registry {A} (m : M St A) : M Loader A :=
  fun ld =>
    let '(r, st) := m (registry ld) in
    (r, {| registry := st; loadedTools := loadedTools ld |}).

(** [loadTool] (804-825): the default export of the tool's module, or
    [null]. *)
Definition loadTool (n : string) : M Loader value :=
  fun ld =>
    if decide (n ∈ loadedTools ld) then (Ret VNull, ld)
    else
      match findIndex n (tools (registry ld)) with
      | None => (Ret VNull, ld)
      | Some _ =>
          match import_module services n (world (registry ld)) with
          | (Ret toolModule, w) =>
              (Ret toolModule,
               {| registry := set_world (fun _ => w) (registry ld);
                  loadedTools := {[n]} ∪ loadedTools ld |})
          | (Throw _, w) =>
              (Ret VNull,
               {| registry := set_world (fun _ => w) (registry ld);
                  loadedTools := loadedTools ld |})
          end
      end.

Definition set_lastTestResult (r : option (bool * string)) (t : ToolT) : ToolT :=
  {| name := name t; version := version t; source := source t; tags := tags t;
     schema := schema t; active := active t; testHarness := testHarness t;
     lastTestResult := r; metrics := metrics t; instance := instance t |}.

(** [Tool.runTests] (335-373) of the tool at index [i]; a plain object has
    no such method.  The call of [saveTool] is not awaited. *)
Definition Tool_runTests (i : nat) : M St unit :=
  t <- this i ;;
  if negb (instance t) then throw (TypeError "tool.runTests is not a function")
  else if String.eqb (testHarness t) "" then
    ask (emit host "error" ("No test harness found for tool " +:+ name t))
  else
    try_catch
      (ask (run_harness services (name t) (testHarness t)) ;;;
       t <- this i ;;
       modify (set_tools (fun l =>
                 <[i := set_lastTestResult (Some (true, "All tests passed successfully")) t]> l)) ;;;
       Tool_saveTool host i ;;;
       Tool_updateMetrics host i (UTest true))
      (fun error =>
         t <- this i ;;
         ask (emit host "error" ("Error running tests for tool " +:+ name t +:+ ":")) ;;;
         t <- this i ;;
         modify (set_tools (fun l =>
                   <[i := set_lastTestResult
                            (Some (false, "Test failed: " +:+ default "undefined" (message error)))
                            t]> l)) ;;;
         Tool_updateMetrics host i (UTest false)).

End Model.
End RegistryOps.

(** ** The assistant's tool calls ([callTool], assistant.ts 152-178, with
       [promptUser], 681-688) *)

Module ToolCalls.
Import Assistant.

Section Model.
Context {num : Type} {arith : Registry.Arith num} {W : Type}.
Variable host : Registry.Host (num := num) (W := W).
Variable services : RegistryOps.Services (W := W).
(** The answer the user gives to a question, through [chatWindow].  A
    question that is never answered leaves [promptUser] waiting for ever;
    the embedding covers the runs in which the user answers. *)
Variable answer : string -> W -> string * W.

(** What a tool call acts on: the registry with its set of loaded tools, and
    the parameters object the call was given, which the recovery of a
    [busybox] call changes in place and the later attempts read. *)
Record Desk : Type := {
  loader : RegistryOps.Loader (num := num) (W := W);
  params : value
}.

Local Abbreviation St := (State (W := Desk)).

Definition on_loader {A} (m : M RegistryOps.Loader A) : M St A :=
  ask (fun d => let '(r, ld) := m (loader d) in (r, {| loader := ld; params := params d |})).

Definition get_params : M St value := gets (fun st => params (world st)).

Definition set_params (p : value) : M St unit :=
  modify (set_world (fun d => {| loader := loader d; params := p |})).

(** Whether a value counts as true in a condition. *)
Definition truthy_value (v : value) : bool :=
  match v with
  | VUndef | VNull | VBool false | VStr EmptyString => false
  | VNum m _ => negb (m =? 0)%Z
  | _ => true
  end.

(** [promptUser] (681-688). *)
Definition promptUser (question : string) : M St string :=
  log "info" question ;;;
  on_loader (RegistryOps.on_registry
               (fun st => let '(a, w) := answer question (Registry.world st) in
                          (Ret a, Registry.set_world (fun _ => w) st))).

(** [params.args[0] = alternativeLocation], in strict mode; the message of
    the last [TypeError] is cut after the property. *)
Definition set_first_arg (alternativeLocation : string) (p : value) : Outcome value :=
  match p with
  | VUndef | VNull => Throw (TypeError "Cannot read properties of undefined (reading 'args')")
  | VObj fields =>
      match obj_get "args" fields with
      | Some (VArr items) =>
          Ret (VObj (obj_set "args" (VArr (VStr alternativeLocation :: tail items)) fields))
      | Some (VObj o) =>
          Ret (VObj (obj_set "args" (VObj (obj_set "0" (VStr alternativeLocation) o)) fields))
      | Some VUndef | Some VNull | None =>
          Throw (TypeError "Cannot set properties of undefined (setting '0')")
      | Some _ => Throw (TypeError "Cannot create property '0'")
      end
  | _ => Throw (TypeError "Cannot set properties of undefined (setting '0')")
  end.

Definition not_found (toolName : string) : thrown :=
  Error ("Tool '" +:+ toolName +:+ "' not found.").

(** The [try] block of the operation (158-163). *)
Definition load_and_call (toolName : string) : M St value :=
  tool <- on_loader (RegistryOps.loadTool services toolName) ;;
  if negb (truthy_value tool) then throw (not_found toolName)
  else
    p <- get_params ;;
    on_loader (RegistryOps.on_registry (RegistryOps.callTool host services toolName p)).

(** [error.message.includes(part)] *)
Definition message_includes (part : string) (error : thrown) : M St bool :=
  match message error with
  | Some msg => ret (includes part msg)
  | None => throw (TypeError "Cannot read properties of undefined (reading 'includes')")
  end.

Definition apology : string :=
  "I'm sorry, but I didn't receive a response. Could you please try again?".

Definition question : string :=
  "The specified file or directory was not found. Please provide an alternative location:".

(** The [catch] block of the operation (165-176); [again] is the call
    [this.callTool(toolName, params)]. *)
Definition recover (again : M St value) (toolName : string) (error : thrown) : M St value :=
  no_response <-
    (if String.eqb toolName "ask" then message_includes "No response received" error
     else ret false) ;;
  if no_response then ret (VStr apology) else
  no_file <-
    (if String.eqb toolName "busybox" then message_includes "No such file or directory" error
     else ret false) ;;
  if no_file then
    alternativeLocation <- promptUser question ;;
    match alternativeLocation with
    | EmptyString => throw error
    | String _ _ =>
        p <- get_params ;;
        p' <- lift (set_first_arg alternativeLocation p) ;;
        set_params p' ;;;
        again
    end
  else throw error.

(** [if (Array.isArray(params)) params = params[0]] *)
Definition unwrap (p : value) : value :=
  match p with
  | VArr items => default VUndef (head items)
  | _ => p
  end.

(** [callTool] (152-178).  The call in the recovery happens inside an attempt
    of [retryOperation], which has added one to the retry counter and found
    it within the limit: [fuel] is the number of attempts the counter still
    allows, and it is not used up before the counter refuses every
    attempt. *)
Fixpoint callTool_from (fuel : nat) (toolName : string) (p : value) : M St value :=
  log "debug" ("Calling tool: " +:+ toolName) ;;;
  set_params (unwrap p) ;;;
  callTool
    (try_catch (load_and_call toolName)
       (recover
          match fuel with
          | O => throw global_error
          | S fuel' => p' <- get_params ;; callTool_from fuel' toolName p'
          end
          toolName))
    toolName.

(** The attempts the retry counter still allows. *)
Definition allowed (st : St) : nat := Z.to_nat (globalRetryLimit - globalRetryCount st).

Definition Assistant_callTool (toolName : string) (p : value) : M St value :=
  fun st => callTool_from (allowed st) toolName p st.

(** A computation that leaves the retry counter where it is; one that may
    raise it. *)
Definition steady {A} (m : M St A) : Prop :=
  forall s, globalRetryCount (snd (m s)) = globalRetryCount s.

Definition rising {A} (m : M St A) : Prop :=
  forall s, (globalRetryCount s <= globalRetryCount (snd (m s)))%Z.

End Model.
End ToolCalls.

(** ** A registry with its services, and an assistant at its desk, to
       evaluate examples *)

Module OpsExample.
Import Registry RegistryOps Exact.

(** A harness text that is an expression: the function made of [return]
    and the text returns an object whose [beforeAll] does nothing and which
    has no test.  And a text in the format the prompt of
    [generateTestHarness] shows, a declaration: [return const ...] is no
    function body. *)
Definition passing_harness : string := "{ beforeAll: async (context) => {} }".

Definition prompted_harness : string := "const testHarness = {}".

(** The services of a registry nobody listens to: an [error] event throws,
    the model returns the source it is given, every module has the default
    export [{}] and runs as [run] says; there is no module [undefined]; of
    the harness texts only [passing_harness] can be run. *)
Definition services_running (run : string -> value -> Z -> Outcome value * Z)
    : Services (W := Z) := {|
  registry_listeners := fun event _ w =>
    if String.eqb event "error" then (Throw (Error "Unhandled error."), w) else (Ret tt, w);
  standardized := fun _ src _ w => (Ret src, w);
  import_module := fun _ w => (Ret (VObj []), w);
  run_module := run;
  run_missing := fun _ w => (Throw (Error "Cannot find package 'undefined'"), w);
  run_harness := fun _ harness w =>
    if String.eqb harness passing_harness then (Ret tt, w)
    else (Throw (Error "Unexpected token 'const'"), w)
|}.

(** Every module runs for five milliseconds and returns [done]. *)
Definition services : Services (W := Z) :=
  services_running (fun _ _ w => (Ret (VStr "done"), (w + 5)%Z)).

(** Every module fails: the connection is refused; a file is missing. *)
Definition refusing : Services (W := Z) :=
  services_running (fun _ _ w => (Throw AssistantExample.refused, w)).

Definition no_file : thrown := Error "ls: /data: No such file or directory".

Definition missing_file : Services (W := Z) :=
  services_running (fun _ _ w => (Throw no_file, w)).

(** The tool [echo] as it is read back from the registry file. *)
Definition read_back : State (num := xnum) (W := Z) := {|
  tools := [{| name := "echo"; version := "1.0.0"; source := "ok"; tags := Some [];
               schema := Some {| schema_id := 0; schema_body := VObj [] |};
               active := true; testHarness := ""; lastTestResult := None;
               metrics := metrics (RegistryExample.new_tool "echo" "ok");
               instance := false |}];
  table := ∅;
  world := 1000%Z
|}.

(** A registry whose only tool has the test harness [harness]. *)
Definition with_harness (harness : string) : State (num := xnum) (W := Z) := {|
  tools := [set_testHarness harness (RegistryExample.new_tool "echo" "ok")];
  table := ∅;
  world := 1000%Z
|}.

(** A registry whose only tool has the name of a member of
    [Object.prototype]. *)
Definition odd_names : State (num := xnum) (W := Z) := {|
  tools := [RegistryExample.new_tool "constructor" "ok"];
  table := ∅;
  world := 1000%Z
|}.

(** The host of [RegistryExample] when the model does not answer. *)
Definition without_model : Host (num := xnum) (W := Z) := {|
  clock := clock RegistryExample.host;
  harness_of := fun _ _ w => (Throw (Error "overloaded"), w);
  execute := execute RegistryExample.host;
  getMetadata := getMetadata RegistryExample.host;
  updateMetadata := updateMetadata RegistryExample.host;
  writeRegistryFile := writeRegistryFile RegistryExample.host;
  writeMetricsFile := writeMetricsFile RegistryExample.host;
  writeToolFile := writeToolFile RegistryExample.host;
  emit := emit RegistryExample.host;
  tool_member := tool_member RegistryExample.host
|}.

(** A registry whose only tool is [busybox]. *)
Definition toolbox : State (num := xnum) (W := Z) := {|
  tools := [RegistryExample.new_tool "busybox" "ok"];
  table := ∅;
  world := 1000%Z
|}.

(** An assistant that has called no tool yet, with the registry [r] and the
    tools [loaded]; with the registry of [RegistryExample]. *)
Definition assistant_of (r : State (num := xnum) (W := Z)) (loaded : gset string)
    : Assistant.State (W := ToolCalls.Desk (num := xnum) (W := Z)) :=
  {| Assistant.store := []; Assistant.heap := []; Assistant.globalRetryCount := 0;
     Assistant.emitted := [];
     Assistant.logged := []; Assistant.slept := [];
     Assistant.world :=
       {| ToolCalls.loader := {| registry := r; loadedTools := loaded |};
          ToolCalls.params := VUndef |} |}.

Definition assistant (loaded : gset string)
    : Assistant.State (W := ToolCalls.Desk (num := xnum) (W := Z)) :=
  assistant_of RegistryExample.registry loaded.

(** Nobody answers a prompt with anything but the empty text; or the user
    answers every prompt with [/tmp]. *)
Definition silent (question : string) (w : Z) : string * Z := ("", w).

Definition answering (question : string) (w : Z) : string * Z := ("/tmp", w).

End OpsExample.

(* ===================================================================== *)
(** * Properties *)
(* ===================================================================== *)

(** ** Objects *)

Section ObjectFacts.
Context {V : Type}.
Implicit Types (o : list (string * V)) (k : string) (v : V).

Lemma obj_get_set_eq k v o : obj_get k (obj_set k v o) = Some v.
Proof.
  induction o as [|[k' v'] o IH]; simpl.
  - now rewrite String.eqb_refl.
  - destruct (String.eqb k k') eqn:E; simpl.
    + now rewrite String.eqb_refl.
    + now rewrite E.
Qed.

Lemma obj_get_set_ne k k' v o : k <> k' -> obj_get k' (obj_set k v o) = obj_get k' o.
Proof.
  intros Hne. induction o as [|[k0 v0] o IH]; simpl.
  - destruct (String.eqb k' k) eqn:E; auto.
    apply String.eqb_eq in E. congruence.
  - destruct (String.eqb k k0) eqn:E; simpl.
    + apply String.eqb_eq in E. subst k0.
      destruct (String.eqb k' k) eqn:E'; auto.
      apply String.eqb_eq in E'. congruence.
    + destruct (String.eqb k' k0); auto.
Qed.

End ObjectFacts.

Section ObjectKeys.
Context {V : Type}.

Lemma obj_get_None_keys (k : string) (o : list (string * V)) :
  obj_get k o = None <-> k ∉ obj_keys o.
Proof.
  unfold obj_keys. induction o as [|[k' v] o IH]; simpl.
  - split; [intros _; apply not_elem_of_nil|reflexivity].
  - rewrite not_elem_of_cons. destruct (String.eqb k k') eqn:E.
    + apply String.eqb_eq in E. split; [discriminate|]. intros [H _]. contradiction.
    + apply String.eqb_neq in E. rewrite IH. tauto.
Qed.

Lemma obj_set_fresh (k : string) (v : V) (o : list (string * V)) :
  obj_get k o = None -> obj_set k v o = o ++ [(k, v)].
Proof.
  induction o as [|[k' v'] o IH]; simpl; [reflexivity|].
  destruct (String.eqb k k'); [discriminate|]. intros H. now rewrite (IH H).
Qed.

End ObjectKeys.

Section ObjectFold.
Context {V B : Type}.
Variable f : string -> V -> B.

(** [for (k in src) dst[k] = f(k, src[k])] on an object [src]. *)
Lemma fold_obj_set (src : list (string * V)) : forall (dst : list (string * B)) k,
  NoDup (obj_keys src) ->
  obj_get k (fold_left (fun o kv => obj_set (fst kv) (f (fst kv) (snd kv)) o) src dst)
  = match obj_get k src with
    | Some v => Some (f k v)
    | None => obj_get k dst
    end.
Proof.
  induction src as [|[k' v] src IH]; intros dst k Hnd; simpl; [reflexivity|].
  unfold obj_keys in Hnd. simpl in Hnd.
  apply NoDup_cons in Hnd as [Hk' Hnd]. rewrite (IH _ _ Hnd).
  destruct (String.eqb k k') eqn:E.
  - apply String.eqb_eq in E. subst k'.
    rewrite (proj2 (obj_get_None_keys k src) Hk'). apply obj_get_set_eq.
  - apply String.eqb_neq in E.
    destruct (obj_get k src); [reflexivity|].
    apply obj_get_set_ne. congruence.
Qed.

End ObjectFold.


Section ObjectOrder.
Context {V : Type}.



End ObjectOrder.


(** ** [JSON.parse] on sample texts *)

Example parse_object :
  Json.parse ("{" +:+ q +:+ "a" +:+ q +:+ ":1}") = Ret (VObj [("a", VNum 1 0)]).
Proof. reflexivity. Qed.

Example parse_unquoted_key : Json.parse "{a:}" = Throw Json.SyntaxError.
Proof. reflexivity. Qed.

Example parse_nested :
  Json.parse (" [1, -2.50e3, {" +:+ q +:+ "b" +:+ q +:+ " : " +:+ q +:+ "}\n" +:+ q
              +:+ ", " +:+ q +:+ "b" +:+ q +:+ ": [true, null]}] ")
  = Ret (VArr [VNum 1 0; VNum (-250) 1; VObj [("b", VArr [VBool true; VNull])]]).
Proof. reflexivity. Qed.

(** ** The JSON extractor *)

Module ExtractorFacts.
Import Extractor.

Lemma omap_snoc {A B} (f : A -> option B) (l : list A) (x : A) :
  omap f (l ++ [x]) = omap f l ++ match f x with Some y => [y] | None => [] end.
Proof. rewrite omap_app. simpl. destruct (f x); reflexivity. Qed.

Lemma agree_step {A} (parse : string -> Outcome A) st raw c :
  agree parse st raw ->
  agree parse (scan_char parse st c) (scan_char (fun s => Ret s) raw c).
Proof.
  destruct st as [objs d cur ins esc], raw as [objs' d' cur' ins' esc'].
  unfold agree; simpl. intros (-> & -> & -> & -> & ->).
  destruct esc'; simpl; [tauto|].
  destruct (Ascii.eqb c "\"); simpl; [tauto|].
  destruct (Ascii.eqb c dquote), ins'; simpl; try tauto.
  - destruct (is_open c); simpl; [tauto|].
    destruct (is_close c); simpl; [|tauto].
    destruct (d' - 1 =? 0)%Z; simpl; [|tauto].
    repeat split. unfold try_push. rewrite omap_snoc.
    destruct (parse (push_char cur' c)); simpl; [reflexivity|].
    now rewrite app_nil_r.
Qed.

Lemma agree_fold {A} (parse : string -> Outcome A) cs : forall st raw,
  agree parse st raw ->
  agree parse (fold_left (scan_char parse) cs st)
              (fold_left (scan_char (fun s => Ret s)) cs raw).
Proof.
  induction cs as [|c cs IH]; simpl; intros st raw H; [exact H|].
  apply IH, agree_step, H.
Qed.

Lemma agree_init {A} (parse : string -> Outcome A) : agree parse init init.
Proof. repeat split. Qed.

(** The scan only ever appends to [jsonObjects]. *)
Lemma scan_char_extends {A} (parse : string -> Outcome A) st c :
  exists more, jsonObjects (scan_char parse st c) = jsonObjects st ++ more.
Proof.
  destruct st as [objs d cur ins esc]; simpl.
  repeat match goal with
         | |- context [if ?b then _ else _] => destruct b; simpl
         end;
    try (exists []; now rewrite app_nil_r).
  unfold try_push. destruct (parse _); [eexists; reflexivity|].
  exists []; now rewrite app_nil_r.
Qed.

Lemma scan_fold_extends {A} (parse : string -> Outcome A) cs : forall st,
  exists more, jsonObjects (fold_left (scan_char parse) cs st) = jsonObjects st ++ more.
Proof.
  induction cs as [|c cs IH]; simpl; intros st.
  - exists []; now rewrite app_nil_r.
  - destruct (IH (scan_char parse st c)) as [m1 H1].
    destruct (scan_char_extends parse st c) as [m2 H2].
    exists (m2 ++ m1). rewrite H1, H2. now rewrite app_assoc.
Qed.

Lemma list_ascii_app (s1 s2 : string) :
  list_ascii_of_string (s1 +:+ s2) = list_ascii_of_string s1 ++ list_ascii_of_string s2.
Proof. induction s1 as [|c s1 IH]; simpl; [reflexivity|]. now rewrite IH. Qed.

(** Inside a string no character changes the depth. *)
Lemma depth_in_string {A} (parse : string -> Outcome A) st c :
  inString st = true -> depth (scan_char parse st c) = depth st.
Proof.
  destruct st as [objs d cur ins esc]; simpl. intros ->.
  destruct esc; simpl; [reflexivity|].
  destruct (Ascii.eqb c "\"); simpl; [reflexivity|].
  destruct (Ascii.eqb c dquote); reflexivity.
Qed.

End ExtractorFacts.

(** C4.  On the text [prefix {"a":1} middle [1,2,{"b":"}"}] suffix] the
    extractor returns exactly the two parsed values [{a:1}] and
    [[1,2,{b:"}"}]], in that order.  In general, no character read while the
    scan is inside a string changes the bracket depth, and the values
    extracted from a prefix of a text are the first values extracted from the
    whole text: the output is in order of appearance. *)
Theorem extractJson_sample_text :
  Extractor.extractJson Json.parse sample_text
  = Ret [VObj [("a", VNum 1 0)];
         VArr [VNum 1 0; VNum 2 0; VObj [("b", VStr "}")]]]
  /\ (forall (parse : string -> Outcome value) st c,
        Extractor.inString st = true ->
        Extractor.depth (Extractor.scan_char parse st c) = Extractor.depth st)
  /\ (forall (parse : string -> Outcome value) s1 s2,
        exists first more,
          Extractor.extractJson parse s1 = Ret first /\
          Extractor.extractJson parse (s1 +:+ s2) = Ret (first ++ more)).
Proof.
  split; [vm_compute; reflexivity|]. split.
  - intros parse st c. apply ExtractorFacts.depth_in_string.
  - intros parse s1 s2. unfold Extractor.extractJson, Extractor.scan_from.
    rewrite ExtractorFacts.list_ascii_app, fold_left_app.
    destruct (ExtractorFacts.scan_fold_extends parse (list_ascii_of_string s2)
                (fold_left (Extractor.scan_char parse) (list_ascii_of_string s1) Extractor.init))
      as [more H].
    eexists _, more. split; [reflexivity|]. now rewrite H.
Qed.

(** C9.  For every text, and whatever [JSON.parse] does on the candidates,
    the extractor returns a list and does not throw; the list is the
    bracket-balanced candidates of the text, each parsed, in order, with those
    whose parse throws left out.  A candidate that fails to parse therefore
    removes nothing but itself. *)
Theorem extractJson_never_throws :
  forall (parse : string -> Outcome value) (content : string),
    exists objs,
      Extractor.extractJson parse content = Ret objs /\
      objs = omap (fun s => Extractor.ok (parse s)) (Extractor.candidates content).
Proof.
  intros parse content. eexists. split; [reflexivity|].
  unfold Extractor.candidates, Extractor.scan_from.
  apply (ExtractorFacts.agree_fold parse (list_ascii_of_string content)
           Extractor.init Extractor.init (ExtractorFacts.agree_init parse)).
Qed.

Example candidates_malformed_then_valid :
  Extractor.candidates malformed_then_valid = ["{a:}"; "{" +:+ q +:+ "a" +:+ q +:+ ":1}"].
Proof. reflexivity. Qed.

Example extractJson_malformed_then_valid :
  Extractor.extractJson Json.parse malformed_then_valid = Ret [VObj [("a", VNum 1 0)]].
Proof. reflexivity. Qed.

(** ** Computations: rules for invariants *)

Section Keeps.
Context {S : Type} (I : S -> Prop).

Lemma keeps_ret {A} (a : A) (Q : A -> Prop) : Q a -> keeps I (ret a) Q.
Proof. intros H s Hs. simpl. auto. Qed.

Lemma keeps_throw {A} e (Q : A -> Prop) : keeps I (throw e) Q.
Proof. intros s Hs. simpl. auto. Qed.

Lemma keeps_bind {A B} (m : M S A) (k : A -> M S B) (Q : A -> Prop) (R : B -> Prop) :
  keeps I m Q -> (forall a, Q a -> keeps I (k a) R) -> keeps I (bind m k) R.
Proof.
  intros Hm Hk s Hs. unfold bind. specialize (Hm s Hs).
  destruct (m s) as [[a|e] s']; [|exact Hm].
  destruct Hm as [Hs' Ha]. exact (Hk a Ha s' Hs').
Qed.

Lemma keeps_try_catch {A} (m : M S A) (h : thrown -> M S A) (Q : A -> Prop) :
  keeps I m Q -> (forall e, keeps I (h e) Q) -> keeps I (try_catch m h) Q.
Proof.
  intros Hm Hh s Hs. unfold try_catch. specialize (Hm s Hs).
  destruct (m s) as [[a|e] s']; [exact Hm|]. exact (Hh e s' Hm).
Qed.

Lemma keeps_modify (f : S -> S) :
  (forall s, I s -> I (f s)) -> keeps I (modify f) (fun _ => True).
Proof. intros H s Hs. simpl. auto. Qed.

Lemma keeps_gets {A} (f : S -> A) : keeps I (gets f) (fun _ => True).
Proof. intros s Hs. simpl. auto. Qed.

Lemma keeps_weaken {A} (m : M S A) (Q R : A -> Prop) :
  keeps I m Q -> (forall a, Q a -> R a) -> keeps I m R.
Proof.
  intros Hm H s Hs. specialize (Hm s Hs).
  destruct (m s) as [[a|e] s']; [|exact Hm]. destruct Hm. auto.
Qed.

End Keeps.

(** ** Version texts *)

Section VersionFacts.

Lemma string_of_uint_digits d : all_digits (NilEmpty.string_of_uint d) = true.
Proof. induction d; simpl; auto. Qed.

Lemma string_of_Z_digits z :
  (0 <= z)%Z -> all_digits (string_of_Z z) = true /\ string_of_Z z <> "".
Proof.
  intros Hz. destruct z as [|p|p]; [split; [reflexivity|discriminate]| |lia].
  unfold string_of_Z. simpl.
  pose proof (DecimalPos.Unsigned.to_uint_nonnil p) as Hn.
  destruct (Pos.to_uint p) eqn:E; [contradiction|..];
    (split; [apply (string_of_uint_digits (_ _))|discriminate]).
Qed.

Lemma digits_value_string_of_Z z : (0 <= z)%Z -> digits_value (string_of_Z z) = Some z.
Proof.
  intros Hz. destruct z as [|p|p]; [reflexivity| |lia].
  unfold string_of_Z. simpl.
  pose proof (DecimalPos.Unsigned.to_uint_nonnil p) as Hn.
  pose proof (DecimalPos.Unsigned.of_to p) as Hof.
  assert (E : NilZero.string_of_uint (Pos.to_uint p) = NilEmpty.string_of_uint (Pos.to_uint p)).
  { destruct (Pos.to_uint p); [contradiction|..]; reflexivity. }
  rewrite E. unfold digits_value.
  rewrite NilEmpty.usu.
  destruct (NilEmpty.string_of_uint (Pos.to_uint p)) eqn:E2.
  - destruct (Pos.to_uint p); [contradiction|..]; discriminate.
  - unfold N.of_uint. now rewrite Hof.
Qed.

Lemma is_digit_not_space c : is_digit c = true -> is_space c = false.
Proof. destruct c as [[] [] [] [] [] [] [] []]; vm_compute; congruence. Qed.

Lemma is_digit_not_dot c : is_digit c = true -> Ascii.eqb c "." = false.
Proof. destruct c as [[] [] [] [] [] [] [] []]; vm_compute; congruence. Qed.

Lemma is_digit_not_sign c :
  is_digit c = true -> Ascii.eqb c "-" = false /\ Ascii.eqb c "+" = false.
Proof. destruct c as [[] [] [] [] [] [] [] []]; vm_compute; split; congruence. Qed.

Lemma trim_right_digits s : all_digits s = true -> trim_right s = s.
Proof.
  induction s as [|c s IH]; [reflexivity|]. simpl.
  intros [Hc Hs]%andb_prop. rewrite (IH Hs).
  destruct s; [|reflexivity]. now rewrite (is_digit_not_space c Hc).
Qed.

Lemma trim_digits s : all_digits s = true -> trim s = s.
Proof.
  intros H. unfold trim.
  assert (trim_left s = s) as ->.
  { destruct s as [|c s]; [reflexivity|]. simpl in *.
    apply andb_prop in H as [Hc _]. now rewrite (is_digit_not_space c Hc). }
  now apply trim_right_digits.
Qed.

Lemma is_digit_not_letter c :
  is_digit c = true -> radix_of c = None /\ Ascii.eqb c "I" = false.
Proof. destruct c as [[] [] [] [] [] [] [] []]; vm_compute; split; congruence. Qed.

Lemma span_digits_all d : all_digits d = true -> span_digits d = (d, "").
Proof.
  induction d as [|c d IH]; [reflexivity|]. simpl.
  intros [Hc Hd]%andb_prop. now rewrite Hc, (IH Hd).
Qed.

Lemma non_decimal_digits d : all_digits d = true -> non_decimal d = None.
Proof.
  destruct d as [|z [|c [|c' d]]]; try reflexivity.
  cbn [all_digits]. intros [_ [Hc _]%andb_prop]%andb_prop. unfold non_decimal.
  rewrite (proj1 (is_digit_not_letter c Hc)). now destruct (Ascii.eqb z "0").
Qed.

(** Every integer up to [2^53] is read, kept and written as it is. *)
Lemma round_Z_safe z : (Z.abs z <= 2 ^ 53)%Z -> round_Z z = Int z.
Proof.
  intros H. unfold round_Z, safe.
  now assert ((Z.abs z <=? 2 ^ 53)%Z = true) as -> by (now apply Z.leb_le).
Qed.

Lemma show_num_safe z : (Z.abs z <= 2 ^ 53)%Z -> show_num (Some (Int z)) = string_of_Z z.
Proof.
  intros H. unfold show_num, safe.
  now assert ((Z.abs z <=? 2 ^ 53)%Z = true) as -> by (now apply Z.leb_le).
Qed.

(** On such integers the general rounding and the general conversion to a
    text give what the short cuts of [round_Z] and [show_num] give. *)
Example safe_integers_agree :
  forallb (fun z => same (nearest z 1) (inject_Z z)
                    && String.eqb (show_Q (inject_Z z)) (string_of_Z z))
    [1; 9; 10; 42; 100; 1024; 1000000; 123456789; 2 ^ 53 - 1; 2 ^ 53; -7; - 2 ^ 53]%Z
  = true.
Proof. vm_compute. reflexivity. Qed.

Lemma Number_string_of_Z z : (0 <= z <= 2 ^ 53)%Z -> Number (string_of_Z z) = Int z.
Proof.
  intros [Hz Hs]. destruct (string_of_Z_digits z Hz) as [Hd Hne].
  pose proof (digits_value_string_of_Z z Hz) as Hv.
  unfold Number. rewrite (trim_digits _ Hd).
  destruct (string_of_Z z) as [|c s] eqn:E; [contradiction|].
  rewrite (non_decimal_digits _ Hd).
  pose proof Hd as Hd'. cbn [all_digits] in Hd'. apply andb_prop in Hd' as [Hc _].
  destruct (is_digit_not_sign c Hc) as [-> ->].
  unfold decimal_number.
  assert (String.eqb (String c s) "Infinity" = false) as ->.
  { cbn [String.eqb]. now rewrite (proj2 (is_digit_not_letter c Hc)). }
  unfold unsigned_decimal. rewrite (span_digits_all _ Hd), Hv.
  cbn [exponent_part Z.leb Z.compare]. rewrite Z.pow_0_r, Z.mul_1_r.
  apply round_Z_safe. lia.
Qed.

Lemma append_cons (x : ascii) (a b : string) : String x a +:+ b = String x (a +:+ b).
Proof. reflexivity. Qed.

Lemma append_assoc (a b c : string) : (a +:+ b) +:+ c = a +:+ (b +:+ c).
Proof.
  induction a as [|x a IH]; [reflexivity|].
  rewrite !append_cons. now rewrite IH.
Qed.

Lemma append_empty (a : string) : a +:+ "" = a.
Proof.
  induction a as [|x a IH]; [reflexivity|].
  rewrite append_cons. now rewrite IH.
Qed.

Lemma split_go_digits a : forall rest cur,
  all_digits a = true ->
  split_go "." (a +:+ rest) cur = split_go "." rest (cur +:+ a).
Proof.
  induction a as [|c a IH]; intros rest cur H.
  - now rewrite append_empty.
  - simpl in H. apply andb_prop in H as [Hc Ha].
    rewrite append_cons. simpl.
    rewrite (is_digit_not_dot c Hc), (IH _ _ Ha).
    now rewrite append_assoc.
Qed.

Lemma split_go_dot rest cur :
  split_go "." ("." +:+ rest) cur = cur :: split_go "." rest "".
Proof. reflexivity. Qed.

Lemma split_version a b c :
  all_digits a = true -> all_digits b = true -> all_digits c = true ->
  str_split "." (a +:+ "." +:+ b +:+ "." +:+ c) = [a; b; c].
Proof.
  intros Ha Hb Hc. unfold str_split.
  rewrite (split_go_digits a _ _ Ha), split_go_dot.
  rewrite (split_go_digits b _ _ Hb), split_go_dot.
  rewrite <- (append_empty c) at 1.
  rewrite (split_go_digits c _ _ Hc). reflexivity.
Qed.

End VersionFacts.

(** ** The registry *)

Module RegistryFacts.
Import Registry.

Section Facts.
Context {num : Type} {arith : Arith num} {W : Type}.
Variable host : Host (num := num) (W := W).
Implicit Types (st : State (num := num) (W := W)) (t : Tool (num := num)).

(** [ToolRegistry.updateMetrics], as it is called, returns and leaves the
    tools alone. *)
Lemma updateMetrics_tools n u st :
  exists st', updateMetrics host n u st = (Ret tt, st') /\ tools st' = tools st.
Proof.
  unfold updateMetrics. eexists. split; [reflexivity|].
  unfold updateMetrics_body. destruct (answered_by_prototype n st).
  - destruct u; reflexivity.
  - unfold bind, modify, saveMetrics. simpl. break_pairs. reflexivity.
Qed.

(** [Tool.updateMetrics] returns, and rewrites the metrics of [this] only. *)
Lemma Tool_updateMetrics_run st i t u :
  tools st !! i = Some t ->
  exists st',
    Tool_updateMetrics host i u st = (Ret tt, st') /\
    tools st' = <[i := set_metrics (fst (update_switch host u (metrics t) (world st))) t]> (tools st).
Proof.
  intros Hi. unfold Tool_updateMetrics, Tool_saveMetrics, bind, this, modify. rewrite Hi.
  destruct (update_switch host u (metrics t) (world st)) as [m w] eqn:E. simpl.
  rewrite list_lookup_insert_eq by (eapply lookup_lt_Some; eauto).
  match goal with |- context [updateMetrics host ?n ?x ?s] =>
    destruct (updateMetrics_tools n x s) as (st' & E' & T') end.
  rewrite E'. exists st'. split; [reflexivity|exact T'].
Qed.

Lemma now_run st : exists z w, now host st = (Ret z, set_world (fun _ => w) st).
Proof. unfold now. destruct (clock host (world st)) as [z w]. eauto. Qed.

(** [Tool.call], step by step: the usage update, then the tool's code; if the
    code returns, the execution update; if it throws, the error update. *)
Lemma Tool_call_run st i t params :
  tools st !! i = Some t ->
  exists o st' m',
    Tool_call host i params st = (o, st') /\
    tools st' !! i = Some (set_metrics m' t) /\
    match o with
    | Ret _ => exists d, m' = executed host d (used host (metrics t) (world st)) (world st)
    | Throw _ => m' = failed_once host (used host (metrics t) (world st)) (world st)
    end.
Proof.
  intros Hi.
  assert (Hlen : (i < length (tools st))%nat) by (eapply lookup_lt_Some; eauto).
  destruct (Tool_updateMetrics_run st i t UUsage Hi) as (st1 & E1 & T1).
  assert (H1 : tools st1 !! i = Some (set_metrics (used host (metrics t) (world st)) t)).
  { rewrite T1. now apply list_lookup_insert_eq. }
  unfold Tool_call, try_catch, bind at 1. rewrite E1.
  unfold bind at 1. destruct (now_run st1) as (z1 & w1 & ->).
  unfold bind at 1, this at 1. simpl tools. rewrite H1.
  unfold bind at 1. unfold ask at 1. simpl world.
  destruct (execute host _ params w1) as [[result|e] w2] eqn:Ex.
  - unfold bind at 1.
    match goal with |- context [now host ?s] => destruct (now_run s) as (z2 & w3 & ->) end.
    unfold bind at 1.
    match goal with |- context [Tool_updateMetrics host i ?u ?s] =>
      destruct (Tool_updateMetrics_run s i _ u H1) as (st3 & E3 & T3) end.
    rewrite E3. simpl.
    eexists _, _, _. split; [reflexivity|]. split.
    + rewrite T3. simpl tools. rewrite T1, list_insert_insert_eq.
      rewrite list_lookup_insert_eq by assumption. reflexivity.
    + eexists. reflexivity.
  - cbv beta iota zeta. unfold bind at 1.
    match goal with |- context [Tool_updateMetrics host i ?u ?s] =>
      destruct (Tool_updateMetrics_run s i _ u H1) as (st3 & E3 & T3) end.
    rewrite E3.
    assert (H3 : tools st3 !! i
                 = Some (set_metrics (failed_once host (used host (metrics t) (world st)) (world st)) t)).
    { rewrite T3. simpl tools. rewrite T1, list_insert_insert_eq.
      rewrite list_lookup_insert_eq by assumption. reflexivity. }
    unfold bind at 1, this at 1. rewrite H3.
    unfold bind at 1, ask, throw. simpl.
    destruct (emit host _ _ _) as [[[]|e'] w4]; simpl;
      eexists _, _, _; (split; [reflexivity|]); simpl; split; solve [exact H3 | reflexivity].
Qed.

(** [Tool.call] is its usage update followed by the rest. *)
Lemma Tool_call_order st i t params :
  tools st !! i = Some t ->
  exists st1,
    Tool_updateMetrics host i UUsage st = (Ret tt, st1) /\
    tools st1 !! i = Some (set_metrics (used host (metrics t) (world st)) t) /\
    Tool_call host i params st
    = try_catch (Tool_call_rest host i params) (Tool_call_catch host i) st1.
Proof.
  intros Hi.
  destruct (Tool_updateMetrics_run st i t UUsage Hi) as (st1 & E1 & T1).
  exists st1. split; [exact E1|]. split.
  - rewrite T1. apply list_lookup_insert_eq. eapply lookup_lt_Some; eauto.
  - unfold Tool_call, try_catch, bind at 1. rewrite E1. reflexivity.
Qed.

(** [removeTool] shortens the list exactly when a tool has the name. *)
Lemma filter_shorter (n : string) (l : list (Tool (num := num))) :
  (length (filter (fun tool => name tool <> n) l) <? length l)%nat = existsb (named n) l.
Proof.
  induction l as [|t l IH]; [reflexivity|].
  rewrite filter_cons. unfold named at 1. simpl existsb.
  destruct (decide (name t <> n)) as [Hne|Heq].
  - assert (String.eqb (name t) n = false) as -> by now apply String.eqb_neq.
    simpl. exact IH.
  - assert (String.eqb (name t) n = true) as ->.
    { apply String.eqb_eq. destruct (decide (name t = n)); [done|contradiction]. }
    simpl. apply Nat.ltb_lt.
    pose proof (length_filter (fun tool : Tool => name tool <> n) l). lia.
Qed.

Lemma filter_again (n : string) (l : list (Tool (num := num))) :
  filter (fun tool => name tool <> n) (filter (fun tool => name tool <> n) l)
  = filter (fun tool => name tool <> n) l.
Proof.
  induction l as [|t l IH]; [reflexivity|].
  rewrite filter_cons. destruct (decide (name t <> n)) as [Hne|Heq]; [|exact IH].
  rewrite filter_cons. destruct (decide (name t <> n)); [|contradiction].
  now rewrite IH.
Qed.

Lemma existsb_filtered n (l : list (Tool (num := num))) :
  existsb (named n) (filter (fun tool => name tool <> n) l) = false.
Proof. rewrite <- filter_shorter, filter_again. apply Nat.ltb_irrefl. Qed.

Lemma removeTool_eq n st :
  removeTool host n st
  = (Ret (existsb (named n) (tools st)),
     let st1 := set_tools (filter (fun tool => name tool <> n)) st in
     if existsb (named n) (tools st)
     then set_world (writeRegistryFile host (tools st1)) st1 else st1).
Proof.
  unfold removeTool, bind, gets, modify, saveRegistry, modify, ret. simpl.
  rewrite filter_shorter. destruct (existsb (named n) (tools st)); reflexivity.
Qed.

(** [incrementVersion] on a well-formed version adds one to the patch. *)
Lemma incrementVersion_patch major minor patch :
  (0 <= major <= 2 ^ 53)%Z -> (0 <= minor <= 2 ^ 53)%Z -> (0 <= patch < 2 ^ 53)%Z ->
  incrementVersion (show_version major minor patch) = show_version major minor (patch + 1).
Proof.
  intros Ha Hb Hc. unfold incrementVersion, show_version.
  rewrite split_version by (apply string_of_Z_digits; lia).
  cbn [map lookup list_lookup].
  rewrite !Number_string_of_Z by lia.
  cbn [plus_one]. rewrite (round_Z_safe (patch + 1)) by lia.
  rewrite !show_num_safe by lia. reflexivity.
Qed.

Lemma findIndex_Some n (l : list (Tool (num := num))) : forall i,
  findIndex n l = Some i -> exists t, l !! i = Some t /\ name t = n.
Proof.
  induction l as [|t l IH]; intros i H; [discriminate|]. simpl in H.
  destruct (String.eqb (name t) n) eqn:E.
  - injection H as <-. exists t. split; [reflexivity|]. now apply String.eqb_eq.
  - destruct (findIndex n l) as [j|] eqn:F; [|discriminate].
    injection H as <-. destruct (IH j eq_refl) as (t' & ? & ?). exists t'. auto.
Qed.

Lemma findIndex_insert n (l : list (Tool (num := num))) t' : forall i,
  findIndex n l = Some i -> name t' = n -> findIndex n (<[i := t']> l) = Some i.
Proof.
  induction l as [|t l IH]; intros i H Hn; [discriminate|]. simpl in H.
  destruct (String.eqb (name t) n) eqn:E.
  - injection H as <-. simpl. rewrite Hn. now rewrite String.eqb_refl.
  - destruct (findIndex n l) as [j|] eqn:F; [|discriminate].
    injection H as <-. simpl. rewrite E. now rewrite (IH j eq_refl Hn).
Qed.

(** Once the version of the tool named [n], at index [i], is [v], nothing
    [updateTool] does afterwards changes it. *)
Section Invariant.
Variables (n : string) (i : nat) (v : string).
Local Abbreviation Inv := (at_version (num := num) (W := W) n i v).
Local Abbreviation good := (is_version (num := num) n v).

Lemma at_version_insert t' st :
  good t' -> Inv st -> Inv (set_tools (fun l => <[i := t']> l) st).
Proof.
  intros Hg [Hf (t & Ht & _)]. split; simpl.
  - apply findIndex_insert; [assumption|apply Hg].
  - exists t'. split; [|assumption]. apply list_lookup_insert_eq. eapply lookup_lt_Some; eauto.
Qed.

Lemma keeps_ask {A} (f : W -> Outcome A * W) : keeps Inv (ask f) (fun _ => True).
Proof.
  intros st Hs. unfold ask. destruct (f (world st)) as [[a|e] w]; simpl; auto.
Qed.

Lemma keeps_this : keeps Inv (this i) good.
Proof.
  intros st Hs. unfold this. destruct Hs as [Hf (t & Ht & Hg)].
  rewrite Ht. split; [|assumption]. split; [assumption|]. exists t. auto.
Qed.

Lemma keeps_saveRegistry : keeps Inv (saveRegistry host) (fun _ => True).
Proof. apply keeps_modify. intros st H. exact H. Qed.

Lemma keeps_updateMetrics m u : keeps Inv (updateMetrics host m u) (fun _ => True).
Proof.
  intros st Hs. destruct (updateMetrics_tools m u st) as (st' & E & T). rewrite E.
  split; [|exact I]. unfold at_version in *. rewrite T. exact Hs.
Qed.

Lemma keeps_lift {A} (o : Outcome A) : keeps Inv (lift o) (fun _ => True).
Proof. intros st Hst. unfold lift. destruct o; auto. Qed.

Lemma keeps_saveTool_body :
  keeps Inv
    (try_catch
       (t <- this i ;;
        l <- gets tools ;;
        match findIndex (name t) l with
        | None => ask (emit host "error" ("Tool not found: " +:+ name t))
        | Some toolIndex =>
            modify (set_tools (fun l => <[toolIndex := t]> l)) ;;;
            saveRegistry host ;;;
            ask (emit host "info" ("Tool " +:+ name t +:+ " saved successfully."))
        end)
       (fun error => ask (emit host "error" "Error saving tool:")))
    (fun _ => True).
Proof.
  apply keeps_try_catch; [|intros; apply keeps_ask].
  eapply keeps_bind; [apply keeps_this|]. intros t Hg.
  intros s Hs. unfold bind at 1, gets.
  destruct Hg as [Hv Hn]. rewrite Hn. rewrite (proj1 Hs).
  revert s Hs. change (keeps Inv
    (modify (set_tools (fun l => <[i := t]> l)) ;;;
     saveRegistry host ;;;
     ask (emit host "info" ("Tool " +:+ n +:+ " saved successfully.")))
    (fun _ => True)).
  eapply keeps_bind.
  { apply keeps_modify. intros st Hst. apply at_version_insert; [split|]; assumption. }
  intros _ _. eapply keeps_bind; [apply keeps_saveRegistry|]. intros _ _. apply keeps_ask.
Qed.

Lemma keeps_saveTool : keeps Inv (Tool_saveTool host i) (fun _ => True).
Proof.
  intros st Hs. unfold Tool_saveTool. split; [|exact I].
  pose proof (keeps_saveTool_body st Hs) as K.
  destruct (try_catch _ _ st) as [[a|e] s']; simpl; tauto.
Qed.

Lemma keeps_generateTestHarness :
  keeps Inv (Tool_generateTestHarness host i) (fun _ => True).
Proof.
  unfold Tool_generateTestHarness.
  eapply keeps_bind; [apply keeps_this|]. intros t Ht.
  destruct (instance t); [|apply keeps_throw].
  apply keeps_try_catch; [|intros; apply keeps_ask].
  eapply keeps_bind; [apply keeps_ask|]. intros text _.
  eapply keeps_bind.
  { apply keeps_modify. intros st Hst. apply at_version_insert; [|exact Hst]. exact Ht. }
  intros _ _. eapply keeps_bind; [apply keeps_saveTool|]. intros _ _. apply keeps_ask.
Qed.

Lemma keeps_updateTool_rest src sch newVersion :
  keeps Inv (updateTool_rest host n src sch newVersion i) (fun _ => True).
Proof.
  unfold updateTool_rest.
  eapply keeps_bind; [apply keeps_saveRegistry|]. intros _ _.
  eapply keeps_bind; [apply keeps_this|]. intros tool Htool.
  eapply keeps_bind.
  { instantiate (1 := fun _ => True).
    destruct (_ || _); [|now apply keeps_ret].
    eapply keeps_bind.
    { apply keeps_modify. intros st Hst. apply at_version_insert; [|exact Hst]. exact Htool. }
    intros _ _. eapply keeps_bind.
    { instantiate (1 := fun _ => True). destruct sch as [s|]; [|now apply keeps_ret].
      eapply keeps_bind; [apply keeps_ask|]. intros metadata _.
      eapply keeps_bind; [apply keeps_lift|]. intros metadata' _. apply keeps_ask. }
    intros _ _. eapply keeps_bind; [apply keeps_generateTestHarness|].
    intros _ _. apply keeps_updateMetrics. }
  intros _ _. eapply keeps_bind.
  { unfold saveToolToRepo. apply keeps_modify. intros st Hst. exact Hst. }
  intros _ _. eapply keeps_bind; [apply keeps_updateMetrics|].
  intros _ _. now apply keeps_ret.
Qed.

End Invariant.

(** [updateTool] on a registered name returns, with the version of the tool
    incremented, whatever its other arguments and whatever the host does. *)
Lemma updateTool_run n src sch newTags st i t :
  findIndex n (tools st) = Some i ->
  tools st !! i = Some t ->
  exists r st',
    updateTool host n src sch newTags st = (Ret r, st') /\
    at_version n i (incrementVersion (version t)) st'.
Proof.
  intros Hf Ht.
  destruct (findIndex_Some _ _ _ Hf) as (t0 & Ht0 & Hn).
  assert (t0 = t) as -> by congruence.
  unfold updateTool, try_catch, bind at 1, gets. rewrite Hf.
  unfold bind at 1, this at 1. rewrite Ht.
  unfold bind at 1, modify at 1.
  match goal with |- context [updateTool_rest host n src sch ?v i ?s] =>
    pose proof (keeps_updateTool_rest n i v src sch v s) as K end.
  match type of K with ?P -> _ => assert (H0 : P) end.
  { split; simpl.
    - now apply findIndex_insert.
    - eexists. split; [apply list_lookup_insert_eq; eapply lookup_lt_Some; eauto|].
      split; [reflexivity|exact Hn]. }
  specialize (K H0).
  destruct (updateTool_rest _ _ _ _ _ _ _) as [[r|e] s'].
  - exists r, s'. split; [reflexivity|tauto].
  - exists false, s'. split; [reflexivity|exact K].
Qed.

End Facts.
End RegistryFacts.

(** C10.  Every call of a tool through [Tool.call] adds exactly one to its
    [usageCount], whether the tool's code returns or throws, and the addition
    is made before the code runs: the call is the usage update followed by the
    rest.  [totalExecutions] grows by one, with the time statistics, when the
    code returns; when it throws, the execution statistics stay as they
    were. *)
Theorem Tool_call_counts_attempts :
  forall {num : Type} {arith : Registry.Arith num} {W : Type}
         (host : Registry.Host (num := num) (W := W))
         (st : Registry.State) (i : nat) (t : Registry.Tool) (params : value),
    Registry.tools st !! i = Some t ->
    exists o st' t',
      Registry.Tool_call host i params st = (o, st') /\
      Registry.tools st' !! i = Some t' /\
      Registry.usageCount (Registry.metrics t')
      = (Registry.usageCount (Registry.metrics t) + 1)%Z /\
      match o with
      | Ret _ =>
          Registry.totalExecutions (Registry.executionStats (Registry.metrics t'))
          = (Registry.totalExecutions (Registry.executionStats (Registry.metrics t)) + 1)%Z
      | Throw _ =>
          Registry.executionStats (Registry.metrics t')
          = Registry.executionStats (Registry.metrics t)
      end /\
      exists st1 t1,
        Registry.Tool_updateMetrics host i Registry.UUsage st = (Ret tt, st1) /\
        Registry.tools st1 !! i = Some t1 /\
        Registry.usageCount (Registry.metrics t1)
        = (Registry.usageCount (Registry.metrics t) + 1)%Z /\
        Registry.Tool_call host i params st
        = try_catch (Registry.Tool_call_rest host i params)
                    (Registry.Tool_call_catch host i) st1.
Proof.
  intros num arith W host st i t params Hi.
  destruct (RegistryFacts.Tool_call_run host st i t params Hi) as (o & st' & m' & E & Ht' & Ho).
  destruct (RegistryFacts.Tool_call_order host st i t params Hi) as (st1 & E1 & Ht1 & Eq).
  exists o, st', (Registry.set_metrics m' t).
  split; [exact E|]. split; [exact Ht'|].
  destruct o as [v|e].
  - destruct Ho as [d ->]. simpl. split; [reflexivity|]. split; [reflexivity|].
    eexists _, _. repeat split; eauto.
  - subst m'. simpl. split; [reflexivity|]. split; [reflexivity|].
    eexists _, _. repeat split; eauto.
Qed.

Lemma Tool_call_counts_attempts_witness :
  exists o (st' : RegistryExample.XState) (t' : RegistryExample.XTool),
    Registry.Tool_call RegistryExample.host 1 VNull RegistryExample.registry = (o, st') /\
    Registry.tools st' !! 1%nat = Some t' /\
    Registry.usageCount (Registry.metrics t') = 1%Z.
Proof.
  destruct (Tool_call_counts_attempts RegistryExample.host RegistryExample.registry 1
              (RegistryExample.new_tool "flaky" "fail") VNull eq_refl)
    as (o & st' & t' & E & Ht & Hu & _).
  exists o, st', t'. repeat split; assumption.
Defined.

(** C7, what the code does.  When a call through [Tool.call] fails, the new
    error rate is [(rate * n + 1) / (n + 1)] with [n] the [usageCount] after
    this call's own increment: the usage update runs first.  In terms of the
    count [u] before the call, the rate becomes
    [(rate * (u + 1) + 1) / (u + 2)].  The update of the rate is the one of
    a running mean, written for the count before the increment, as the
    update of the average execution time is; run after the increment it is
    no mean of anything. *)
Theorem Tool_call_error_rate :
  forall {num : Type} {arith : Registry.Arith num} {W : Type}
         (host : Registry.Host (num := num) (W := W))
         (st : Registry.State) (i : nat) (t : Registry.Tool) (params : value)
         (e : thrown) (st' : Registry.State),
    Registry.tools st !! i = Some t ->
    Registry.Tool_call host i params st = (Throw e, st') ->
    exists t',
      Registry.tools st' !! i = Some t' /\
      Registry.errorRate (Registry.metrics t')
      = Registry.div
          (Registry.add
             (Registry.mul (Registry.errorRate (Registry.metrics t))
                (Registry.of_Z (Registry.usageCount (Registry.metrics t) + 1)))
             (Registry.of_Z 1))
          (Registry.of_Z (Registry.usageCount (Registry.metrics t) + 1 + 1)).
Proof.
  intros num arith W host st i t params e st' Hi Hcall.
  destruct (RegistryFacts.Tool_call_run host st i t params Hi) as (o & st2 & m' & E & Ht' & Ho).
  rewrite Hcall in E. injection E as <- <-.
  subst m'. eexists. split; [exact Ht'|]. reflexivity.
Qed.

Lemma Tool_call_error_rate_witness :
  exists t' : RegistryExample.XTool,
    Registry.tools (snd (Registry.Tool_call RegistryExample.host 1 VNull RegistryExample.registry))
      !! 1%nat = Some t' /\
    Registry.errorRate (Registry.metrics t') = Exact.XNum (1 # 2).
Proof.
  destruct (Tool_call_error_rate RegistryExample.host RegistryExample.registry 1
              (RegistryExample.new_tool "flaky" "fail") VNull
              (Error "Unhandled error.")
              (snd (Registry.Tool_call RegistryExample.host 1 VNull RegistryExample.registry))
              eq_refl eq_refl)
    as (t' & Ht & Hr).
  exists t'. split; [exact Ht|]. rewrite Hr. reflexivity.
Defined.

(** C7, where the code departs from the specification: a tool never used
    before, with error rate 0, fails its first call; the specification's
    formula, with the count from before the increment, gives 1, the code
    leaves 1/2. *)
Lemma Tool_call_error_rate_counterexample :
  exists e (st' : RegistryExample.XState) (t' : RegistryExample.XTool),
    Registry.Tool_call RegistryExample.host 1 VNull RegistryExample.registry = (Throw e, st') /\
    Registry.tools RegistryExample.registry !! 1%nat
    = Some (RegistryExample.new_tool "flaky" "fail") /\
    Registry.tools st' !! 1%nat = Some t' /\
    Registry.spec_error_rate (Exact.XNum 0) 0 = Exact.XNum 1 /\
    Registry.errorRate (Registry.metrics t') = Exact.XNum (1 # 2) /\
    Registry.errorRate (Registry.metrics t') <> Registry.spec_error_rate (Exact.XNum 0) 0.
Proof.
  eexists _, _, _. split; [vm_compute; reflexivity|].
  split; [reflexivity|]. split; [vm_compute; reflexivity|].
  split; [reflexivity|]. split; [reflexivity|].
  vm_compute. discriminate.
Qed.

(** A tool that fails every call never reads an error rate of 1: after
    one, two and three calls its rate is 1/2, 2/3 and 3/4. *)
Example Tool_call_always_failing :
  let after1 := snd (Registry.Tool_call RegistryExample.host 1 VNull RegistryExample.registry) in
  let after2 := snd (Registry.Tool_call RegistryExample.host 1 VNull after1) in
  let after3 := snd (Registry.Tool_call RegistryExample.host 1 VNull after2) in
  map (fun st => option_map (fun t => Registry.errorRate (Registry.metrics t))
                   (Registry.tools st !! 1%nat))
    [after1; after2; after3]
  = [Some (Exact.XNum (1 # 2)); Some (Exact.XNum (2 # 3)); Some (Exact.XNum (3 # 4))].
Proof. vm_compute. reflexivity. Qed.

(** C8, as the code has it.  [removeTool] returns [true] exactly when a tool
    of that name was in the registry, and takes every tool of that name out;
    a second call returns [false] and leaves the registry as it is.  The
    metrics table is not touched: the removed tool's entry stays. *)
Theorem removeTool_idempotent :
  forall {num : Type} {arith : Registry.Arith num} {W : Type}
         (host : Registry.Host (num := num) (W := W)) (n : string) (st : Registry.State),
    exists st',
      Registry.removeTool host n st
      = (Ret (existsb (Registry.named n) (Registry.tools st)), st') /\
      Registry.tools st' = filter (fun tool => Registry.name tool <> n) (Registry.tools st) /\
      Registry.table st' = Registry.table st /\
      Registry.removeTool host n st' = (Ret false, st').
Proof.
  intros num arith W host n st.
  rewrite RegistryFacts.removeTool_eq. eexists. split; [reflexivity|].
  assert (Ht : forall st1 : Registry.State (num := num) (W := W),
             Registry.tools st1
             = filter (fun tool => Registry.name tool <> n) (Registry.tools st) ->
             Registry.removeTool host n st1 = (Ret false, st1)).
  { intros st1 H1.
    rewrite RegistryFacts.removeTool_eq, H1, RegistryFacts.existsb_filtered. cbv zeta.
    destruct st1 as [l tb w]; simpl in *. unfold Registry.set_tools; simpl.
    now rewrite H1, RegistryFacts.filter_again. }
  cbv zeta.
  destruct (existsb (Registry.named n) (Registry.tools st)); simpl;
    repeat split; apply Ht; reflexivity.
Qed.

(** C8 as stated fails: the registry has the tool [echo] and a metrics entry
    for it; removing [echo] returns [true] and the entry is still there. *)
Lemma removeTool_counterexample :
  exists st' : RegistryExample.XState,
    Registry.removeTool RegistryExample.host "echo" RegistryExample.registry = (Ret true, st') /\
    map Registry.name (Registry.tools st') = ["flaky"] /\
    Registry.table RegistryExample.registry !! "echo" = Some Registry.fresh_metrics /\
    Registry.table st' !! "echo" = Some Registry.fresh_metrics.
Proof. eexists. repeat split; vm_compute; reflexivity. Qed.

(** C2, as the code has it.  For a registered tool whose version is
    [major.minor.patch], three integers written in decimal digits, none
    above [2^53] and the patch below it, every call of [updateTool] with its
    name returns and leaves the version [major.minor.(patch + 1)]: the patch
    grows by exactly one per call, whether or not the call gives a source or
    a schema, and whatever the call returns.  The components are doubles in
    the code: beyond [2^53] they are rounded, and a patch of [2^53] stays
    what it is. *)
Theorem updateTool_bumps_patch :
  forall {num : Type} {arith : Registry.Arith num} {W : Type}
         (host : Registry.Host (num := num) (W := W))
         (n : string) (src : option string) (sch : option Registry.Schema)
         (newTags : option (list string)) (st : Registry.State)
         (i : nat) (t : Registry.Tool) (major minor patch : Z),
    Registry.findIndex n (Registry.tools st) = Some i ->
    Registry.tools st !! i = Some t ->
    Registry.version t = show_version major minor patch ->
    (0 <= major <= 2 ^ 53)%Z -> (0 <= minor <= 2 ^ 53)%Z -> (0 <= patch < 2 ^ 53)%Z ->
    exists r st' t',
      Registry.updateTool host n src sch newTags st = (Ret r, st') /\
      Registry.tools st' !! i = Some t' /\
      Registry.name t' = n /\
      Registry.version t' = show_version major minor (patch + 1).
Proof.
  intros num arith W host n src sch newTags st i t major minor patch Hf Ht Hv Ha Hb Hc.
  destruct (RegistryFacts.updateTool_run host n src sch newTags st i t Hf Ht)
    as (r & st' & E & _ & t' & Ht' & Hv' & Hn').
  exists r, st', t'. repeat split; try assumption.
  rewrite Hv', Hv. now apply RegistryFacts.incrementVersion_patch.
Qed.

Lemma updateTool_bumps_patch_witness :
  exists r (st' : RegistryExample.XState) (t' : RegistryExample.XTool),
    Registry.updateTool RegistryExample.host "echo" (Some "return 1") None (Some [])
      RegistryExample.registry = (Ret r, st') /\
    Registry.tools st' !! 0%nat = Some t' /\
    Registry.version t' = "1.0.1".
Proof.
  destruct (updateTool_bumps_patch RegistryExample.host "echo" (Some "return 1") None (Some [])
              RegistryExample.registry 0 (RegistryExample.new_tool "echo" "ok") 1 0 0
              eq_refl eq_refl eq_refl ltac:(lia) ltac:(lia) ltac:(lia))
    as (r & st' & t' & E & Ht & _ & Hv).
  exists r, st', t'. repeat split; assumption.
Defined.

(** What [incrementVersion] makes of versions that are not three small
    integers in decimal digits: a patch of [2^53] is not raised; an exponent
    and a hexadecimal literal are read as numbers and written in decimal
    digits; a fraction cannot occur, since the version is split at the dots;
    a missing component is [undefined], and a text that is no number
    [NaN]. *)
Example incrementVersion_doubles :
  Registry.incrementVersion "1.0.9007199254740991" = "1.0.9007199254740992" /\
  Registry.incrementVersion "1.0.9007199254740992" = "1.0.9007199254740992" /\
  Registry.incrementVersion "1.0.9007199254740993" = "1.0.9007199254740992" /\
  Registry.incrementVersion "1.0.1e2" = "1.0.101" /\
  Registry.incrementVersion "0x10.0.0" = "16.0.1" /\
  Registry.incrementVersion "1.0.1e-2" = "1.0.1.01" /\
  Registry.incrementVersion "1.0.1e21" = "1.0.1e+21" /\
  Registry.incrementVersion "01.0. 7 " = "1.0.8" /\
  Registry.incrementVersion "1.0" = "1.0.NaN" /\
  Registry.incrementVersion "1" = "1.undefined.NaN" /\
  Registry.incrementVersion "" = "0.undefined.NaN" /\
  Registry.incrementVersion "v1.0.0-beta" = "NaN.0.NaN" /\
  Registry.incrementVersion "1.0.-1" = "1.0.0" /\
  Registry.incrementVersion "1.2.3.4" = "1.2.4".
Proof. vm_compute. repeat split; reflexivity. Qed.

(** C2 as stated fails: a call that gives neither a source nor a schema, only
    tags, changes neither the source nor the schema of [echo], and its version
    goes from [1.0.0] to [1.0.1]. *)
Lemma updateTool_counterexample :
  exists (st' : RegistryExample.XState) (t t' : RegistryExample.XTool),
    Registry.tools RegistryExample.registry !! 0%nat = Some t /\
    Registry.updateTool RegistryExample.host "echo" None None (Some ["kept"])
      RegistryExample.registry = (Ret true, st') /\
    Registry.tools st' !! 0%nat = Some t' /\
    Registry.source t' = Registry.source t /\
    Registry.schema t' = Registry.schema t /\
    Registry.version t = "1.0.0" /\
    Registry.version t' = "1.0.1".
Proof. eexists _, _, _. repeat split; vm_compute; reflexivity. Qed.

(** ** The retry wrapper *)

Module AssistantFacts.
Import Assistant.

Section Facts.
Context {W : Type}.
Implicit Types (st : State (W := W)).

Lemma attempt_run {T} (operation : M (State (W := W)) T) st :
  attempt operation st
  = if (globalRetryLimit <? globalRetryCount st + 1)%Z
    then (Throw global_error, counted st)
    else operation (started st).
Proof.
  unfold attempt, bind, modify, gets, pause, throw, ret. simpl.
  destruct (globalRetryLimit <? globalRetryCount st + 1)%Z; reflexivity.
Qed.

Lemma retry_loop_turn {T} (operation : M (State (W := W)) T) maxRetries delay toolName left retries :
  left = Z.to_nat (maxRetries - retries) ->
  retry_loop operation maxRetries delay toolName left retries
  = try_catch (attempt operation)
      (fun error =>
         if (maxRetries <=? retries)%Z then throw error else
         retryable <- lift (isRetryableError error) ;;
         if negb retryable then throw error else
         log "warn" (retry_message toolName (default "" (message error))
                       (retryDelay delay (retries + 1))) ;;;
         pause (retryDelay delay (retries + 1)) ;;;
         retry_loop operation maxRetries delay toolName
           (Z.to_nat (maxRetries - (retries + 1))) (retries + 1)).
Proof.
  intros Hl. destruct left as [|left']; simpl.
  - assert ((maxRetries <=? retries)%Z = true) as -> by (apply Z.leb_le; lia). reflexivity.
  - replace (Z.to_nat (maxRetries - (retries + 1))) with left' by lia. reflexivity.
Qed.

Lemma global_error_final : isRetryableError global_error = Ret false.
Proof. reflexivity. Qed.

Lemma retry_loop_refused {T} (operation : M (State (W := W)) T) maxRetries delay toolName left retries st :
  (globalRetryLimit <= globalRetryCount st)%Z ->
  retry_loop operation maxRetries delay toolName left retries st
  = (Throw global_error, counted st).
Proof.
  intros H. destruct left; simpl; unfold try_catch; rewrite attempt_run;
    assert ((globalRetryLimit <? globalRetryCount st + 1)%Z = true) as ->
      by (apply Z.ltb_lt; lia); [reflexivity|].
  destruct (maxRetries <=? retries)%Z; reflexivity.
Qed.

Lemma retry_loop_fails {T} (operation : M (State (W := W)) T) e maxRetries delay toolName :
  fails_with e operation ->
  isRetryableError e = Ret true ->
  forall left retries st,
    left = Z.to_nat (maxRetries - retries) ->
    (globalRetryCount st + Z.of_nat left + 1 <= globalRetryLimit)%Z ->
    exists st',
      retry_loop operation maxRetries delay toolName left retries st = (Throw e, st') /\
      globalRetryCount st' = (globalRetryCount st + Z.of_nat left + 1)%Z /\
      slept st' = slept st ++ turns delay retries left.
Proof.
  intros Hop He. induction left as [|left IH]; intros retries st Hl Hc.
  - simpl. unfold try_catch. rewrite attempt_run.
    assert ((globalRetryLimit <? globalRetryCount st + 1)%Z = false) as ->
      by (apply Z.ltb_ge; lia).
    destruct (Hop (started st)) as (st' & E & Hg & Hs). rewrite E.
    exists st'. split; [reflexivity|]. rewrite Hg, Hs. simpl. split; [lia|reflexivity].
  - simpl. unfold try_catch. rewrite attempt_run.
    assert ((globalRetryLimit <? globalRetryCount st + 1)%Z = false) as ->
      by (apply Z.ltb_ge; lia).
    destruct (Hop (started st)) as (st1 & E & Hg & Hs). rewrite E.
    assert ((maxRetries <=? retries)%Z = false) as -> by (apply Z.leb_gt; lia).
    unfold bind at 1, lift. rewrite He.
    unfold bind at 1, log, modify. unfold bind at 1, pause, modify.
    cbv beta iota delta [negb].
    match goal with |- context [retry_loop _ _ _ _ left _ ?s] =>
      destruct (IH (retries + 1)%Z s) as (st' & E' & Hg' & Hs') end.
    { lia. }
    { simpl. rewrite Hg. simpl. lia. }
    exists st'. split; [exact E'|]. rewrite Hg', Hs'. simpl. rewrite Hg, Hs. simpl.
    split; [lia|]. rewrite <- !app_assoc. reflexivity.
Qed.

Lemma retry_loop_final {T} (operation : M (State (W := W)) T) e maxRetries delay toolName left retries st st' :
  (globalRetryCount st < globalRetryLimit)%Z ->
  operation (started st) = (Throw e, st') ->
  isRetryableError e = Ret false ->
  retry_loop operation maxRetries delay toolName left retries st = (Throw e, st').
Proof.
  intros Hc Hop He. destruct left; simpl; unfold try_catch; rewrite attempt_run;
    assert ((globalRetryLimit <? globalRetryCount st + 1)%Z = false) as ->
      by (apply Z.ltb_ge; lia); rewrite Hop; [reflexivity|].
  destruct (maxRetries <=? retries)%Z; [reflexivity|].
  unfold bind, lift. rewrite He. reflexivity.
Qed.

Lemma retryDelay_increasing delay k :
  (0 < delay)%Z -> (0 <= k)%Z -> (retryDelay delay k < retryDelay delay (k + 1))%Z.
Proof.
  intros Hd Hk. unfold retryDelay. rewrite Z.pow_add_r by lia.
  assert (0 < 2 ^ k)%Z by (apply Z.pow_pos_nonneg; lia). nia.
Qed.
End Facts.
End AssistantFacts.

(** C5.  Every attempt of every operation run through [retryOperation], the
    first one and each retry, starts by adding one to the assistant's retry
    counter; and once the counter has reached the limit of 100, so that the
    next increment exceeds it, an operation run through the wrapper fails at
    once with the error of the global ceiling: it is not run, nothing is
    waited for, and the error is not retried, whatever the operation would
    have thrown. *)
Theorem retryOperation_global_ceiling :
  forall {W T : Type} (operation : M (Assistant.State (W := W)) T)
         (maxRetries delay : Z) (toolName : option string) (st : Assistant.State),
    (Assistant.globalRetryLimit <= Assistant.globalRetryCount st)%Z ->
    Assistant.retryOperation operation maxRetries delay toolName st
    = (Throw Assistant.global_error, Assistant.counted st) /\
    Assistant.globalRetryCount (Assistant.counted st) = (Assistant.globalRetryCount st + 1)%Z /\
    (forall st0 : Assistant.State,
       Assistant.attempt operation st0
       = if (Assistant.globalRetryLimit <? Assistant.globalRetryCount st0 + 1)%Z
         then (Throw Assistant.global_error, Assistant.counted st0)
         else operation (Assistant.started st0)) /\
    (forall retries : Z,
       Assistant.retry_loop operation maxRetries delay toolName
         (Z.to_nat (maxRetries - retries)) retries
       = try_catch (Assistant.attempt operation)
           (fun error =>
              if (maxRetries <=? retries)%Z then throw error else
              retryable <- Assistant.lift (Assistant.isRetryableError error) ;;
              if negb retryable then throw error else
              Assistant.log "warn"
                (Assistant.retry_message toolName (default "" (message error))
                   (Assistant.retryDelay delay (retries + 1))) ;;;
              Assistant.pause (Assistant.retryDelay delay (retries + 1)) ;;;
              Assistant.retry_loop operation maxRetries delay toolName
                (Z.to_nat (maxRetries - (retries + 1))) (retries + 1))).
Proof.
  intros W T operation maxRetries delay toolName st Hc.
  split; [now apply AssistantFacts.retry_loop_refused|].
  split; [reflexivity|]. split.
  - intros st0. apply AssistantFacts.attempt_run.
  - intros retries. now apply AssistantFacts.retry_loop_turn.
Qed.

Lemma retryOperation_global_ceiling_witness :
  Assistant.retryOperation (throw (A := value) AssistantExample.refused) 3 1000 (Some "bash")
    AssistantExample.worn
  = (Throw Assistant.global_error, Assistant.counted AssistantExample.worn).
Proof.
  exact (proj1 (retryOperation_global_ceiling (throw AssistantExample.refused) 3 1000
                  (Some "bash") AssistantExample.worn ltac:(vm_compute; discriminate))).
Defined.

(** C6.  [retryOperation] retries only an error whose message, in lower
    case, contains [network timeout], [connection refused] or [server
    unavailable].  For every operation, at every turn of the loop below the
    global ceiling: a failure whose message contains none of the three
    reaches the caller at once, with the state the operation left; a failure
    whose message contains one of them, while fewer than [maxRetries]
    retries have been made, is logged and followed by a wait of
    [delay * 2^(retries + 1)] and by the next attempt; after [maxRetries]
    retries every failure reaches the caller; a result is returned at once.
    So an operation that keeps failing with a retryable error is run
    [maxRetries + 1] times, with the wait [delay * 2^k] after the [k]-th
    failure, and these waits grow strictly.  [connection refused while
    dialing] is a retryable message; [invalid parameter] is not. *)
Theorem retryOperation_policy :
  forall {W T : Type} (operation : M (Assistant.State (W := W)) T)
         (maxRetries delay : Z) (toolName : option string),
    (0 <= maxRetries)%Z ->
    (0 < delay)%Z ->
    let transient (msg : string) : Prop :=
      exists part, In part ["network timeout"; "connection refused"; "server unavailable"] /\
                   Assistant.includes part (Assistant.toLowerCase msg) = true in
    let loop (retries : Z) :=
      Assistant.retry_loop operation maxRetries delay toolName
        (Z.to_nat (maxRetries - retries)) retries in
    Assistant.retryOperation operation maxRetries delay toolName = loop 0%Z /\
    (forall (retries : Z) (st st' : Assistant.State) (e : thrown) (msg : string),
       (Assistant.globalRetryCount st < Assistant.globalRetryLimit)%Z ->
       operation (Assistant.started st) = (Throw e, st') ->
       message e = Some msg ->
       ~ transient msg ->
       loop retries st = (Throw e, st')) /\
    (forall (retries : Z) (st st' : Assistant.State) (e : thrown) (msg : string),
       (Assistant.globalRetryCount st < Assistant.globalRetryLimit)%Z ->
       operation (Assistant.started st) = (Throw e, st') ->
       message e = Some msg ->
       transient msg ->
       (0 <= retries < maxRetries)%Z ->
       loop retries st
       = loop (retries + 1)%Z
           (Assistant.waiting toolName msg (Assistant.retryDelay delay (retries + 1)) st')) /\
    (forall (retries : Z) (st st' : Assistant.State) (e : thrown),
       (Assistant.globalRetryCount st < Assistant.globalRetryLimit)%Z ->
       operation (Assistant.started st) = (Throw e, st') ->
       (maxRetries <= retries)%Z ->
       loop retries st = (Throw e, st')) /\
    (forall (retries : Z) (st st' : Assistant.State) (v : T),
       (Assistant.globalRetryCount st < Assistant.globalRetryLimit)%Z ->
       operation (Assistant.started st) = (Ret v, st') ->
       loop retries st = (Ret v, st')) /\
    (forall (e : thrown) (msg : string) (st : Assistant.State),
       Assistant.fails_with e operation ->
       message e = Some msg ->
       transient msg ->
       (Assistant.globalRetryCount st + maxRetries + 1 <= Assistant.globalRetryLimit)%Z ->
       exists st',
         Assistant.retryOperation operation maxRetries delay toolName st = (Throw e, st') /\
         Assistant.globalRetryCount st' = (Assistant.globalRetryCount st + maxRetries + 1)%Z /\
         Assistant.slept st'
         = Assistant.slept st ++ Assistant.turns delay 0 (Z.to_nat maxRetries)) /\
    (forall k : Z,
       (0 <= k)%Z -> (Assistant.retryDelay delay k < Assistant.retryDelay delay (k + 1))%Z) /\
    transient "connection refused while dialing" /\
    ~ transient "invalid parameter".
Proof.
  intros W T operation maxRetries delay toolName Hm Hd transient loop.
  assert (Hre : forall e msg, message e = Some msg ->
                  (transient msg -> Assistant.isRetryableError e = Ret true) /\
                  (~ transient msg -> Assistant.isRetryableError e = Ret false)).
  { intros e msg He. unfold Assistant.isRetryableError. rewrite He.
    destruct (existsb _ Assistant.retryableErrorMessages) eqn:Hx.
    - split; [reflexivity|]. intros Hn. exfalso. apply Hn.
      apply existsb_exists in Hx as (part & Hin & Hp). exists part. split; assumption.
    - split; [|reflexivity]. intros (part & Hin & Hp).
      assert (Hx' : existsb (fun m => Assistant.includes m (Assistant.toLowerCase msg))
                      Assistant.retryableErrorMessages = true)
        by (apply existsb_exists; exists part; split; assumption).
      congruence. }
  split; [unfold loop, Assistant.retryOperation; now rewrite Z.sub_0_r|].
  split; [|split; [|split; [|split; [|split; [|split; [|split]]]]]].
  - intros retries st st' e msg Hc Hop He Hn. unfold loop.
    apply AssistantFacts.retry_loop_final; [exact Hc|exact Hop|].
    now apply (Hre e msg He).
  - intros retries st st' e msg Hc Hop He Ht Hr. unfold loop.
    rewrite AssistantFacts.retry_loop_turn by reflexivity.
    unfold try_catch. rewrite AssistantFacts.attempt_run.
    assert ((Assistant.globalRetryLimit <? Assistant.globalRetryCount st + 1)%Z = false) as ->
      by (apply Z.ltb_ge; lia).
    rewrite Hop.
    assert ((maxRetries <=? retries)%Z = false) as -> by (apply Z.leb_gt; lia).
    unfold bind at 1, Assistant.lift. rewrite (proj1 (Hre e msg He) Ht).
    cbv beta iota delta [negb]. rewrite He. reflexivity.
  - intros retries st st' e Hc Hop Hr. unfold loop.
    rewrite AssistantFacts.retry_loop_turn by reflexivity.
    unfold try_catch. rewrite AssistantFacts.attempt_run.
    assert ((Assistant.globalRetryLimit <? Assistant.globalRetryCount st + 1)%Z = false) as ->
      by (apply Z.ltb_ge; lia).
    rewrite Hop.
    assert ((maxRetries <=? retries)%Z = true) as -> by (apply Z.leb_le; lia).
    reflexivity.
  - intros retries st st' v Hc Hop. unfold loop.
    rewrite AssistantFacts.retry_loop_turn by reflexivity.
    unfold try_catch. rewrite AssistantFacts.attempt_run.
    assert ((Assistant.globalRetryLimit <? Assistant.globalRetryCount st + 1)%Z = false) as ->
      by (apply Z.ltb_ge; lia).
    now rewrite Hop.
  - intros e msg st Hop He Ht Hc.
    destruct (AssistantFacts.retry_loop_fails operation e maxRetries delay toolName Hop
                (proj1 (Hre e msg He) Ht) (Z.to_nat maxRetries) 0 st)
      as (st' & E & Hg & Hs).
    { f_equal. lia. }
    { lia. }
    exists st'. split; [exact E|]. split; [lia|exact Hs].
  - intros k Hk. now apply AssistantFacts.retryDelay_increasing.
  - exists "connection refused". split; [simpl; tauto|reflexivity].
  - intros (part & Hin & Hp). simpl in Hin.
    destruct Hin as [<-|[<-|[<-|[]]]]; vm_compute in Hp; discriminate.
Qed.

(** The operation of [Assistant.callTool] for the tool [echo], whose module
    refuses the connection: the failure is retried after 2000 ms, and the
    second attempt fails in another way, since [loadTool] hands a module
    out once; [Tool 'echo' not found.] is not retried.  And an operation
    that is refused at every attempt. *)
Lemma retryOperation_policy_witness :
  let operation :=
    try_catch (ToolCalls.load_and_call RegistryExample.host OpsExample.refusing "echo")
      (ToolCalls.recover OpsExample.silent (throw Assistant.global_error) "echo") in
  (exists st1,
     operation (Assistant.started (OpsExample.assistant ∅))
     = (Throw AssistantExample.refused, st1) /\
     Assistant.retryOperation operation 3 1000 (Some "echo") (OpsExample.assistant ∅)
     = Assistant.retry_loop operation 3 1000 (Some "echo") 2 1
         (Assistant.waiting (Some "echo") "connection refused while dialing" 2000 st1) /\
     fst (Assistant.retryOperation operation 3 1000 (Some "echo") (OpsExample.assistant ∅))
     = Throw (ToolCalls.not_found "echo") /\
     Assistant.slept
       (snd (Assistant.retryOperation operation 3 1000 (Some "echo") (OpsExample.assistant ∅)))
     = [1000; 2000; 1000]%Z) /\
  (exists st',
     Assistant.callTool (throw (A := value) AssistantExample.refused) "bash"
       AssistantExample.fresh
     = (Throw AssistantExample.refused, st') /\
     Assistant.globalRetryCount st' = 4%Z /\
     Assistant.slept st' = [1000; 2000; 1000; 4000; 1000; 8000; 1000]%Z).
Proof.
  cbv zeta. split.
  - match goal with |- exists st1, ?op _ = _ /\ _ =>
      destruct (retryOperation_policy op 3 1000 (Some "echo") ltac:(lia) ltac:(lia))
        as (E0 & _ & Hretry & _)
    end.
    eexists. split; [vm_compute; reflexivity|].
    split; [|split; vm_compute; reflexivity].
    rewrite E0.
    apply (Hretry 0%Z (OpsExample.assistant ∅) _ AssistantExample.refused
             "connection refused while dialing").
    + vm_compute. reflexivity.
    + vm_compute. reflexivity.
    + reflexivity.
    + exists "connection refused". split; [simpl; tauto|reflexivity].
    + lia.
  - destruct (retryOperation_policy (W := unit)
                (throw (A := value) AssistantExample.refused) 3 1000
                (Some "bash") ltac:(lia) ltac:(lia))
      as (_ & _ & _ & _ & _ & Hfails & _).
    destruct (Hfails AssistantExample.refused "connection refused while dialing"
                AssistantExample.fresh
                (fun st => ex_intro _ st (conj eq_refl (conj eq_refl eq_refl)))
                eq_refl
                (ex_intro _ "connection refused" (conj (or_intror (or_introl eq_refl)) eq_refl))
                ltac:(vm_compute; discriminate))
      as (st' & E & Hg & Hs).
    exists st'. split; [exact E|]. split; [exact Hg|exact Hs].
Defined.

(** Through [Assistant.callTool] itself: a tool that refuses the connection
    is tried twice, and the caller gets the error of the second attempt. *)
Example callTool_refused_then_not_found :
  let run := ToolCalls.Assistant_callTool RegistryExample.host OpsExample.refusing
               OpsExample.silent "echo" (VObj []) (OpsExample.assistant ∅) in
  fst run = Throw (ToolCalls.not_found "echo") /\
  Assistant.globalRetryCount (snd run) = 2%Z /\
  Assistant.slept (snd run) = [1000; 2000; 1000]%Z.
Proof. vm_compute. repeat split; reflexivity. Qed.

Example retryOperation_invalid_parameter :
  Assistant.callTool (throw (A := value) AssistantExample.invalid) "bash" AssistantExample.fresh
  = (Throw AssistantExample.invalid, Assistant.started AssistantExample.fresh).
Proof. reflexivity. Qed.

(** ** The orchestrator *)




(** ** The heap *)

Module HeapFacts.
Import Assistant.













End HeapFacts.

Module OrchestratorFacts.
Import Assistant HeapFacts.

Section Facts.
Context {num : Type} {scores : Scores num} {W : Type}.
Variable host : Host (num := num) (W := W).
Variable JSON_parse : string -> Outcome value.
Implicit Types (st : State (W := W)).

Lemma bind_Ret {A B} (m : M (State (W := W)) A) (k : A -> M State B) st a st' :
  m st = (Ret a, st') -> bind m k st = k a st'.
Proof. intros E. unfold bind. now rewrite E. Qed.

Lemma ask_Ret {A} (f : W -> Outcome A * W) st :
  (forall w, exists a w', f w = (Ret a, w')) ->
  exists a w', ask f st = (Ret a, set_world (fun _ => w') st).
Proof.
  intros H. destruct (H (world st)) as (a & w' & E). exists a, w'.
  unfold ask. now rewrite E.
Qed.











End Facts.
End OrchestratorFacts.

Section OrchestratorClaims.
Import Assistant OrchestratorFacts.
Context {num : Type} {scores : Scores num} {W : Type}.
Variable host : Host (num := num) (W := W).
Variable JSON_parse : string -> Outcome value.
Implicit Types (st : State (W := W)).


(** C3.  [callAgent] never throws: it returns [{success: true, data}] when its
    [try] block returns [data], and [{success: false, error}] when anything in
    the [try] block throws [error], whatever the host does. *)
Theorem callAgent_never_throws request model resultVar st :
  exists result st',
    callAgent host JSON_parse request model resultVar st = (Ret result, st') /\
    match result with
    | Success data =>
        callAgent_try host JSON_parse request model resultVar st = (Ret data, st')
    | Failed error =>
        callAgent_try host JSON_parse request model resultVar st = (Throw error, st')
    end.
Proof.
  unfold callAgent, try_catch, bind.
  destruct (callAgent_try host JSON_parse request model resultVar st) as [[data|error] st'].
  - exists (Success data), st'. split; reflexivity.
  - exists (Failed error), st'. split; reflexivity.
Qed.

End OrchestratorClaims.


(** The second script reads the result of the first under [a_results] and
    returns it; [data] is the array the store has under the result variable
    of the call, and the task the store has under [a_task] has its
    result. *)
Example callAgent_passes_result :
  let run := Assistant.callAgent (AssistantExample.host "a_results") Json.parse "do it"
               "claude" (Some "out") AssistantExample.fresh in
  let h := Assistant.heap (snd run) in
  fst run = Ret (Assistant.Success (VRef 4)) /\
  obj_get "out" (Assistant.store (snd run)) = Some (VRef 4) /\
  Assistant.written h (VRef 4)
  = Some (VArr [Assistant.rout "a" "first" (VStr "return 1") (VNum 1 0);
                Assistant.rout "b" "second" (VStr "return taskResults.a_results")
                  (VNum 1 0)]) /\
  obj_get "a_task" (Assistant.store (snd run)) = Some (VRef 0) /\
  h !! 0%nat = Some (VObj (obj_set "scriptResult" (VNum 1 0) AssistantExample.first_task)).
Proof. vm_compute. repeat split; reflexivity. Qed.


(** A script that returns an object of the run: the second script returns
    its own task, [taskResults.b_task].  The task then has itself as its
    [scriptResult], [JSON.stringify] throws on the circle, and [callAgent]
    returns a failure after both scripts have run. *)
Example callAgent_circular :
  let run := Assistant.callAgent (AssistantExample.host "b_task") Json.parse "do it" "claude"
               None AssistantExample.fresh in
  fst run = Ret (Assistant.Failed Assistant.circular) /\
  obj_get "b_task" (Assistant.store (snd run)) = Some (VRef 1) /\
  obj_get "b_result" (Assistant.store (snd run)) = Some (VRef 1) /\
  Assistant.heap (snd run) !! 1%nat
  = Some (VObj (obj_set "scriptResult" (VRef 1) (AssistantExample.second_task "b_task"))).
Proof. vm_compute. repeat split; reflexivity. Qed.

(** C3 on four runs that go wrong: the model is not reachable; its reply has
    no JSON in it; every script throws and is never repaired; the memory store
    refuses the new memory. *)
Example callAgent_model_fails :
  fst (Assistant.callAgent
         (AssistantExample.make_host (Throw (Error "overloaded")) (AssistantExample.scripts "r")
            (Ret tt))
         Json.parse "do it" "claude" None AssistantExample.fresh)
  = Ret (Assistant.Failed (Error "overloaded")).
Proof. vm_compute. reflexivity. Qed.

Example callAgent_no_json :
  fst (Assistant.callAgent
         (AssistantExample.make_host (Ret (VStr "I cannot help with that."))
            (AssistantExample.scripts "r") (Ret tt))
         Json.parse "do it" "claude" None AssistantExample.fresh)
  = Ret (Assistant.Failed
           (Error "The task must be an array of subtasks. Check the format and try again. RETURN ONLY JSON RESPONSES")).
Proof. vm_compute. reflexivity. Qed.

Example callAgent_script_fails :
  let run := Assistant.callAgent
               (AssistantExample.make_host (Ret (VStr (AssistantExample.plan "r")))
                  (fun _ _ => Throw (Error "x is not defined")) (Ret tt))
               Json.parse "do it" "claude" None AssistantExample.fresh in
  fst run = Ret (Assistant.Failed (Error "Script execution failed after 10 attempts.")) /\
  Assistant.slept (snd run) = [1000; 2000; 3000; 4000; 5000; 6000; 7000; 8000; 9000]%Z.
Proof. vm_compute. split; reflexivity. Qed.

Example callAgent_memory_fails :
  fst (Assistant.callAgent
         (AssistantExample.make_host (Ret (VStr (AssistantExample.plan "r")))
            (AssistantExample.scripts "r") (Throw (Error "collection not found")))
         Json.parse "do it" "claude" None AssistantExample.fresh)
  = Ret (Assistant.Failed (Error "collection not found")).
Proof. vm_compute. reflexivity. Qed.

(** ** More of the code: the extractor, the retries, the scripts, the
       registry and the tool calls *)

Module ExtractorMoreFacts.
Import Extractor ExtractorMore.

Lemma chars_push cur c :
  list_ascii_of_string (push_char cur c) = list_ascii_of_string cur ++ [c].
Proof. unfold push_char. rewrite ExtractorFacts.list_ascii_app. reflexivity. Qed.

Lemma push_cons o rest c : push_char (String o rest) c = String o (push_char rest c).
Proof. reflexivity. Qed.

Lemma string_of_chars_app (a b : list ascii) :
  string_of_list_ascii (a ++ b) = string_of_list_ascii a +:+ string_of_list_ascii b.
Proof. induction a as [|x a IH]; simpl; [reflexivity|]. now rewrite IH. Qed.

Lemma pieces_step {A} (parse : string -> Outcome A) done c todo st :
  pieces_so_far parse done (c :: todo) st ->
  pieces_so_far parse (done ++ [c]) todo (scan_char parse st c).
Proof.
  destruct st as [objs d cur ins esc]. unfold pieces_so_far; simpl.
  intros ([pre Hpre] & Hopen & Hobjs).
  rewrite <- app_assoc; simpl.
  assert (Hkeep : (exists pre0, done ++ [c] = pre0 ++ list_ascii_of_string (push_char cur c))).
  { exists pre. rewrite chars_push, Hpre. now rewrite app_assoc. }
  assert (Hstart : (0 < d)%Z ->
            exists o rest, push_char cur c = String o rest /\ is_open o = true).
  { intros Hd. destruct (Hopen Hd) as (o & rest & -> & Ho).
    exists o, (push_char rest c). split; [reflexivity|exact Ho]. }
  destruct esc; simpl; [auto|].
  destruct (Ascii.eqb c "\"); simpl; [auto|].
  destruct (Ascii.eqb c dquote && negb ins); simpl; [auto|].
  destruct (Ascii.eqb c dquote && ins); simpl; [auto|].
  destruct (negb ins); simpl; [|auto].
  destruct (is_open c) eqn:Eo; simpl.
  { destruct (d =? 0)%Z eqn:Ed; simpl.
    - split; [exists done; reflexivity|]. split; [|exact Hobjs].
      intros _. exists c, "". split; [reflexivity|exact Eo].
    - split; [exact Hkeep|]. split; [|exact Hobjs].
      intros Hd. apply Hstart. apply Z.eqb_neq in Ed. lia. }
  destruct (is_close c) eqn:Ec; simpl; [|auto].
  destruct (d - 1 =? 0)%Z eqn:Ed; simpl.
  - split; [exists (done ++ [c]); now rewrite app_nil_r|]. split; [lia|].
    unfold try_push. destruct (parse (push_char cur c)) as [v|e] eqn:Ep; [|exact Hobjs].
    apply Forall_app. split; [exact Hobjs|]. constructor; [|constructor].
    apply Z.eqb_eq in Ed.
    destruct Hopen as (o & rest & -> & Ho); [lia|].
    exists (string_of_list_ascii pre), o, (rest), c, (string_of_list_ascii todo).
    split; [|split; [exact Ho|split; [exact Ec|exact Ep]]].
    rewrite Hpre, <- app_assoc, string_of_chars_app.
    f_equal. rewrite <- (string_of_list_ascii_of_string (_ +:+ string_of_list_ascii todo)).
    f_equal. rewrite !ExtractorFacts.list_ascii_app, list_ascii_of_string_of_list_ascii.
    now rewrite <- app_assoc.
  - split; [exact Hkeep|]. split; [|exact Hobjs].
    intros Hd. apply Hstart. lia.
Qed.

Lemma pieces_fold {A} (parse : string -> Outcome A) todo : forall done st,
  pieces_so_far parse done todo st ->
  pieces_so_far parse (done ++ todo) [] (fold_left (scan_char parse) todo st).
Proof.
  induction todo as [|c todo IH]; simpl; intros done st H.
  - now rewrite app_nil_r.
  - replace (done ++ c :: todo) with ((done ++ [c]) ++ todo)
      by (now rewrite <- app_assoc).
    apply IH, pieces_step, H.
Qed.

Lemma same_step {A} (parse : string -> Outcome A) before st st' c :
  same_from_here before st st' ->
  same_from_here before (scan_char parse st c) (scan_char parse st' c).
Proof.
  destruct st as [objs d cur ins esc], st' as [objs' d' cur' ins' esc'].
  unfold same_from_here; simpl. intros (-> & -> & -> & Hcur & ->).
  assert (Hpush : (0 < d')%Z -> push_char cur c = push_char cur' c).
  { intros Hd. now rewrite (Hcur Hd). }
  destruct esc'; simpl; [tauto|].
  destruct (Ascii.eqb c "\"); simpl; [tauto|].
  destruct (Ascii.eqb c dquote && negb ins'); simpl; [tauto|].
  destruct (Ascii.eqb c dquote && ins'); simpl; [tauto|].
  destruct (negb ins'); simpl; [|tauto].
  destruct (is_open c); simpl.
  { destruct (d' =? 0)%Z eqn:Ed; simpl; [tauto|].
    repeat split. intros Hd. apply Hpush. apply Z.eqb_neq in Ed. lia. }
  destruct (is_close c); simpl; [|tauto].
  destruct (d' - 1 =? 0)%Z eqn:Ed; simpl.
  - apply Z.eqb_eq in Ed. repeat split. rewrite Hpush by lia.
    unfold try_push. destruct (parse _); [now rewrite app_assoc|reflexivity].
  - repeat split. intros Hd. apply Hpush. lia.
Qed.

Lemma same_fold {A} (parse : string -> Outcome A) before cs : forall st st',
  same_from_here before st st' ->
  same_from_here before (fold_left (scan_char parse) cs st) (fold_left (scan_char parse) cs st').
Proof.
  induction cs as [|c cs IH]; simpl; intros st st' H; [exact H|].
  apply IH, same_step, H.
Qed.

End ExtractorMoreFacts.

(** X1.  [extractJson] always returns, and every value of the list it returns is
    [JSON.parse] of a piece of the text: consecutive characters of it, the
    first an opening brace or bracket, the last a closing one. *)
Theorem extractJson_parses_pieces :
  forall (parse : string -> Outcome value) (content : string),
  exists objs,
    Extractor.extractJson parse content = Ret objs /\
    Forall (ExtractorMore.parsed_piece parse content) objs.
Proof.
  intros parse content. eexists. split; [reflexivity|].
  unfold Extractor.scan_from.
  pose proof (ExtractorMoreFacts.pieces_fold parse (list_ascii_of_string content) []
                Extractor.init) as H.
  destruct H as (_ & _ & H).
  - split; [exists []; reflexivity|]. split; [simpl; lia|constructor].
  - simpl in H. rewrite app_nil_r, string_of_list_ascii_of_string in H. exact H.
Qed.

(** X2.  After a text that the scan leaves at depth zero, outside a string and
    with no escape pending, the scan starts afresh: [extractJson] of the text
    followed by another returns the values of the first, then the values of
    the second. *)
Theorem extractJson_after_balanced :
  forall (parse : string -> Outcome value) (a b : string),
    let st := Extractor.scan_from parse Extractor.init a in
    Extractor.depth st = 0%Z -> Extractor.inString st = false ->
    Extractor.escapeNext st = false ->
    exists xs ys,
      Extractor.extractJson parse a = Ret xs /\
      Extractor.extractJson parse b = Ret ys /\
      Extractor.extractJson parse (a +:+ b) = Ret (xs ++ ys).
Proof.
  intros parse a b st Hd Hs He. eexists _, _. split; [reflexivity|]. split; [reflexivity|].
  unfold Extractor.extractJson, Extractor.scan_from.
  rewrite ExtractorFacts.list_ascii_app, fold_left_app. f_equal.
  fold (Extractor.scan_from parse Extractor.init a). fold st.
  apply (ExtractorMoreFacts.same_fold parse (Extractor.jsonObjects st)
           (list_ascii_of_string b) st Extractor.init).
  unfold ExtractorMore.same_from_here. rewrite Hd, Hs, He. simpl.
  repeat split; [lia|now rewrite app_nil_r].
Qed.

Lemma extractJson_after_balanced_witness :
  exists xs ys,
    Extractor.extractJson Json.parse ("x {} y") = Ret xs /\
    Extractor.extractJson Json.parse ("[1] z") = Ret ys /\
    Extractor.extractJson Json.parse ("x {} y" +:+ "[1] z") = Ret (xs ++ ys).
Proof.
  apply (extractJson_after_balanced Json.parse "x {} y" "[1] z"); reflexivity.
Defined.

Module RetryFacts.
Import Assistant AssistantFacts.
Section Facts.
Context {W : Type}.
Implicit Types (st : State (W := W)).

Lemma retry_loop_counts {T} (operation : M (State (W := W)) T) maxRetries delay toolName :
  (forall s, (globalRetryCount s <= globalRetryCount (snd (operation s)))%Z) ->
  forall left retries st,
    (globalRetryCount st
     < globalRetryCount (snd (retry_loop operation maxRetries delay toolName left retries st)))%Z.
Proof.
  intros Hop. induction left as [|left IH]; intros retries st.
  - simpl. unfold try_catch. rewrite attempt_run.
    destruct (globalRetryLimit <? globalRetryCount st + 1)%Z; [simpl; lia|].
    pose proof (Hop (started st)) as H.
    destruct (operation (started st)) as [[a|e] s']; simpl in *; lia.
  - simpl. unfold try_catch. rewrite attempt_run.
    destruct (globalRetryLimit <? globalRetryCount st + 1)%Z.
    + destruct (maxRetries <=? retries)%Z; simpl; lia.
    + pose proof (Hop (started st)) as H.
      destruct (operation (started st)) as [[a|e] s']; [simpl in *; lia|].
      simpl in H.
      destruct (maxRetries <=? retries)%Z; [simpl; lia|].
      unfold bind at 1, lift.
      destruct (isRetryableError e) as [[|]|e']; cbv beta iota delta [negb];
        [|simpl; lia..].
      unfold bind at 1, log, modify. unfold bind at 1, pause, modify.
      cbv beta iota.
      match goal with |- context [retry_loop _ _ _ _ left ?r ?s] =>
        pose proof (IH r s) as H' end.
      simpl in H'. simpl. lia.
Qed.

Lemma retry_loop_no_message {T} (operation : M (State (W := W)) T) e maxRetries delay toolName
    left retries st st' :
  (globalRetryCount st < globalRetryLimit)%Z ->
  operation (started st) = (Throw e, st') ->
  message e = None ->
  left = Z.to_nat (maxRetries - retries) ->
  retry_loop operation maxRetries delay toolName left retries st
  = (if (maxRetries <=? retries)%Z then Throw e
     else Throw (TypeError "Cannot read properties of undefined (reading 'toLowerCase')"), st').
Proof.
  intros Hc Hop He Hl. rewrite (retry_loop_turn _ _ _ _ _ _ Hl).
  unfold try_catch. rewrite attempt_run.
  assert ((globalRetryLimit <? globalRetryCount st + 1)%Z = false) as ->
    by (apply Z.ltb_ge; lia).
  rewrite Hop. destruct (maxRetries <=? retries)%Z; [reflexivity|].
  unfold bind, lift, isRetryableError. rewrite He. reflexivity.
Qed.

End Facts.
End RetryFacts.

(** X3.  [retryOperation] never gives back what it adds to the global retry
    counter: when the operation does not lower the counter, the counter is
    strictly greater after the call than before, however the call ends. *)
Theorem retryOperation_counter_grows :
  forall {W T : Type} (operation : M (Assistant.State (W := W)) T)
         (maxRetries delay : Z) (toolName : option string) (st : Assistant.State),
    (forall s, (Assistant.globalRetryCount s
                <= Assistant.globalRetryCount (snd (operation s)))%Z) ->
    (Assistant.globalRetryCount st
     < Assistant.globalRetryCount
         (snd (Assistant.retryOperation operation maxRetries delay toolName st)))%Z.
Proof.
  intros W T operation maxRetries delay toolName st Hop.
  apply RetryFacts.retry_loop_counts, Hop.
Qed.

Lemma retryOperation_counter_grows_witness :
  (Assistant.globalRetryCount AssistantExample.fresh
   < Assistant.globalRetryCount
       (snd (Assistant.retryOperation (throw (A := value) AssistantExample.refused) 3 1000
               (Some "bash") AssistantExample.fresh)))%Z.
Proof.
  apply (retryOperation_counter_grows (throw (A := value) AssistantExample.refused) 3 1000
           (Some "bash") AssistantExample.fresh).
  intros s. simpl. lia.
Defined.

(** X4.  When the counter is below its limit and the first attempt throws a
    value that has no [message], the operation is not tried again: with
    [maxRetries] at most zero the value is rethrown as it is, otherwise the
    [TypeError] that [isRetryableError] raises on reading [toLowerCase] of
    [undefined] takes its place. *)
Theorem retryOperation_error_without_message :
  forall {W T : Type} (operation : M (Assistant.State (W := W)) T)
         (maxRetries delay : Z) (toolName : option string) (st st' : Assistant.State)
         (e : thrown),
    (Assistant.globalRetryCount st < Assistant.globalRetryLimit)%Z ->
    operation (Assistant.started st) = (Throw e, st') ->
    message e = None ->
    Assistant.retryOperation operation maxRetries delay toolName st
    = (if (maxRetries <=? 0)%Z then Throw e
       else Throw (TypeError "Cannot read properties of undefined (reading 'toLowerCase')"),
       st').
Proof.
  intros W T operation maxRetries delay toolName st st' e Hc Hop He.
  apply RetryFacts.retry_loop_no_message; auto. f_equal. lia.
Qed.

Lemma retryOperation_error_without_message_witness :
  let e := {| message := None; stack := None; shown := "oops" |} in
  Assistant.callTool (throw (A := value) e) "bash" AssistantExample.fresh
  = (Throw (TypeError "Cannot read properties of undefined (reading 'toLowerCase')"),
     Assistant.started AssistantExample.fresh).
Proof.
  exact (retryOperation_error_without_message
           (throw (A := value) {| message := None; stack := None; shown := "oops" |})
           3 1000 (Some "bash") AssistantExample.fresh _ _
           ltac:(vm_compute; reflexivity) eq_refl eq_refl).
Defined.

Module TextFacts.
Import Assistant.

Lemma prefix_head c p d s : c <> d -> String.prefix (String c p) (String d s) = false.
Proof. intros H. simpl. destruct (ascii_dec c d); [contradiction|reflexivity]. Qed.

Lemma includes_head c d s :
  includes (String c "") (String d s) = false -> c <> d /\ includes (String c "") s = false.
Proof.
  simpl. destruct (ascii_dec c d) as [->|Hne].
  - destruct s; discriminate.
  - simpl. intros H. split; [exact Hne|]. destruct s; exact H.
Qed.

(** A pattern whose first character is not in the text is not found. *)
Lemma replace_all_absent c p r s :
  includes (String c "") s = false -> replace_all (String c p) r s = s.
Proof.
  unfold replace_all. induction s as [|d s IH]; intros H; [reflexivity|].
  apply includes_head in H as [Hne H].
  cbn [replace_all_go]. rewrite (prefix_head c p d s Hne). now rewrite (IH H).
Qed.

Lemma split_go_plain sep a : forall rest cur,
  includes (String sep "") a = false ->
  split_go sep (a +:+ rest) cur = split_go sep rest (cur +:+ a).
Proof.
  induction a as [|c a IH]; intros rest cur H.
  - now rewrite append_empty.
  - apply includes_head in H as [Hne H].
    rewrite append_cons. simpl.
    destruct (Ascii.eqb c sep) eqn:E; [apply Ascii.eqb_eq in E; congruence|].
    rewrite (IH _ _ H). now rewrite append_assoc.
Qed.

Lemma split_go_sep sep rest cur :
  split_go sep (String sep "" +:+ rest) cur = cur :: split_go sep rest "".
Proof. simpl. rewrite Ascii.eqb_refl. reflexivity. Qed.


Lemma dedup_elem (l : list string) x : x ∈ dedup l <-> x ∈ l.
Proof.
  induction l as [|y l IH]; simpl; [reflexivity|].
  rewrite !elem_of_cons, list_elem_of_filter, IH.
  destruct (decide (x = y)) as [->|Hne]; [tauto|]. tauto.
Qed.

Lemma dedup_NoDup (l : list string) : NoDup (dedup l).
Proof.
  induction l as [|y l IH]; simpl; [constructor|].
  apply NoDup_cons. split.
  - rewrite list_elem_of_filter. intros [H _]. now apply H.
  - now apply NoDup_filter.
Qed.

Lemma word_prefix_word s : forallb is_word (list_ascii_of_string (word_prefix s)) = true.
Proof.
  induction s as [|c s IH]; simpl; [reflexivity|].
  destruct (is_word c) eqn:E; simpl; [now rewrite E|reflexivity].
Qed.

Lemma tool_matches_names s : forall skip,
  Forall (fun n => n <> "" /\ forallb is_word (list_ascii_of_string n) = true)
    (tool_matches skip s).
Proof.
  induction s as [|c s IH]; intros skip; simpl; [constructor|].
  destruct skip as [|k]; [|apply IH].
  match goal with |- context [negb (String.eqb ?w "")] => set (name := w) end.
  destruct (_ && negb (String.eqb name "")) eqn:E; [|apply IH].
  apply andb_prop in E as [_ E]. constructor; [|apply IH].
  split; [|apply word_prefix_word].
  intros H. rewrite H in E. discriminate.
Qed.

Lemma prefix_cons a p b s :
  String.prefix (String a p) (String b s)
  = if ascii_dec a b then String.prefix p s else false.
Proof. reflexivity. Qed.

Lemma prefix_append p r : String.prefix p (p +:+ r) = true.
Proof.
  induction p as [|c p IH]; simpl; [now destruct r|].
  destruct (ascii_dec c c); [exact IH|contradiction].
Qed.

Lemma prefix_split p s : String.prefix p s = true -> exists r, s = p +:+ r.
Proof.
  revert s. induction p as [|c p IH]; intros s H; [now exists s|].
  destruct s as [|d s]; [discriminate|]. simpl in H.
  destruct (ascii_dec c d) as [->|]; [|discriminate].
  destruct (IH s H) as (r & ->). now exists r.
Qed.

(** [includes] is the occurrence of the part somewhere in the text. *)
Lemma includes_split p s : includes p s = true <-> exists a b, s = a +:+ p +:+ b.
Proof.
  split.
  - induction s as [|c s IH]; cbn [includes]; intros H.
    + rewrite orb_false_r in H. apply prefix_split in H as (r & ->). now exists "", r.
    + apply orb_prop in H as [H|H].
      * apply prefix_split in H as (r & ->). now exists "", r.
      * destruct (IH H) as (a & b & ->). now exists (String c a), b.
  - intros (a & b & ->). induction a as [|c a IH].
    + change ("" +:+ p +:+ b) with (p +:+ b).
      pose proof (prefix_append p b) as H.
      destruct (p +:+ b); cbn [includes]; rewrite H; reflexivity.
    + change (String c a +:+ p +:+ b) with (String c (a +:+ p +:+ b)).
      cbn [includes]. rewrite IH. apply orb_true_r.
Qed.

Lemma word_prefix_split s : exists post,
  s = word_prefix s +:+ post /\
  match post with EmptyString => True | String c _ => is_word c = false end.
Proof.
  induction s as [|c s (post & E & H)]; [now exists ""|].
  simpl. destruct (is_word c) eqn:Hc.
  - exists post. split; [|exact H].
    change (String c s = String c (word_prefix s +:+ post)). now f_equal.
  - exists (String c s). split; [reflexivity|exact Hc].
Qed.

Lemma word_prefix_append n post :
  forallb is_word (list_ascii_of_string n) = true ->
  match post with EmptyString => True | String c _ => is_word c = false end ->
  word_prefix (n +:+ post) = n.
Proof.
  intros Hn Hp. induction n as [|c n IH]; simpl in *.
  - destruct post as [|d post]; [reflexivity|]. simpl. now rewrite Hp.
  - apply andb_prop in Hn as [Hc Hn]. rewrite Hc. now rewrite (IH Hn).
Qed.

(** Every match stands in the text after [tools.], and ends where the word
    characters end. *)
Lemma tool_matches_found s : forall skip n,
  n ∈ tool_matches skip s ->
  exists pre post,
    s = pre +:+ "tools." +:+ n +:+ post /\
    match post with EmptyString => True | String c _ => is_word c = false end.
Proof.
  assert (Hcons : forall c x n,
            (exists pre post, x = pre +:+ "tools." +:+ n +:+ post /\
               match post with EmptyString => True | String c _ => is_word c = false end) ->
            exists pre post, String c x = pre +:+ "tools." +:+ n +:+ post /\
               match post with EmptyString => True | String c _ => is_word c = false end).
  { intros c x n (pre & post & -> & H). now exists (String c pre), post. }
  induction s as [|c s IH]; intros skip n; cbn [tool_matches]; [intros H; inversion H|].
  destruct skip as [|k]; [|intros H; apply Hcons, (IH _ _ H)].
  match goal with |- context [negb (String.eqb ?w "")] => set (name := w) end.
  destruct (_ && negb (String.eqb name "")) eqn:E; [|intros H; apply Hcons, (IH _ _ H)].
  intros H. apply elem_of_cons in H as [->|H]; [|apply Hcons, (IH _ _ H)].
  apply andb_prop in E as [E _].
  apply prefix_split in E as (r & E).
  destruct (word_prefix_split r) as (post & Hr & Hp).
  exists "", post. split; [|exact Hp].
  subst name. rewrite E. change (drop_string 6 ("tools." +:+ r)) with r.
  change ("" +:+ "tools." +:+ word_prefix r +:+ post)
    with ("tools." +:+ (word_prefix r +:+ post)).
  now rewrite <- Hr.
Qed.

(** No occurrence of [tools.] begins in a text that holds none and ends in
    one that follows it. *)
Lemma prefix_overlap c pre rest :
  includes "tools." (String c pre) = false ->
  String.prefix "tools." (String c pre +:+ "tools." +:+ rest) = false.
Proof.
  intros H. cbn [includes] in H. apply orb_false_elim in H as [H _].
  destruct (String.prefix "tools." (String c pre +:+ "tools." +:+ rest)) eqn:E; [|reflexivity].
  exfalso.
  assert (Hnil : forall a, "" +:+ a = a) by reflexivity.
  destruct pre as [|c1 [|c2 [|c3 [|c4 [|c5 pre]]]]];
    rewrite ?append_cons, ?Hnil in E;
    repeat (rewrite prefix_cons in E;
            match type of E with
            | context [ascii_dec ?a ?b] =>
                destruct (ascii_dec a b) as [Heq|];
                [try discriminate Heq; try subst|discriminate E]
            end).
  cbn in H. destruct pre; discriminate H.
Qed.

Lemma tool_matches_skip pre rest :
  includes "tools." pre = false ->
  tool_matches 0 (pre +:+ "tools." +:+ rest) = tool_matches 0 ("tools." +:+ rest).
Proof.
  induction pre as [|c pre IH]; intros H; [reflexivity|].
  change (String c pre +:+ "tools." +:+ rest) with (String c (pre +:+ "tools." +:+ rest)).
  cbn [tool_matches].
  change (String c (pre +:+ "tools." +:+ rest)) with (String c pre +:+ "tools." +:+ rest).
  rewrite (prefix_overlap c pre rest H). cbn [andb].
  apply IH. simpl in H. apply orb_false_elim in H as [_ H].
  destruct pre; [reflexivity|exact H].
Qed.

End TextFacts.

(** X5.  [extractUsedTools] of a text returns the words that follow [tools.] in
    the matches of [/tools\.(\w+)/g], each once.  The names are distinct.
    Each is a non-empty run of word characters that stands in the text
    right after [tools.] and is followed by no word character; whether a
    parenthesis follows or [tools] is the end of a longer identifier makes
    no difference.  The first [tools.] of the text, when a word character
    follows it, gives the first name.  On a script that is not a text
    [extractUsedTools] throws. *)
Theorem extractUsedTools_names :
  forall script : value,
    let ends_word (post : string) : Prop :=
      match post with
      | EmptyString => True
      | String c _ => Assistant.is_word c = false
      end in
    let word (n : string) : Prop :=
      n <> "" /\ forallb Assistant.is_word (list_ascii_of_string n) = true in
    match script with
    | VStr s =>
        exists names,
          Assistant.extractUsedTools script = Ret names /\
          NoDup names /\
          (forall n, n ∈ names ->
             word n /\
             exists pre post, s = pre +:+ "tools." +:+ n +:+ post /\ ends_word post) /\
          (forall pre n post,
             s = pre +:+ "tools." +:+ n +:+ post ->
             (forall a b, pre <> a +:+ "tools." +:+ b) ->
             word n ->
             ends_word post ->
             exists rest, names = n :: rest)
    | _ => exists e, Assistant.extractUsedTools script = Throw e
    end.
Proof.
  intros script ends_word word. destruct script; try (eexists; reflexivity).
  eexists. split; [reflexivity|]. split; [apply TextFacts.dedup_NoDup|]. split.
  - intros n Hn. apply (proj1 (TextFacts.dedup_elem _ _)) in Hn. split.
    + pose proof (TextFacts.tool_matches_names s 0) as H.
      rewrite Forall_forall in H. now apply H.
    + now apply (TextFacts.tool_matches_found s 0).
  - intros pre n post -> Hpre [Hne Hw] Hpost.
    assert (Hin : Assistant.includes "tools." pre = false).
    { destruct (Assistant.includes "tools." pre) eqn:E; [|reflexivity].
      apply TextFacts.includes_split in E as (a & b & ->). now destruct (Hpre a b). }
    rewrite (TextFacts.tool_matches_skip pre (n +:+ post) Hin).
    change ("tools." +:+ n +:+ post) with (String "t" ("ools." +:+ (n +:+ post))).
    cbn [Assistant.tool_matches].
    change (Assistant.drop_string 6 (String "t" ("ools." +:+ (n +:+ post))))
      with (n +:+ post).
    rewrite (TextFacts.word_prefix_append n post Hw Hpost).
    assert (String.prefix "tools." (String "t" ("ools." +:+ (n +:+ post))) = true) as ->
      by (apply (TextFacts.prefix_append "tools." (n +:+ post))).
    assert (String.eqb n "" = false) as -> by (now apply String.eqb_neq).
    cbn [andb negb Assistant.dedup]. eexists. reflexivity.
Qed.

Lemma extractUsedTools_names_witness :
  exists rest,
    Assistant.extractUsedTools (VStr "await tools.bash(x); n = tools.length + mytools.y")
    = Ret ("bash" :: rest).
Proof.
  destruct (extractUsedTools_names (VStr "await tools.bash(x); n = tools.length + mytools.y"))
    as (names & E & _ & _ & Hfirst).
  destruct (Hfirst "await " "bash" "(x); n = tools.length + mytools.y" eq_refl) as (rest & Hn);
    [| | |exists rest; rewrite E, Hn; reflexivity].
  - intros a b H. apply (f_equal (Assistant.includes "tools.")) in H.
    rewrite (proj2 (TextFacts.includes_split "tools." (a +:+ "tools." +:+ b))) in H
      by (now exists a, b).
    vm_compute in H. discriminate.
  - split; [discriminate|reflexivity].
  - reflexivity.
Defined.

(** The call of a tool, the length of the tools and a property of another
    object all count; a name that ends in [tools] hides the one after it. *)
Example extractUsedTools_any_property :
  Assistant.extractUsedTools (VStr "await tools.bash(x); n = tools.length + mytools.y")
  = Ret ["bash"; "length"; "y"] /\
  Assistant.extractUsedTools (VStr "tools.tools.x()") = Ret ["tools"].
Proof. vm_compute. split; reflexivity. Qed.

(** X6.  [unescapeTemplateLiteral] returns a text that holds no backslash as it
    is. *)
Theorem unescapeTemplateLiteral_plain :
  forall s : string,
    Assistant.includes "\" s = false -> Assistant.unescapeTemplateLiteral s = s.
Proof.
  intros s H. unfold Assistant.unescapeTemplateLiteral.
  change ("\" +:+ Assistant.backtick) with (String "\" Assistant.backtick).
  rewrite (TextFacts.replace_all_absent "\" Assistant.backtick _ s H).
  apply (TextFacts.replace_all_absent "\" "${" _ s H).
Qed.

Lemma unescapeTemplateLiteral_plain_witness :
  Assistant.unescapeTemplateLiteral "return `${a}`;" = "return `${a}`;".
Proof. apply (unescapeTemplateLiteral_plain "return `${a}`;"). reflexivity. Defined.

(** X7.  The identity [callAgent] gives a task that is a text: without a colon
    the text is both the id and the name; with one colon the id is what
    precedes it and the name what follows; what follows a second colon is
    dropped. *)
Theorem task_identity_split :
  forall a b rest : string,
    Assistant.includes ":" a = false ->
    Assistant.includes ":" b = false ->
    Assistant.task_identity (VStr a) = Ret (a, a) /\
    Assistant.task_identity (VStr (a +:+ ":" +:+ b)) = Ret (a, b) /\
    Assistant.task_identity (VStr (a +:+ ":" +:+ b +:+ ":" +:+ rest)) = Ret (a, b).
Proof.
  intros a b rest Ha Hb.
  assert (Hone : forall x, Assistant.includes ":" x = false -> split_go ":" x "" = [x]).
  { intros x Hx. rewrite <- (append_empty x) at 1.
    now rewrite (TextFacts.split_go_plain ":" x "" "" Hx). }
  unfold Assistant.task_identity, Assistant.taskId_of, Assistant.taskName_of, str_split.
  repeat split.
  - now rewrite (Hone a Ha).
  - rewrite (TextFacts.split_go_plain ":" a _ "" Ha), TextFacts.split_go_sep.
    now rewrite (Hone b Hb).
  - rewrite (TextFacts.split_go_plain ":" a _ "" Ha), TextFacts.split_go_sep.
    rewrite (TextFacts.split_go_plain ":" b _ "" Hb), TextFacts.split_go_sep.
    reflexivity.
Qed.

Lemma task_identity_split_witness :
  Assistant.task_identity (VStr "fetch") = Ret ("fetch", "fetch") /\
  Assistant.task_identity (VStr ("fetch" +:+ ":" +:+ "Get the page"))
  = Ret ("fetch", "Get the page") /\
  Assistant.task_identity (VStr ("fetch" +:+ ":" +:+ "Get the page" +:+ ":" +:+ " at 10:30"))
  = Ret ("fetch", "Get the page").
Proof. apply (task_identity_split "fetch" "Get the page" " at 10:30"); reflexivity. Defined.

Module RankingFacts.
Import Assistant Ranking OrchestratorFacts.

Section Names.
Context {B : Type}.
Variable f : string -> B.

(** [for (n of names) dst[n] = f(n)] *)
Lemma fold_names (names : list string) : forall (dst : list (string * B)) k,
  obj_get k (fold_left (fun o n => obj_set n (f n) o) names dst)
  = if decide (k ∈ names) then Some (f k) else obj_get k dst.
Proof.
  induction names as [|n names IH]; intros dst k; simpl; [reflexivity|].
  rewrite IH. destruct (decide (k ∈ names)) as [Hin|Hin].
  - rewrite decide_True by (now right). reflexivity.
  - destruct (decide (k = n)) as [->|Hne].
    + rewrite decide_True by (now left). apply obj_get_set_eq.
    + rewrite decide_False by (rewrite elem_of_cons; tauto).
      apply obj_get_set_ne. congruence.
Qed.

End Names.

Section Facts.
Context {num : Type} {scores : Scores num} {W : Type}.
Variable host : Host (num := num) (W := W).
Variable JSON_parse : string -> Outcome value.
Implicit Types (st : State (W := W)).

Lemma scope_fold_registry (names : list string) (mk : string -> binding) :
  forall (c : Context),
    ctx_properties (fold_left (fun c n =>
                 {| ctx_tools := obj_set n (mk n) (ctx_tools c);
                    ctx_taskResults := ctx_taskResults c;
                    ctx_properties := obj_set n (mk n) (ctx_properties c) |}) names c)
    = fold_left (fun o n => obj_set n (mk n) o) names (ctx_properties c).
Proof. induction names as [|n names IH]; intros c; simpl; [reflexivity|]. now rewrite IH. Qed.

Lemma scope_fold_stored (stored : list (string * value)) :
  forall (c : Context),
    ctx_properties (fold_left (fun c kv =>
                 {| ctx_tools := ctx_tools c;
                    ctx_taskResults := obj_set (fst kv) (snd kv) (ctx_taskResults c);
                    ctx_properties := obj_set (fst kv) (Stored (snd kv)) (ctx_properties c) |}) stored c)
    = fold_left (fun o kv => obj_set (fst kv) (Stored (snd kv)) o) stored (ctx_properties c).
Proof. induction stored as [|kv stored IH]; intros c; simpl; [reflexivity|]. now rewrite IH. Qed.

Lemma better_or (a b : Memory (num := num) * num) : better a b = a \/ better a b = b.
Proof. unfold better. destruct (gt _ _); auto. Qed.

Lemma fold_better_elem (l : list (Memory (num := num) * num)) : forall first,
  fold_left better l first ∈ first :: l.
Proof.
  induction l as [|m l IH]; intros first; simpl; [now left|].
  specialize (IH (better first m)). apply elem_of_cons in IH as [->|IH].
  - destruct (better_or first m) as [->| ->]; [now left|right; now left].
  - right; now right.
Qed.

Lemma fold_better_best (l : list (Memory (num := num) * num)) :
  (forall a b, gt a b = true -> gt b a = false) ->
  (forall a b c, gt a b = false -> gt b c = false -> gt a c = false) ->
  forall first seen,
    Forall (fun m => gt (score m) (score first) = false) seen ->
    gt (score first) (score first) = false ->
    Forall (fun m => gt (score m) (score (fold_left better l first)) = false)
      (seen ++ first :: l).
Proof.
  intros Hasym Htrans. induction l as [|m l IH]; intros first seen Hseen Hrefl; simpl.
  - apply Forall_app. split; [exact Hseen|]. constructor; [exact Hrefl|constructor].
  - replace (seen ++ first :: m :: l) with ((seen ++ [first]) ++ m :: l)
      by (now rewrite <- app_assoc).
    unfold better at 2. fold (score m). fold (score first).
    destruct (gt (score m) (score first)) eqn:E.
    + assert (Hmm : gt (score m) (score m) = false).
      { destruct (gt (score m) (score m)) eqn:E'; [|reflexivity].
        now rewrite (Hasym _ _ E') in E'. }
      apply IH; [|exact Hmm].
      apply Forall_app. split.
      * eapply Forall_impl; [exact Hseen|]. intros x Hx. simpl in Hx.
        exact (Htrans _ _ _ Hx (Hasym _ _ E)).
      * constructor; [exact (Hasym _ _ E)|constructor].
    + replace ((seen ++ [first]) ++ m :: l) with (seen ++ first :: m :: l)
        by (now rewrite <- app_assoc).
      assert (H : Forall (fun x => gt (score x) (score (fold_left better l first)) = false)
                    ((seen ++ [m]) ++ first :: l)).
      { apply IH; [|exact Hrefl]. apply Forall_app. split; [exact Hseen|].
        constructor; [exact E|constructor]. }
      rewrite <- app_assoc in H. simpl in H.
      apply Forall_app in H as [H1 H2].
      apply Forall_cons in H2 as [Hm H2]. apply Forall_cons in H2 as [Hf H2].
      apply Forall_app. split; [exact H1|]. repeat constructor; assumption.
Qed.

(** The repair step returns, whatever the model and the parser do. *)
Lemma repaired_Ret script report st :
  exists script' st',
    repaired host JSON_parse script report st = (Ret script', st') /\
    repair_of script script' /\
    store st' = store st /\ emitted st' = emitted st /\ slept st' = slept st /\
    globalRetryCount st' = globalRetryCount st.
Proof.
  unfold repaired, try_catch.
  unfold bind at 1, ask at 1.
  destruct (repair_text host report (world st)) as [[text|e] w].
  2:{ eexists _, _. split; [reflexivity|]. split; [now left|]. repeat split. }
  unfold bind at 1, lift at 1.
  destruct (JSON_parse text) as [reply|e].
  2:{ eexists _, _. split; [reflexivity|]. split; [now left|]. repeat split. }
  unfold bind at 1, lift at 1.
  destruct (get_field "modifiedScript" reply) as [modifiedScript|e].
  2:{ eexists _, _. split; [reflexivity|]. split; [now left|]. repeat split. }
  unfold bind at 1, lift at 1.
  destruct (get_field "explanation" reply) as [explanation|e].
  2:{ eexists _, _. split; [reflexivity|]. split; [now left|]. repeat split. }
  unfold bind at 1, log at 1, modify at 1. cbv beta iota.
  destruct modifiedScript; simpl;
    eexists _, _; (split; [reflexivity|]); (split; [|repeat split]);
    first [now left | right; eexists; reflexivity].
Qed.

End Facts.
End RankingFacts.

Module ScriptFacts.
Import Assistant Ranking RankingFacts OrchestratorFacts.
Section Facts.
Context {num : Type} {scores : Scores num} {W : Type}.
Variable host : Host (num := num) (W := W).
Variable JSON_parse : string -> Outcome value.
Implicit Types (st : State (W := W)).



Lemma adjust_Ret (adj : num -> num -> num) (memories : list (Memory (num := num))) : forall st,
  (forall a b w, exists w', calculateRetrievalConfidence host a b w = (Ret (adj a b), w')) ->
  exists st',
    adjust host memories st
    = (Ret (map (fun m => (m, adj (confidence m) (similarity m))) memories), st') /\
    store st' = store st /\ emitted st' = emitted st /\ logged st' = logged st.
Proof.
  intros st H. revert st. induction memories as [|m l IH]; intros st; simpl.
  - eexists. split; [reflexivity|]. repeat split.
  - unfold bind at 1, ask at 1.
    destruct (H (confidence m) (similarity m) (world st)) as (w' & E). rewrite E.
    match goal with |- context [bind (adjust host l) ?k ?x] =>
      destruct (IH x) as (st' & E' & S' & M' & L'); rewrite (bind_Ret _ k x _ _ E') end.
    eexists. split; [reflexivity|]. simpl. rewrite S', M', L'. repeat split.
Qed.

End Facts.
End ScriptFacts.

Section OrchestratorMore.
Import Assistant Ranking RankingFacts OrchestratorFacts ScriptFacts.
Context {num : Type} {scores : Scores num} {W : Type}.
Variable host : Host (num := num) (W := W).
Variable JSON_parse : string -> Outcome value.
Implicit Types (st : State (W := W)).

(** X8.  [selectBestMemory] throws on an empty list; on any other it returns a
    member of the list whose product of confidence and similarity no member
    exceeds, as long as [>] on the numbers is asymmetric and its negation
    transitive. *)
Theorem selectBestMemory_best (memories : list (Memory (num := num) * num)) :
  (forall a b, gt a b = true -> gt b a = false) ->
  (forall a b c, gt a b = false -> gt b c = false -> gt a c = false) ->
  match memories with
  | [] => exists e, selectBestMemory memories = Throw e
  | _ :: _ =>
      exists best,
        selectBestMemory memories = Ret best /\ best ∈ memories /\
        Forall (fun m => gt (score m) (score best) = false) memories
  end.
Proof.
  intros Hasym Htrans. destruct memories as [|first rest]; [eexists; reflexivity|].
  eexists. split; [reflexivity|]. split; [apply fold_better_elem|].
  apply (fold_better_best rest Hasym Htrans first []); [constructor|].
  destruct (gt (score first) (score first)) eqn:E; [|reflexivity].
  now rewrite (Hasym _ _ E) in E.
Qed.

(** X9.  The repair of a failed script in [callScript] never throws, whatever
    the model and the parser do: it returns the script it was given or a text
    the model sent, unescaped, and leaves the store, the emitted events and
    the waits as they were. *)
Theorem repaired_never_throws script report st :
  exists script' st',
    repaired host JSON_parse script report st = (Ret script', st') /\
    repair_of script script' /\
    store st' = store st /\ emitted st' = emitted st /\ slept st' = slept st.
Proof.
  destruct (repaired_Ret host JSON_parse script report st)
    as (script' & st' & E & H & S & M & P & _).
  exists script', st'. tauto.
Qed.


(** X11.  When the best of the similar memories has a retrieval confidence above
    the threshold, [callAgent] returns its response adapted to the request and
    plans nothing: the store, the emitted events and the log are as they
    were. *)
Theorem callAgent_reuses_memory request model resultVar st memory memories adj best answer :
  (forall w, exists x w', predictLikelyTools host request w = (Ret x, w')) ->
  (forall w, exists w',
     findSimilarMemories host request SIMILARITY_THRESHOLD w = (Ret (memory :: memories), w')) ->
  (forall a b w, exists w', calculateRetrievalConfidence host a b w = (Ret (adj a b), w')) ->
  selectBestMemory (map (fun m => (m, adj (confidence m) (similarity m))) (memory :: memories))
  = Ret best ->
  gt (snd best) CONFIDENCE_THRESHOLD = true ->
  (forall w, exists w', adapted_text host (fst best) request model w = (Ret answer, w')) ->
  (forall a b w, exists x w', updateConfidence host a b w = (Ret x, w')) ->
  (forall a b c w, exists w', updateMemory host a b c w = (Ret tt, w')) ->
  exists st',
    callAgent host JSON_parse request model resultVar st = (Ret (Success answer), st') /\
    store st' = store st /\ emitted st' = emitted st /\ logged st' = logged st.
Proof.
  intros Hp Hm Hc Hb Hgt Ha Hu Hup.
  unfold callAgent, try_catch. unfold bind at 1. unfold callAgent_try.
  destruct (ask_Ret _ st Hp) as (tools & w1 & E1). rewrite (bind_Ret _ _ _ _ _ E1).
  unfold bind at 1, ask at 1. simpl world.
  destruct (Hm w1) as (w2 & E2). rewrite E2. cbv beta iota zeta.
  unfold bind at 1.
  match goal with |- context [bind (adjust host ?l) ?k ?x] =>
    destruct (adjust_Ret host adj l x Hc) as (s3 & E3 & S3 & M3 & L3);
    rewrite (bind_Ret _ k x _ _ E3) end.
  unfold bind at 1, lift at 1. rewrite Hb. cbv beta iota. rewrite Hgt.
  unfold bind at 1, ask at 1.
  destruct (Ha (world s3)) as (w4 & E4). rewrite E4.
  unfold bind at 1, updateMemoryConfidence at 1, bind at 1, ask at 1. cbn [world set_world].
  match goal with |- context [updateConfidence host ?a ?b ?w] =>
    destruct (Hu a b w) as (c & w5 & E5); rewrite E5 end.
  unfold ask at 1. cbn [world set_world].
  match goal with |- context [updateMemory host ?a ?b ?c ?w] =>
    destruct (Hup a b c w) as (w6 & E6); rewrite E6 end.
  unfold ret. cbv beta iota.
  eexists. split; [reflexivity|]. simpl. 
  rewrite S3, M3, L3. repeat split.
Qed.

End OrchestratorMore.

Section OrchestratorMore2.
Import Assistant Ranking RankingFacts OrchestratorFacts ScriptFacts.
Context {num : Type} {scores : Scores num} {W : Type}.
Variable host : Host (num := num) (W := W).
Variable JSON_parse : string -> Outcome value.
Implicit Types (st : State (W := W)).

(** X12.  When no memory is similar and the text the model returns holds no JSON
    value, [callAgent] returns a failure with the message [The task must be an
    array of subtasks. ...]; the store and the emitted events are as they
    were, and one error is logged. *)
Theorem callAgent_without_plan request model resultVar st text :
  (forall w, exists x w', predictLikelyTools host request w = (Ret x, w')) ->
  (forall w, exists w', findSimilarMemories host request SIMILARITY_THRESHOLD w = (Ret [], w')) ->
  (forall names w, exists x w', getCompactRepresentation host names w = (Ret x, w')) ->
  (forall a b c d w, exists w', decomposition_text host a b c d w = (Ret (VStr text), w')) ->
  Extractor.extractJson JSON_parse (clean text) = Ret [] ->
  exists st',
    callAgent host JSON_parse request model resultVar st
    = (Ret (Failed (Error "The task must be an array of subtasks. Check the format and try again. RETURN ONLY JSON RESPONSES")),
       st') /\
    store st' = store st /\ emitted st' = emitted st /\
    logged st' = logged st ++ [("error", "")].
Proof.
  intros Hp Hm Hc Hd He.
  unfold callAgent, try_catch. unfold bind at 1. unfold callAgent_try.
  destruct (ask_Ret _ st Hp) as (tools & w1 & E1). rewrite (bind_Ret _ _ _ _ _ E1).
  unfold bind at 1, ask at 1. simpl world.
  destruct (Hm w1) as (w2 & E2). rewrite E2. cbv beta iota zeta.
  unfold bind at 1, ret at 1. cbv beta iota.
  match goal with |- context [bind (ask (getCompactRepresentation host ?n)) ?k ?s] =>
    destruct (ask_Ret (getCompactRepresentation host n) s (Hc n)) as (repr & w3 & E3);
    rewrite (bind_Ret _ k s _ _ E3) end.
  unfold bind at 1, ask at 1. simpl world.
  match goal with |- context [decomposition_text host ?a ?b ?c ?d ?w] =>
    destruct (Hd a b c d w) as (w4 & E4); rewrite E4 end.
  unfold bind at 1, ret at 1. cbv beta iota.
  unfold bind at 1, try_catch at 1, bind at 1, lift at 1. rewrite He. unfold ret at 1.
  cbv beta iota. simpl fst. simpl snd.
  cbv beta iota zeta delta [fst snd].
  unfold bind, log, modify, throw. cbv beta iota.
  eexists. split; [reflexivity|]. repeat split.
Qed.

(** X13.  The own properties of the object [prepareContext] returns, when the
    keys of the store are distinct: under a name that is a key of the store
    it has the stored value; else the tool exported by [./tools] under that
    name; else the tool of the registry; else one of the eight properties
    the object starts with; else it has no own property of that name.  This
    is the object, not the scope of a script: a script finds the other names
    where [with] and the function around it find them. *)
Theorem prepareContext_properties registry imported stored k :
  NoDup (obj_keys stored) ->
  obj_get k (ctx_properties (build_context registry imported stored))
  = resolve registry imported stored k.
Proof.
  intros Hnd. unfold build_context, resolve.
  rewrite scope_fold_stored.
  rewrite (fold_obj_set (fun _ v => Stored v) stored _ k Hnd).
  destruct (obj_get k stored); [reflexivity|].
  rewrite (scope_fold_registry imported ImportedTool).
  rewrite (fold_names ImportedTool).
  destruct (decide (k ∈ imported)); [reflexivity|].
  rewrite (scope_fold_registry registry RegistryTool).
  rewrite (fold_names RegistryTool).
  destruct (decide (k ∈ registry)); reflexivity.
Qed.

End OrchestratorMore2.

Lemma Q_gt_asym (a b : Q) : Assistant.gt a b = true -> Assistant.gt b a = false.
Proof.
  simpl. intros H. apply negb_true_iff in H. apply negb_false_iff, Qle_bool_iff.
  destruct (Qlt_le_dec b a) as [Hlt|Hle]; [now apply Qlt_le_weak|].
  apply Qle_bool_iff in Hle. congruence.
Qed.

Lemma Q_gt_trans (a b c : Q) :
  Assistant.gt a b = false -> Assistant.gt b c = false -> Assistant.gt a c = false.
Proof.
  simpl. intros H1 H2. apply negb_false_iff in H1, H2. apply negb_false_iff.
  apply Qle_bool_iff in H1, H2. apply Qle_bool_iff. eapply Qle_trans; eauto.
Qed.

Lemma selectBestMemory_best_witness :
  exists best,
    Assistant.selectBestMemory [(MemoryExample.vague, (4 # 10)%Q);
                                (MemoryExample.remembered, (8 # 10)%Q)] = Ret best /\
    fst best = MemoryExample.remembered.
Proof.
  destruct (selectBestMemory_best [(MemoryExample.vague, (4 # 10)%Q);
                                   (MemoryExample.remembered, (8 # 10)%Q)]
              Q_gt_asym Q_gt_trans) as (best & E & _).
  exists best. split; [exact E|]. injection E as <-. reflexivity.
Defined.


(** A script that throws a value without a stack, such as a text: the
    second attempt never begins, [extractErrorLine] throws on the missing
    stack, and that [TypeError] is what [callScript] throws. *)
Example callScript_without_stack :
  fst (Assistant.callScript
         (AssistantExample.make_host (Ret VUndef)
            (fun _ _ => Throw {| message := None; stack := None; shown := "oops" |}) (Ret tt))
         Json.parse (VStr "throw 'oops'") 3 AssistantExample.fresh)
  = Throw (TypeError "Cannot read properties of undefined (reading 'match')").
Proof. vm_compute. reflexivity. Qed.

Lemma callAgent_reuses_memory_witness :
  exists st',
    Assistant.callAgent MemoryExample.host Json.parse "list all the files" "claude" None
      AssistantExample.fresh
    = (Ret (Assistant.Success (VStr "ls -a")), st') /\
    Assistant.store st' = [] /\ Assistant.emitted st' = [].
Proof.
  destruct (callAgent_reuses_memory MemoryExample.host Json.parse "list all the files" "claude"
              None AssistantExample.fresh MemoryExample.vague [MemoryExample.remembered]
              MemoryExample.retrieval
              (MemoryExample.remembered,
               MemoryExample.retrieval (9 # 10)%Q (95 # 100)%Q)
              (VStr "ls -a")
              ltac:(intros; eexists _, _; reflexivity) ltac:(intros; eexists; reflexivity)
              ltac:(intros; eexists; reflexivity) eq_refl eq_refl
              ltac:(intros; eexists; reflexivity) ltac:(intros; eexists _, _; reflexivity)
              ltac:(intros; eexists; reflexivity))
    as (st' & E & S & M & _).
  exists st'. split; [exact E|]. split; assumption.
Defined.

Lemma callAgent_without_plan_witness :
  exists st',
    Assistant.callAgent
      (AssistantExample.make_host (Ret (VStr "I cannot help with that."))
         (AssistantExample.scripts "r") (Ret tt))
      Json.parse "do it" "claude" None AssistantExample.fresh
    = (Ret (Assistant.Failed
              (Error "The task must be an array of subtasks. Check the format and try again. RETURN ONLY JSON RESPONSES")),
       st') /\
    Assistant.store st' = [].
Proof.
  destruct (callAgent_without_plan
              (AssistantExample.make_host (Ret (VStr "I cannot help with that."))
                 (AssistantExample.scripts "r") (Ret tt))
              Json.parse "do it" "claude" None AssistantExample.fresh "I cannot help with that."
              ltac:(intros; eexists _, _; reflexivity) ltac:(intros; eexists; reflexivity)
              ltac:(intros; eexists _, _; reflexivity) ltac:(intros; eexists; reflexivity)
              ltac:(vm_compute; reflexivity))
    as (st' & E & S & _).
  exists st'. split; [exact E|exact S].
Defined.

Lemma prepareContext_properties_witness :
  obj_get "bash"
    (Assistant.ctx_properties
       (Assistant.build_context ["bash"; "files"] ["bash"]
          [("a_result", VNum 1 0); ("files", VStr "shadow")]))
  = Some (Assistant.ImportedTool "bash") /\
  obj_get "files"
    (Assistant.ctx_properties
       (Assistant.build_context ["bash"; "files"] ["bash"]
          [("a_result", VNum 1 0); ("files", VStr "shadow")]))
  = Some (Assistant.Stored (VStr "shadow")).
Proof.
  split.
  - rewrite (prepareContext_properties ["bash"; "files"] ["bash"]
               [("a_result", VNum 1 0); ("files", VStr "shadow")] "bash"
               ltac:(apply (bool_decide_unpack _); vm_compute; exact I)).
    vm_compute. reflexivity.
  - rewrite (prepareContext_properties ["bash"; "files"] ["bash"]
               [("a_result", VNum 1 0); ("files", VStr "shadow")] "files"
               ltac:(apply (bool_decide_unpack _); vm_compute; exact I)).
    reflexivity.
Defined.

Module RegistryOpsFacts.
Import Registry RegistryOps RegistryFacts.

Section Facts.
Context {num : Type} {arith : Arith num} {W : Type}.
Variable host : Host (num := num) (W := W).
Variable services : Services (W := W).
Implicit Types (st : State (num := num) (W := W)) (t : Tool (num := num)).

Lemma inherited_answered n st : inherited n = false -> answered_by_prototype n st = false.
Proof. intros H. unfold answered_by_prototype. now destruct (table st !! n). Qed.

(** [ToolRegistry.updateMetrics] returns; it rewrites one entry of the table
    and leaves the tools alone, when the name is not one the prototype of
    the table answers for. *)
Lemma updateMetrics_run n u st :
  answered_by_prototype n st = false ->
  exists st',
    updateMetrics host n u st = (Ret tt, st') /\
    tools st' = tools st /\
    table st'
    = <[n := fst (update_switch host u (default fresh_metrics (table st !! n)) (world st))]>
        (table st).
Proof.
  intros Ha. unfold updateMetrics, updateMetrics_body. rewrite Ha.
  unfold saveMetrics, bind, modify.
  destruct (update_switch host u _ (world st)) as [m w]. simpl.
  eexists. split; [reflexivity|]. split; reflexivity.
Qed.

(** When it is, the table stays as it is. *)
Lemma updateMetrics_answered n u st :
  answered_by_prototype n st = true ->
  exists st',
    updateMetrics host n u st = (Ret tt, st') /\ tools st' = tools st /\ table st' = table st.
Proof.
  intros Ha. unfold updateMetrics, updateMetrics_body. rewrite Ha.
  eexists. split; [reflexivity|]. destruct u; split; reflexivity.
Qed.

Lemma versions_switch u (m : Metrics (num := num)) (w : W) :
  versions (fst (update_switch host u m w))
  = versions m ++ match u with UVersion v => [v] | _ => [] end /\
  totalUpdates (fst (update_switch host u m w))
  = (totalUpdates m + match u with UVersion _ => 1 | _ => 0 end)%Z.
Proof.
  destruct u; simpl; break_pairs; simpl; rewrite ?app_nil_r, ?Z.add_0_r; split; reflexivity.
Qed.

Lemma recorded_switch v (m : Metrics (num := num)) (w : W) :
  recorded v m (fst (update_switch host (UVersion v) m w)).
Proof. simpl. break_pairs. simpl. repeat split. Qed.

(** [Tool.updateMetrics] also records the tool's version in the table. *)
Lemma Tool_updateMetrics_table st i t u :
  tools st !! i = Some t ->
  answered_by_prototype (name t) st = false ->
  exists st' m',
    Tool_updateMetrics host i u st = (Ret tt, st') /\
    tools st' = <[i := set_metrics (fst (update_switch host u (metrics t) (world st))) t]> (tools st) /\
    table st' = <[name t := m']> (table st) /\
    recorded (version t) (default fresh_metrics (table st !! name t)) m'.
Proof.
  intros Hi Hn. unfold Tool_updateMetrics, bind at 1, this at 1. rewrite Hi.
  unfold bind at 1, modify at 1.
  destruct (update_switch host u (metrics t) (world st)) as [m w] eqn:E.
  unfold Tool_saveMetrics, bind at 1, this at 1. cbn [tools].
  rewrite list_lookup_insert_eq by (eapply lookup_lt_Some; eauto).
  cbn [name version set_metrics].
  match goal with |- context [updateMetrics host ?n ?u ?s] =>
    destruct (updateMetrics_run n u s Hn) as (st' & E' & T' & B') end.
  rewrite E'. exists st'. eexists. split; [reflexivity|].
  split; [rewrite T'; reflexivity|]. split; [rewrite B'; reflexivity|].
  apply recorded_switch.
Qed.

(** When the prototype of the table answers for the name of the tool, the
    table stays as it is. *)
Lemma Tool_updateMetrics_answered st i t u :
  tools st !! i = Some t ->
  answered_by_prototype (name t) st = true ->
  exists st',
    Tool_updateMetrics host i u st = (Ret tt, st') /\
    tools st' = <[i := set_metrics (fst (update_switch host u (metrics t) (world st))) t]> (tools st) /\
    table st' = table st.
Proof.
  intros Hi Hn. unfold Tool_updateMetrics, bind at 1, this at 1. rewrite Hi.
  unfold bind at 1, modify at 1.
  destruct (update_switch host u (metrics t) (world st)) as [m w] eqn:E.
  unfold Tool_saveMetrics, bind at 1, this at 1. cbn [tools].
  rewrite list_lookup_insert_eq by (eapply lookup_lt_Some; eauto).
  cbn [name version set_metrics].
  match goal with |- context [updateMetrics host ?n ?u ?s] =>
    destruct (updateMetrics_answered n u s Hn) as (st' & E' & T' & B') end.
  rewrite E'. exists st'. split; [reflexivity|].
  split; [rewrite T'; reflexivity|]. rewrite B'. reflexivity.
Qed.

Lemma Tool_call_answered st i t params :
  tools st !! i = Some t ->
  answered_by_prototype (name t) st = true ->
  exists o st',
    Tool_call host i params st = (o, st') /\ table st' = table st /\
    map name (tools st') = map name (tools st).
Proof.
  intros Hi Hname.
  assert (Hlen : (i < length (tools st))%nat) by (eapply lookup_lt_Some; eauto).
  destruct (Tool_updateMetrics_answered st i t UUsage Hi Hname) as (st1 & E1 & T1 & B1).
  set (t1 := set_metrics (fst (update_switch host UUsage (metrics t) (world st))) t) in *.
  assert (H1 : tools st1 !! i = Some t1).
  { rewrite T1. now apply list_lookup_insert_eq. }
  assert (N1 : map name (tools st1) = map name (tools st)).
  { rewrite T1, list_fmap_insert. apply list_insert_id.
    rewrite list_lookup_fmap, Hi. reflexivity. }
  assert (Hfinal : forall u s,
            tools s = tools st1 -> table s = table st1 ->
            exists s',
              Tool_updateMetrics host i u s = (Ret tt, s') /\
              table s' = table st /\
              map name (tools s') = map name (tools st) /\
              tools s' !! i = Some (set_metrics (fst (update_switch host u (metrics t1) (world s))) t1)).
  { intros u s Ts Bs.
    assert (Hs : tools s !! i = Some t1) by (now rewrite Ts).
    destruct (Tool_updateMetrics_answered s i t1 u Hs) as (s' & E2 & T2 & B2).
    { unfold answered_by_prototype in Hname |- *. rewrite Bs, B1. exact Hname. }
    exists s'. split; [exact E2|]. split; [now rewrite B2, Bs, B1|]. split.
    { rewrite T2, list_fmap_insert, Ts, <- N1. apply list_insert_id.
      rewrite list_lookup_fmap, H1. reflexivity. }
    rewrite T2. apply list_lookup_insert_eq. rewrite Ts. eapply lookup_lt_Some; eauto. }
  unfold Tool_call, try_catch, bind at 1. rewrite E1.
  unfold bind at 1. destruct (now_run host st1) as (z1 & w1 & ->).
  unfold bind at 1, this at 1. simpl tools. rewrite H1.
  unfold bind at 1. unfold ask at 1. simpl world.
  destruct (execute host _ params w1) as [[result|e] w2] eqn:Ex.
  - unfold bind at 1.
    match goal with |- context [now host ?s] => destruct (now_run host s) as (z2 & w3 & ->) end.
    unfold bind at 1.
    match goal with |- context [Tool_updateMetrics host i ?u ?s] =>
      destruct (Hfinal u s eq_refl eq_refl) as (s' & E2 & B2 & N2 & _) end.
    rewrite E2. simpl. eexists _, _. split; [reflexivity|]. split; [exact B2|exact N2].
  - cbv beta iota zeta. unfold bind at 1.
    match goal with |- context [Tool_updateMetrics host i ?u ?s] =>
      destruct (Hfinal u s eq_refl eq_refl) as (s' & E2 & B2 & N2 & H2) end.
    rewrite E2.
    unfold bind at 1, this at 1. rewrite H2.
    unfold bind at 1, ask, throw. simpl.
    destruct (emit host _ _ _) as [[[]|e'] w4]; simpl;
      eexists _, _; (split; [reflexivity|]); (split; [exact B2|exact N2]).
Qed.

Lemma Tool_call_table st i t params :
  tools st !! i = Some t ->
  answered_by_prototype (name t) st = false ->
  exists o st' m1 m2,
    Tool_call host i params st = (o, st') /\
    recorded (version t) (entry (name t) st) m1 /\
    recorded (version t) m1 m2 /\
    table st' = <[name t := m2]> (table st) /\
    map name (tools st') = map name (tools st).
Proof.
  intros Hi Hname.
  assert (Hlen : (i < length (tools st))%nat) by (eapply lookup_lt_Some; eauto).
  destruct (Tool_updateMetrics_table st i t UUsage Hi Hname) as (st1 & m1 & E1 & T1 & B1 & R1).
  set (t1 := set_metrics (fst (update_switch host UUsage (metrics t) (world st))) t) in *.
  assert (H1 : tools st1 !! i = Some t1).
  { rewrite T1. now apply list_lookup_insert_eq. }
  assert (N1 : map name (tools st1) = map name (tools st)).
  { rewrite T1, list_fmap_insert. apply list_insert_id.
    rewrite list_lookup_fmap, Hi. reflexivity. }
  assert (Hfinal : forall u s,
            tools s = tools st1 -> table s = table st1 ->
            exists s' m2,
              Tool_updateMetrics host i u s = (Ret tt, s') /\
              recorded (version t) m1 m2 /\
              table s' = <[name t := m2]> (table st) /\
              map name (tools s') = map name (tools st) /\
              tools s' !! i = Some (set_metrics (fst (update_switch host u (metrics t1) (world s))) t1)).
  { intros u s Ts Bs.
    assert (Hs : tools s !! i = Some t1) by (now rewrite Ts).
    destruct (Tool_updateMetrics_table s i t1 u Hs) as (s' & m2 & E2 & T2 & B2 & R2).
    { unfold answered_by_prototype. rewrite Bs, B1. cbn [name t1 set_metrics].
      now rewrite lookup_insert_eq. }
    exists s', m2. split; [exact E2|]. split.
    { unfold entry in R2. rewrite Bs, B1 in R2. cbn [name t1 set_metrics] in R2.
      rewrite lookup_insert_eq in R2. exact R2. }
    split.
    { rewrite B2, Bs, B1. cbn [name t1 set_metrics]. apply insert_insert_eq. }
    split.
    { rewrite T2, list_fmap_insert, Ts, <- N1. apply list_insert_id.
      rewrite list_lookup_fmap, H1. reflexivity. }
    rewrite T2. apply list_lookup_insert_eq. rewrite Ts. eapply lookup_lt_Some; eauto. }
  unfold Tool_call, try_catch, bind at 1. rewrite E1.
  unfold bind at 1. destruct (now_run host st1) as (z1 & w1 & ->).
  unfold bind at 1, this at 1. simpl tools. rewrite H1.
  unfold bind at 1. unfold ask at 1. simpl world.
  destruct (execute host _ params w1) as [[result|e] w2] eqn:Ex.
  - unfold bind at 1.
    match goal with |- context [now host ?s] => destruct (now_run host s) as (z2 & w3 & ->) end.
    unfold bind at 1.
    match goal with |- context [Tool_updateMetrics host i ?u ?s] =>
      destruct (Hfinal u s eq_refl eq_refl) as (s' & m2 & E2 & R2 & B2 & N2 & _) end.
    rewrite E2. simpl.
    eexists _, _, m1, m2. split; [reflexivity|].
    split; [exact R1|]. split; [exact R2|]. split; [exact B2|exact N2].
  - cbv beta iota zeta. unfold bind at 1.
    match goal with |- context [Tool_updateMetrics host i ?u ?s] =>
      destruct (Hfinal u s eq_refl eq_refl) as (s' & m2 & E2 & R2 & B2 & N2 & H2) end.
    rewrite E2.
    unfold bind at 1, this at 1. rewrite H2.
    unfold bind at 1, ask, throw. simpl.
    destruct (emit host _ _ _) as [[[]|e'] w4]; simpl;
      eexists _, _, m1, m2; (split; [reflexivity|]);
      (split; [exact R1|]); (split; [exact R2|]); (split; [exact B2|exact N2]).
Qed.

Lemma findIndex_names n (l l' : list (Tool (num := num))) :
  map name l = map name l' -> findIndex n l = findIndex n l'.
Proof.
  revert l'. induction l as [|t l IH]; intros [|t' l'] H; try discriminate; [reflexivity|].
  simpl in H. injection H as Hn Hl. simpl. rewrite Hn, (IH l' Hl). reflexivity.
Qed.

Lemma names_insert (l : list (Tool (num := num))) i t t' :
  l !! i = Some t -> name t' = name t -> map name (<[i := t']> l) = map name l.
Proof.
  intros Hi Hn. rewrite list_fmap_insert. apply list_insert_id.
  rewrite list_lookup_fmap, Hi. simpl. now rewrite Hn.
Qed.

(** [Tool.saveTool] of the first tool of its name changes nothing but the
    world. *)
Lemma Tool_saveTool_run st i t :
  findIndex (name t) (tools st) = Some i ->
  tools st !! i = Some t ->
  exists st',
    Tool_saveTool host i st = (Ret tt, st') /\ tools st' = tools st /\ table st' = table st.
Proof.
  intros Hf Hi. unfold Tool_saveTool.
  match goal with |- context [snd (?m st)] =>
    assert (H : exists o s', m st = (o, s') /\ tools s' = tools st /\ table s' = table st) end.
  { unfold try_catch, bind at 1, this at 1. rewrite Hi.
    unfold bind at 1, gets at 1. rewrite Hf.
    unfold bind at 1, modify at 1. unfold bind at 1, saveRegistry at 1, modify at 1.
    unfold ask. cbn [world tools set_tools set_world].
    destruct (emit host "info" _ _) as [[[]|e] w].
    - eexists _, _. split; [reflexivity|]. cbn [tools table set_tools set_world].
      rewrite (list_insert_id _ _ _ Hi). split; reflexivity.
    - cbn [world tools set_tools set_world].
      destruct (emit host "error" _ _) as [[[]|e'] w'];
        (eexists _, _; split; [reflexivity|]; cbn [tools table set_tools set_world];
         rewrite (list_insert_id _ _ _ Hi); split; reflexivity). }
  destruct H as (o & s' & E & T & B). rewrite E. exists s'. cbn [snd]. auto.
Qed.

(** [Tool.generateTestHarness] of such a tool, when it is an instance of
    [Tool], the model returns a harness and no listener of [info] throws. *)
Lemma Tool_generateTestHarness_run st i t :
  (forall s sc w, exists text w', harness_of host s sc w = (Ret text, w')) ->
  (forall m w, exists w', emit host "info" m w = (Ret tt, w')) ->
  findIndex (name t) (tools st) = Some i ->
  tools st !! i = Some t ->
  instance t = true ->
  exists st' t',
    Tool_generateTestHarness host i st = (Ret tt, st') /\
    tools st' = <[i := t']> (tools st) /\ table st' = table st /\
    name t' = name t /\ version t' = version t /\ source t' = source t /\
    instance t' = true.
Proof.
  intros Hh He Hf Hi Hinst. unfold Tool_generateTestHarness, bind at 1, this at 1.
  rewrite Hi, Hinst. unfold try_catch, bind at 1, ask at 1.
  destruct (Hh (source t) (schema t) (world st)) as (text & w1 & ->).
  - unfold bind at 1, modify at 1.
    set (t' := set_testHarness text t).
    match goal with |- context [bind (Tool_saveTool host i) ?k ?s] =>
      destruct (Tool_saveTool_run s i t') as (s2 & E2 & T2 & B2) end.
    { cbn [tools set_tools set_world name t' set_testHarness].
      rewrite <- Hf. apply findIndex_names. now apply (names_insert _ _ t). }
    { cbn [tools set_tools set_world]. apply list_lookup_insert_eq.
      eapply lookup_lt_Some; eauto. }
    unfold bind at 1. rewrite E2. unfold ask.
    destruct (He ("Test harness generated for tool " +:+ name t) (world s2)) as (w3 & E3).
    rewrite E3. exists (set_world (fun _ => w3) s2), t'.
    split; [reflexivity|]. cbn [tools table set_world]. rewrite T2, B2.
    repeat split; try reflexivity. exact Hinst.
Qed.

(** [updateTool] with a source and no schema, on an instance of [Tool]: the
    new version goes into the history twice. *)
Lemma updateTool_with_source n c src newTags st i t :
  (forall s sc w, exists text w', harness_of host s sc w = (Ret text, w')) ->
  (forall m w, exists w', emit host "info" m w = (Ret tt, w')) ->
  answered_by_prototype n st = false ->
  findIndex n (tools st) = Some i ->
  tools st !! i = Some t ->
  instance t = true ->
  exists st' m1 m2 t',
    updateTool host n (Some (String c src)) None newTags st = (Ret true, st') /\
    recorded (incrementVersion (version t)) (entry n st) m1 /\
    recorded (incrementVersion (version t)) m1 m2 /\
    table st' = <[n := m2]> (table st) /\
    tools st' = <[i := t']> (tools st) /\
    name t' = n /\ version t' = incrementVersion (version t) /\ source t' = String c src.
Proof.
  intros Hh He Hproto Hf Hi Hinst.
  destruct (findIndex_Some _ _ _ Hf) as (t0 & Ht0 & Hn).
  assert (t0 = t) as -> by congruence.
  assert (Hlen : (i < length (tools st))%nat) by (eapply lookup_lt_Some; eauto).
  unfold updateTool, try_catch, bind at 1, gets. rewrite Hf.
  unfold bind at 1, this at 1. rewrite Hi.
  unfold bind at 1, modify at 1.
  set (v := incrementVersion (version t)).
  set (t1 := bump v newTags t).
  unfold updateTool_rest.
  unfold bind at 1, saveRegistry at 1, modify at 1.
  unfold bind at 1, this at 1. cbn [tools set_tools set_world].
  rewrite list_lookup_insert_eq by assumption.
  cbn [truthy orb].
  unfold bind at 1. unfold bind at 1, modify at 1. unfold bind at 1, ret at 1.
  set (t2 := set_source_schema (Some (String c src)) None t1).
  match goal with |- context [bind (Tool_generateTestHarness host i) _ ?s] => set (s2 := s) end.
  assert (T2 : tools s2 = <[i := t2]> (tools st)).
  { subst s2. cbn [tools set_tools set_world]. apply list_insert_insert_eq. }
  assert (B2 : table s2 = table st) by reflexivity.
  destruct (Tool_generateTestHarness_run s2 i t2 Hh He)
    as (s3 & t3 & E3 & T3 & B3 & N3 & V3 & S3 & I3).
  { rewrite T2. cbn [name t2 t1 set_source_schema bump].
    rewrite Hn, <- Hf. apply findIndex_names. apply (names_insert _ _ t); [exact Hi|reflexivity]. }
  { rewrite T2. now apply list_lookup_insert_eq. }
  { exact Hinst. }
  unfold bind at 1. rewrite E3.
  destruct (updateMetrics_run n (UVersion v) s3) as (s4 & E4 & T4 & B4).
  { unfold answered_by_prototype in Hproto |- *. now rewrite B3, B2. }
  rewrite E4.
  unfold bind at 1, saveToolToRepo at 1, modify at 1.
  unfold bind at 1.
  match goal with |- context [updateMetrics host n (UVersion v) ?s] =>
    destruct (updateMetrics_run n (UVersion v) s) as (s5 & E5 & T5 & B5) end.
  { unfold answered_by_prototype. cbn [table set_world]. rewrite B4.
    now rewrite lookup_insert_eq. }
  rewrite E5. unfold ret.
  eexists s5, _, _, t3. split; [reflexivity|].
  split; [apply (recorded_switch v (entry n st) (world s3))|].
  split; [apply (recorded_switch v _ (world (set_world (writeToolFile host n (Some (String c src))) s4)))|].
  split.
  { rewrite B5. cbn [table set_world]. rewrite B4, B3, B2.
    rewrite lookup_insert_eq. cbn [default]. unfold entry. apply insert_insert_eq. }
  split.
  { rewrite T5. cbn [tools set_world]. rewrite T4, T3, T2.
    apply list_insert_insert_eq. }
  rewrite N3, V3, S3. cbn. repeat split. exact Hn.
Qed.

(** The same on a tool that was read back from the registry file. *)
Lemma updateTool_plain_object n c src newTags st i t :
  findIndex n (tools st) = Some i ->
  tools st !! i = Some t ->
  instance t = false ->
  exists st' t',
    updateTool host n (Some (String c src)) None newTags st = (Ret false, st') /\
    table st' = table st /\
    tools st' = <[i := t']> (tools st) /\
    name t' = n /\ version t' = incrementVersion (version t) /\ source t' = String c src.
Proof.
  intros Hf Hi Hinst.
  destruct (findIndex_Some _ _ _ Hf) as (t0 & Ht0 & Hn).
  assert (t0 = t) as -> by congruence.
  assert (Hlen : (i < length (tools st))%nat) by (eapply lookup_lt_Some; eauto).
  unfold updateTool, try_catch, bind at 1, gets. rewrite Hf.
  unfold bind at 1, this at 1. rewrite Hi.
  unfold bind at 1, modify at 1.
  unfold updateTool_rest.
  unfold bind at 1, saveRegistry at 1, modify at 1.
  unfold bind at 1, this at 1. cbn [tools set_tools set_world].
  rewrite list_lookup_insert_eq by assumption.
  cbn [truthy orb].
  unfold bind at 1. unfold bind at 1, modify at 1. unfold bind at 1, ret at 1.
  match goal with |- context [bind (Tool_generateTestHarness host i) _ ?s] => set (s2 := s) end.
  assert (T2 : tools s2
               = <[i := set_source_schema (Some (String c src)) None
                          (bump (incrementVersion (version t)) newTags t)]> (tools st)).
  { subst s2. cbn [tools set_tools set_world]. apply list_insert_insert_eq. }
  assert (B2 : table s2 = table st) by reflexivity.
  unfold bind at 1, Tool_generateTestHarness at 1, bind at 1, this at 1.
  rewrite T2, list_lookup_insert_eq by assumption.
  cbn [instance set_source_schema bump]. rewrite Hinst. unfold throw, ret.
  eexists _, _. split; [reflexivity|]. split; [exact B2|]. split; [exact T2|].
  cbn. repeat split. exact Hn.
Qed.

(** Under a key other than [__proto__], [this.tools] has the last tool of
    the list that has the name; it has no key [__proto__]; its prototype is
    the last tool of that name. *)
Lemma tools_lookup_fold n (l : list (Tool (num := num))) :
  n <> "__proto__" ->
  forall o0,
    obj_get n (fold_left (fun o t => if String.eqb (name t) "__proto__" then o
                                     else obj_set (name t) t o) l o0)
    = last_named n l (obj_get n o0).
Proof.
  intros Hn. unfold last_named.
  induction l as [|t l IH]; intros o0; simpl; [reflexivity|].
  rewrite IH. f_equal.
  destruct (String.eqb (name t) "__proto__") eqn:P.
  - apply String.eqb_eq in P.
    destruct (String.eqb (name t) n) eqn:E; [|reflexivity].
    apply String.eqb_eq in E. congruence.
  - destruct (String.eqb (name t) n) eqn:E.
    + apply String.eqb_eq in E. rewrite E. apply obj_get_set_eq.
    + apply String.eqb_neq in E. now apply obj_get_set_ne.
Qed.

Lemma tools_object_proto (l : list (Tool (num := num))) :
  forall o0,
    obj_get "__proto__" o0 = None ->
    obj_get "__proto__"
      (fold_left (fun o t => if String.eqb (name t) "__proto__" then o
                             else obj_set (name t) t o) l o0) = None.
Proof.
  induction l as [|t l IH]; intros o0 H; simpl; [exact H|].
  apply IH. destruct (String.eqb (name t) "__proto__") eqn:P; [exact H|].
  apply String.eqb_neq in P. rewrite obj_get_set_ne by congruence. exact H.
Qed.

Lemma prototype_tool_fold (l : list (Tool (num := num))) :
  prototype_tool l = last_named "__proto__" l None.
Proof.
  unfold prototype_tool, last_named.
  assert (H : forall acc,
             fold_left (fun acc t => if String.eqb (name t) "__proto__" then Some t else acc)
               l acc
             = match last (filter (fun t => name t = "__proto__") l) with
               | Some t => Some t
               | None => acc
               end).
  { induction l as [|t l IH]; intros acc; simpl; [reflexivity|].
    rewrite IH, filter_cons.
    destruct (String.eqb (name t) "__proto__") eqn:P.
    - apply String.eqb_eq in P. rewrite decide_True by exact P.
      rewrite last_cons. now destruct (last _).
    - apply String.eqb_neq in P. rewrite decide_False by exact P. reflexivity. }
  rewrite H. now destruct (last _).
Qed.

Lemma last_named_Some n (l : list (Tool (num := num))) : forall acc,
  (exists t0, acc = Some t0 /\ name t0 = n) \/ existsb (named n) l = true ->
  exists t, last_named n l acc = Some t /\ name t = n.
Proof.
  unfold last_named.
  induction l as [|t l IH]; intros acc H; simpl.
  - destruct H as [(t0 & -> & Hn)|H]; [eauto|discriminate].
  - apply IH. unfold named at 1 in H. simpl in H.
    destruct (String.eqb (name t) n) eqn:E.
    + left. exists t. split; [reflexivity|]. now apply String.eqb_eq.
    + destruct H as [H|H]; [left; exact H|right; exact H].
Qed.

Lemma last_named_None n (l : list (Tool (num := num))) :
  existsb (named n) l = false -> last_named n l None = None.
Proof.
  unfold last_named.
  induction l as [|t l IH]; simpl; [reflexivity|]. unfold named at 1.
  destruct (String.eqb (name t) n); [discriminate|]. exact IH.
Qed.

Lemma findIndex_existsb n (l : list (Tool (num := num))) :
  existsb (named n) l = match findIndex n l with Some _ => true | None => false end.
Proof.
  induction l as [|t l IH]; simpl; [reflexivity|]. unfold named at 1.
  destruct (String.eqb (name t) n); [reflexivity|]. rewrite IH.
  destruct (findIndex n l); reflexivity.
Qed.

(** For a registered name [this.tools[n]] is a tool of that name. *)
Lemma tools_lookup_registered n (l : list (Tool (num := num))) i :
  findIndex n l = Some i -> exists t, tools_lookup host n l = Own t /\ name t = n.
Proof.
  intros Hf.
  assert (Hex : existsb (named n) l = true) by (now rewrite findIndex_existsb, Hf).
  destruct (last_named_Some n l None (or_intror Hex)) as (t & Ht & Hn).
  exists t. split; [|exact Hn]. unfold tools_lookup, tools_object.
  destruct (string_dec n "__proto__") as [->|Hp].
  - rewrite tools_object_proto by reflexivity.
    rewrite prototype_tool_fold, Ht. reflexivity.
  - rewrite (tools_lookup_fold n l Hp). cbn [obj_get]. now rewrite Ht.
Qed.

(** For any other name it is what the prototype has. *)
Lemma tools_lookup_missing n (l : list (Tool (num := num))) :
  findIndex n l = None ->
  tools_lookup host n l
  = match prototype_tool l with
    | Some tool => if tool_member host tool n then Other else Absent
    | None => if inherited n then Other else Absent
    end.
Proof.
  intros Hf.
  assert (Hex : existsb (named n) l = false) by (now rewrite findIndex_existsb, Hf).
  unfold tools_lookup, tools_object.
  destruct (string_dec n "__proto__") as [->|Hp].
  - rewrite tools_object_proto by reflexivity.
    rewrite prototype_tool_fold, (last_named_None _ _ Hex). reflexivity.
  - rewrite (tools_lookup_fold n l Hp). cbn [obj_get]. rewrite (last_named_None _ _ Hex).
    destruct (prototype_tool l); [|reflexivity].
    assert (String.eqb n "__proto__" = false) as -> by (now apply String.eqb_neq).
    reflexivity.
Qed.

(** [rollbackTool] on a registered name writes the version it is given on the
    tool, and nothing else of the tool. *)
Lemma rollbackTool_run n v st i t :
  findIndex n (tools st) = Some i ->
  tools st !! i = Some t ->
  exists o st',
    rollbackTool host services n v st = (o, st') /\
    tools st' = <[i := relabel v t]> (tools st) /\
    ((forall m w, exists w', registry_listeners services "text" m w = (Ret tt, w')) ->
     o = Ret true /\
     if answered_by_prototype n st then table st' = table st
     else exists m', recorded v (entry n st) m' /\ table st' = <[n := m']> (table st)).
Proof.
  intros Hf Hi.
  destruct (tools_lookup_registered n (tools st) i Hf) as (found & Hfound & _).
  unfold rollbackTool, try_catch, bind at 1, gets at 1. rewrite Hf.
  unfold bind at 1, getTool at 1, bind at 1, gets at 1. rewrite Hfound.
  unfold ret at 1. cbv beta iota.
  unfold bind at 1, this at 1. rewrite Hi.
  unfold bind at 1, modify at 1. unfold bind at 1, saveRegistry at 1, modify at 1.
  unfold bind at 1, registry_emit at 1, ask at 1. cbn [world tools set_tools set_world].
  destruct (registry_listeners services "text" _ _) as [[[]|e] w1] eqn:E1.
  - unfold bind at 1.
    match goal with |- context [updateMetrics host n (UVersion v) ?s] =>
      set (s1 := s); destruct (updateMetrics_tools host n (UVersion v) s1) as (s2 & E2 & T2) end.
    rewrite E2. unfold ret. eexists _, s2. split; [reflexivity|].
    split; [rewrite T2; reflexivity|]. intros _. split; [reflexivity|].
    assert (Hs1 : answered_by_prototype n s1 = answered_by_prototype n st) by reflexivity.
    destruct (answered_by_prototype n st) eqn:Hp.
    + destruct (updateMetrics_answered n (UVersion v) s1 Hs1) as (s2' & E2' & _ & B2).
      rewrite E2 in E2'. injection E2' as <-. rewrite B2. reflexivity.
    + destruct (updateMetrics_run n (UVersion v) s1 Hs1) as (s2' & E2' & _ & B2).
      rewrite E2 in E2'. injection E2' as <-.
      eexists. split; [|rewrite B2; reflexivity]. apply recorded_switch.
  - unfold bind at 1, registry_emit, ask. cbn [world set_world].
    destruct (registry_listeners services "error" _ w1) as [[[]|e'] w2];
      (eexists _, _; split; [reflexivity|]; split; [reflexivity|]);
      intros H; destruct (H ("Tool " +:+ n +:+ " rolled back to version " +:+ v +:+ " successfully.")
                            (writeRegistryFile host (<[i := relabel v t]> (tools st)) (world st)))
                 as (w' & E'); rewrite E' in E1; discriminate.
Qed.

(** [addTool] returns; a name that is there already, or a missing schema,
    leaves the tools as they are; otherwise the new tool goes last. *)
Lemma addTool_run n src sch newTags st :
  exists r st',
    addTool host services n src sch newTags st = (Ret r, st') /\
    table st' = table st /\
    if existsb (named n) (tools st) then r = false /\ st' = st
    else match sch with
         | None => r = false /\ tools st' = tools st
         | Some s =>
             r = true /\
             exists src' z, tools st' = tools st ++ [new_Tool n "1.0.0" src' newTags s z]
         end.
Proof.
  unfold addTool. unfold try_catch at 1. unfold bind at 1, gets at 1.
  destruct (existsb (named n) (tools st)) eqn:Ex.
  { eexists _, _. split; [reflexivity|]. split; [reflexivity|]. split; reflexivity. }
  unfold bind at 1, try_catch at 1, ask at 1.
  destruct (standardized services n src sch (world st)) as [[text|e] w1];
    cbv beta iota zeta; unfold ret at 1; cbv beta iota.
  - destruct sch as [s|].
    + unfold bind at 1. destruct (now_run host (set_world (fun _ => w1) st)) as (z1 & w2 & ->).
      unfold bind at 1.
      match goal with |- context [now host ?x] => destruct (now_run host x) as (z2 & w3 & ->) end.
      unfold bind at 1.
      match goal with |- context [now host ?x] => destruct (now_run host x) as (z3 & w4 & ->) end.
      unfold bind, modify, saveRegistry, saveToolToRepo, modify, ret. cbn.
      eexists _, _. split; [reflexivity|]. split; [reflexivity|]. split; [reflexivity|].
      eexists _, _. reflexivity.
    + unfold throw. eexists _, _. split; [reflexivity|]. split; [reflexivity|].
      split; reflexivity.
  - destruct sch as [s|].
    + unfold bind at 1. destruct (now_run host (set_world (fun _ => w1) st)) as (z1 & w2 & ->).
      unfold bind at 1.
      match goal with |- context [now host ?x] => destruct (now_run host x) as (z2 & w3 & ->) end.
      unfold bind at 1.
      match goal with |- context [now host ?x] => destruct (now_run host x) as (z3 & w4 & ->) end.
      unfold bind, modify, saveRegistry, saveToolToRepo, modify, ret. cbn.
      eexists _, _. split; [reflexivity|]. split; [reflexivity|]. split; [reflexivity|].
      eexists _, _. reflexivity.
    + unfold throw. eexists _, _. split; [reflexivity|]. split; [reflexivity|].
      split; reflexivity.
Qed.

Lemma filter_other_names n (l : list (Tool (num := num))) :
  existsb (named n) l = false -> filter (fun tool => name tool <> n) l = l.
Proof.
  induction l as [|t l IH]; [reflexivity|]. simpl. unfold named at 1.
  destruct (String.eqb (name t) n) eqn:E; [discriminate|]. intros H.
  apply String.eqb_neq in E. rewrite filter_cons, decide_True by exact E.
  now rewrite (IH H).
Qed.

Lemma names_of_filter n (l : list (Tool (num := num))) :
  NoDup (map name l) -> NoDup (map name (filter (fun tool => name tool <> n) l)).
Proof.
  induction l as [|t l IH]; [intros _; constructor|]. simpl.
  intros [Ht Hl]%NoDup_cons. rewrite filter_cons.
  destruct (decide (name t <> n)); [|now apply IH].
  simpl. apply NoDup_cons. split; [|now apply IH].
  intros Hin. apply Ht. apply list_elem_of_fmap in Hin as (t' & Hn & Hin).
  apply list_elem_of_filter in Hin as [_ Hin].
  apply list_elem_of_fmap. exists t'. split; assumption.
Qed.

Lemma existsb_named_elem n (l : list (Tool (num := num))) :
  existsb (named n) l = false -> n ∉ map name l.
Proof.
  induction l as [|t l IH]; simpl; [intros _; apply not_elem_of_nil|].
  unfold named at 1. destruct (String.eqb (name t) n) eqn:E; [discriminate|].
  apply String.eqb_neq in E. intros H. apply not_elem_of_cons. split; [congruence|now apply IH].
Qed.

(** [ToolRegistry.callTool]: what it does for a value that is no tool, and
    with the table when the prototype answers for the name. *)
Lemma callTool_run n params st :
  match tools_lookup host n (tools st) with
  | Absent => callTool host services n params st = (Throw (Error ("Tool not found: " +:+ n)), st)
  | _ =>
      exists o st',
        callTool host services n params st = (o, st') /\
        tools st' = tools st /\
        match o with
        | Ret v =>
            v = VUndef /\
            if answered_by_prototype n st then table st' = table st
            else exists d w,
                   table st'
                   = <[n := fst (update_switch host (UExecution d) (entry n st) w)]> (table st)
        | Throw e => table st' = table st
        end
  end.
Proof.
  destruct (tools_lookup host n (tools st)) as [t| |] eqn:Ht.
  all: unfold callTool, bind at 1, gets at 1; rewrite Ht.
  3: reflexivity.
  all: unfold bind at 1; destruct (now_run host st) as (z1 & w1 & ->);
    unfold bind at 1, ask at 1; cbn [world set_world].
  1: destruct (run_module services (name t) params w1) as [[result|e] w2].
  3: destruct (run_missing services params w1) as [[result|e] w2].
  all: try (eexists _, _; split; [reflexivity|]; split; reflexivity).
  all: unfold bind at 1;
    match goal with |- context [now host ?x] => destruct (now_run host x) as (z2 & w3 & ->) end;
    unfold bind at 1;
    match goal with |- context [updateMetrics host ?m ?u ?s] =>
      set (s1 := s); set (u1 := u);
      destruct (answered_by_prototype m st) eqn:Ha;
      assert (Ha1 : answered_by_prototype m s1 = answered_by_prototype m st) by reflexivity;
      rewrite Ha in Ha1;
      first
        [ destruct (updateMetrics_answered m u1 s1 Ha1) as (s2 & E2 & T2 & B2);
          rewrite E2; unfold ret; eexists _, _; split; [reflexivity|];
          split; [rewrite T2; reflexivity|]; split; [reflexivity|]; rewrite B2; reflexivity
        | destruct (updateMetrics_run m u1 s1 Ha1) as (s2 & E2 & T2 & B2);
          rewrite E2; unfold ret; eexists _, _; split; [reflexivity|];
          split; [rewrite T2; reflexivity|]; split; [reflexivity|];
          eexists _, _; rewrite B2; reflexivity ]
    end.
Qed.

Lemma callTool_Ret n params st i :
  findIndex n (tools st) = Some i ->
  (forall p w, exists r w', run_module services n p w = (Ret r, w')) ->
  exists st',
    callTool host services n params st = (Ret VUndef, st') /\ tools st' = tools st.
Proof.
  intros Hf Hr. destruct (tools_lookup_registered n (tools st) i Hf) as (t & Ht & Hn).
  unfold callTool, bind at 1, gets at 1. rewrite Ht.
  unfold bind at 1. destruct (now_run host st) as (z1 & w1 & ->).
  unfold bind at 1, ask at 1. cbn [world set_world]. rewrite Hn.
  destruct (Hr params w1) as (r & w2 & ->).
  unfold bind at 1.
  match goal with |- context [now host ?x] => destruct (now_run host x) as (z2 & w3 & ->) end.
  unfold bind at 1.
  match goal with |- context [updateMetrics host n ?u ?s] =>
    destruct (updateMetrics_tools host n u s) as (s2 & E2 & T2) end.
  rewrite E2. unfold ret. eexists. split; [reflexivity|]. rewrite T2. reflexivity.
Qed.

(** [loadTool] hands a module out once. *)
Lemma loadTool_run n (ld : Loader (num := num) (W := W)) :
  exists v ld',
    loadTool services n ld = (Ret v, ld') /\
    tools (registry ld') = tools (registry ld) /\
    table (registry ld') = table (registry ld) /\
    (n ∈ loadedTools ld -> v = VNull /\ ld' = ld) /\
    (v <> VNull -> n ∈ loadedTools ld') /\
    (forall k, k ∈ loadedTools ld -> k ∈ loadedTools ld').
Proof.
  unfold loadTool. destruct (decide (n ∈ loadedTools ld)) as [Hin|Hout].
  { eexists _, _. split; [reflexivity|]. split; [reflexivity|]. split; [reflexivity|].
    split; [auto|]. split; [congruence|auto]. }
  destruct (findIndex n (tools (registry ld))).
  2:{ eexists _, _. split; [reflexivity|]. split; [reflexivity|]. split; [reflexivity|].
      split; [contradiction|]. split; [congruence|auto]. }
  destruct (import_module services n (world (registry ld))) as [[m|e] w].
  - eexists _, _. split; [reflexivity|]. split; [reflexivity|]. split; [reflexivity|].
    split; [contradiction|]. cbn [loadedTools]. split; [intros _; set_solver|].
    intros k Hk. set_solver.
  - eexists _, _. split; [reflexivity|]. split; [reflexivity|]. split; [reflexivity|].
    split; [contradiction|]. split; [congruence|auto].
Qed.

End Facts.
End RegistryOpsFacts.

Module NamesFacts.
Import Registry RegistryOps RegistryFacts RegistryOpsFacts.

Section Facts.
Context {num : Type} {arith : Arith num} {W : Type}.
Variable host : Host (num := num) (W := W).
Variable services : Services (W := W).
Implicit Types (st : State (num := num) (W := W)) (t : Tool (num := num)).

Lemma keeps_snd {A} (I : State (num := num) (W := W) -> Prop) (m : M State A) st :
  keeps I m (fun _ => True) -> I st -> I (snd (m st)).
Proof.
  intros K Hs. specialize (K st Hs). destruct (m st) as [[a|e] s']; simpl; tauto.
Qed.

(** The names of the tools are [names], in this order. *)
Section Invariant.
Variable names : list string.
Local Abbreviation Inv := (fun st : State (num := num) (W := W) => map name (tools st) = names).
Local Abbreviation at_index := (fun (i : nat) (t : Tool (num := num)) => names !! i = Some (name t)).

Lemma names_ask {A} (f : W -> Outcome A * W) : keeps Inv (ask f) (fun _ => True).
Proof. intros st Hs. unfold ask. destruct (f (world st)) as [[a|e] w]; simpl; auto. Qed.

Lemma names_this i : keeps Inv (this i) (at_index i).
Proof.
  intros st Hs. unfold this. destruct (tools st !! i) as [t|] eqn:E; [|exact Hs].
  split; [exact Hs|]. rewrite <- Hs, list_lookup_fmap, E. reflexivity.
Qed.

Lemma names_write i t :
  at_index i t -> keeps Inv (modify (set_tools (fun l => <[i := t]> l))) (fun _ => True).
Proof.
  intros Hi. apply keeps_modify. intros st Hs. cbn [tools set_tools].
  rewrite <- Hs in Hi |- *.
  transitivity (<[i := name t]> (map name (tools st))); [apply list_fmap_insert|].
  now apply list_insert_id.
Qed.

Lemma names_saveRegistry : keeps Inv (saveRegistry host) (fun _ => True).
Proof. apply keeps_modify. intros st H. exact H. Qed.

Lemma names_updateMetrics m u : keeps Inv (updateMetrics host m u) (fun _ => True).
Proof.
  intros st Hs. destruct (updateMetrics_tools host m u st) as (st' & E & T). rewrite E.
  split; [|exact I]. rewrite T. exact Hs.
Qed.

Lemma names_lift {A} (o : Outcome A) : keeps Inv (lift o) (fun _ => True).
Proof. intros st Hst. unfold lift. destruct o; auto. Qed.

Lemma names_saveTool i : keeps Inv (Tool_saveTool host i) (fun _ => True).
Proof.
  intros st Hs. unfold Tool_saveTool. split; [|exact I].
  match goal with |- context [snd (?m st)] => assert (K : keeps Inv m (fun _ => True)) end.
  { apply keeps_try_catch; [|intros; apply names_ask].
    eapply keeps_bind; [apply names_this|]. intros t Ht.
    intros s Hs'. unfold bind at 1, gets.
    destruct (findIndex (name t) (tools s)) as [j|] eqn:F; [|now apply names_ask].
    revert s Hs' F. intros s Hs' F.
    assert (Hj : at_index j t).
    { destruct (findIndex_Some _ _ _ F) as (t0 & H0 & Hn).
      rewrite <- Hs', list_lookup_fmap, H0. simpl. now rewrite Hn. }
    revert Hs'. generalize s. clear s F.
    change (keeps Inv
      (modify (set_tools (fun l => <[j := t]> l)) ;;;
       saveRegistry host ;;;
       ask (emit host "info" ("Tool " +:+ name t +:+ " saved successfully.")))
      (fun _ => True)).
    eapply keeps_bind; [now apply names_write|].
    intros _ _. eapply keeps_bind; [apply names_saveRegistry|]. intros _ _. apply names_ask. }
  exact (keeps_snd _ _ st K Hs).
Qed.

Lemma names_generateTestHarness i :
  keeps Inv (Tool_generateTestHarness host i) (fun _ => True).
Proof.
  unfold Tool_generateTestHarness.
  eapply keeps_bind; [apply names_this|]. intros t Ht.
  destruct (instance t); [|apply keeps_throw].
  apply keeps_try_catch; [|intros; apply names_ask].
  eapply keeps_bind; [apply names_ask|]. intros text _.
  eapply keeps_bind; [apply names_write; exact Ht|].
  intros _ _. eapply keeps_bind; [apply names_saveTool|]. intros _ _. apply names_ask.
Qed.

Lemma names_updateTool n src sch newTags :
  keeps Inv (updateTool host n src sch newTags) (fun _ => True).
Proof.
  unfold updateTool. apply keeps_try_catch; [|intros; now apply keeps_ret].
  intros st Hs. unfold bind at 1, gets.
  destruct (findIndex n (tools st)) as [i|]; [|now apply keeps_ret].
  revert st Hs.
  change (keeps Inv
    (tool <- this i ;;
     modify (set_tools (fun l => <[i := bump (incrementVersion (version tool)) newTags tool]> l)) ;;;
     updateTool_rest host n src sch (incrementVersion (version tool)) i)
    (fun _ => True)).
  eapply keeps_bind; [apply names_this|]. intros tool Ht.
  eapply keeps_bind; [apply names_write; exact Ht|]. intros _ _.
  unfold updateTool_rest.
  eapply keeps_bind; [apply names_saveRegistry|]. intros _ _.
  eapply keeps_bind; [apply names_this|]. intros tool' Ht'.
  eapply keeps_bind.
  { instantiate (1 := fun _ => True).
    destruct (_ || _); [|now apply keeps_ret].
    eapply keeps_bind; [apply names_write; exact Ht'|].
    intros _ _. eapply keeps_bind.
    { instantiate (1 := fun _ => True). destruct sch as [s|]; [|now apply keeps_ret].
      eapply keeps_bind; [apply names_ask|]. intros metadata _.
      eapply keeps_bind; [apply names_lift|]. intros metadata' _. apply names_ask. }
    intros _ _. eapply keeps_bind; [apply names_generateTestHarness|].
    intros _ _. apply names_updateMetrics. }
  intros _ _. eapply keeps_bind.
  { unfold saveToolToRepo. apply keeps_modify. intros st Hst. exact Hst. }
  intros _ _. eapply keeps_bind; [apply names_updateMetrics|].
  intros _ _. now apply keeps_ret.
Qed.

Lemma names_rollbackTool n v :
  keeps Inv (rollbackTool host services n v) (fun _ => True).
Proof.
  unfold rollbackTool, registry_emit.
  apply keeps_try_catch.
  2:{ intros e. eapply keeps_bind; [apply names_ask|]. intros _ _. now apply keeps_ret. }
  intros st Hs. unfold bind at 1, gets.
  destruct (findIndex n (tools st)) as [i|].
  2:{ revert st Hs.
      change (keeps Inv (ask (registry_listeners services "error" ("Tool not found: " +:+ n)) ;;;
                         ret false) (fun _ => True)).
      eapply keeps_bind; [apply names_ask|]. intros _ _. now apply keeps_ret. }
  revert st Hs.
  match goal with |- forall st, _ -> match ?m st with _ => _ end =>
    change (keeps Inv m (fun _ => True)) end.
  eapply keeps_bind.
  { instantiate (1 := fun _ => True). intros st Hs. unfold getTool, bind, gets.
    destruct (tools_lookup host n (tools st)); simpl; auto. }
  intros [found| |] _.
  3:{ eapply keeps_bind; [apply names_ask|]. intros _ _. now apply keeps_ret. }
  all: eapply keeps_bind; [apply names_this|]; intros tool Ht.
  all: eapply keeps_bind; [apply names_write; exact Ht|]; intros _ _.
  all: eapply keeps_bind; [apply names_saveRegistry|]; intros _ _.
  all: eapply keeps_bind; [apply names_ask|]; intros _ _.
  all: eapply keeps_bind; [apply names_updateMetrics|]; intros _ _; now apply keeps_ret.
Qed.

End Invariant.

End Facts.
End NamesFacts.

Module LookupFacts.
Import Registry RegistryOps RegistryFacts RegistryOpsFacts.

Section Facts.
Context {num : Type} {arith : Arith num} {W : Type}.
Variable host : Host (num := num) (W := W).
Variable services : Services (W := W).
Implicit Types (st : State (num := num) (W := W)) (t : Tool (num := num)).

Lemma insert_by_index_elem {V} (z : Z) (v : V) (l : list (Z * V)) x :
  x ∈ map snd (insert_by_index z v l) <-> x = v \/ x ∈ map snd l.
Proof.
  induction l as [|[z' v'] l IH]; simpl.
  - rewrite list_elem_of_singleton. split; [auto|]. intros [H|H]; [exact H|].
    now apply elem_of_nil in H.
  - destruct (z <? z')%Z; simpl; rewrite !elem_of_cons; [tauto|]. rewrite IH. tauto.
Qed.

Lemma Object_values_elem {V} (o : list (string * V)) x :
  x ∈ Object_values o <-> x ∈ map snd o.
Proof.
  unfold Object_values. rewrite elem_of_app.
  induction o as [|[k v] o IH]; simpl.
  - split; [intros [H|H]; exact H|auto].
  - rewrite filter_cons. simpl. rewrite elem_of_cons, <- IH.
    destruct (array_index k) as [z|] eqn:E.
    + rewrite decide_False by discriminate. rewrite insert_by_index_elem. tauto.
    + rewrite decide_True by reflexivity. simpl. rewrite elem_of_cons. tauto.
Qed.

Lemma obj_get_elem {V} (k : string) (o : list (string * V)) v :
  obj_get k o = Some v -> v ∈ map snd o.
Proof.
  induction o as [|[k' v'] o IH]; simpl; [discriminate|].
  destruct (String.eqb k k'); [intros [= ->]; now left|]. intros H. right. now apply IH.
Qed.

Lemma obj_set_elem {V} (k : string) (v : V) (o : list (string * V)) x :
  x ∈ map snd (obj_set k v o) -> x = v \/ x ∈ map snd o.
Proof.
  induction o as [|[k' v'] o IH]; simpl.
  - rewrite list_elem_of_singleton. auto.
  - destruct (String.eqb k k'); simpl; rewrite !elem_of_cons; [tauto|].
    intros [H|H]; [tauto|]. destruct (IH H); tauto.
Qed.

Lemma tools_object_elem (l : list (Tool (num := num))) t :
  t ∈ map snd (tools_object l) -> t ∈ l.
Proof.
  unfold tools_object.
  assert (H : forall o0,
             t ∈ map snd (fold_left (fun o t => if String.eqb (name t) "__proto__" then o
                                                else obj_set (name t) t o) l o0) ->
             t ∈ l \/ t ∈ map snd o0).
  { induction l as [|t0 l IH]; intros o0; simpl; [auto|].
    intros Hin. destruct (IH _ Hin) as [H|H]; [left; now right|].
    destruct (String.eqb (name t0) "__proto__"); [right; exact H|].
    apply obj_set_elem in H as [->|H]; [left; now left|right; exact H]. }
  intros Hin. destruct (H [] Hin) as [H'|H']; [exact H'|]. now apply elem_of_nil in H'.
Qed.

Lemma last_named_elem n (l : list (Tool (num := num))) t :
  forall acc, last_named n l acc = Some t -> (t ∈ l /\ name t = n) \/ acc = Some t.
Proof.
  unfold last_named. induction l as [|t0 l IH]; intros acc H; simpl in H; [now right|].
  destruct (IH _ H) as [[Hin Hn]|Hacc]; [left; split; [now right|exact Hn]|].
  destruct (String.eqb (name t0) n) eqn:E; [|now right].
  injection Hacc as ->. left. split; [now left|now apply String.eqb_eq].
Qed.

Lemma find_Some_elem {A} (f : A -> bool) (l : list A) x :
  List.find f l = Some x -> x ∈ l /\ f x = true.
Proof.
  induction l as [|y l IH]; simpl; [discriminate|].
  destruct (f y) eqn:E; [intros [= ->]; split; [now left|exact E]|].
  intros H. destruct (IH H). split; [now right|assumption].
Qed.

Lemma find_None_elem {A} (f : A -> bool) (l : list A) x :
  List.find f l = None -> x ∈ l -> f x = false.
Proof.
  induction l as [|y l IH]; simpl; [intros _ H; now apply elem_of_nil in H|].
  destruct (f y) eqn:E; [discriminate|]. intros H [->|Hin]%elem_of_cons; auto.
Qed.

(** A tool that [this.tools[n]] is, is a tool of the list and has the name. *)
Lemma tools_lookup_named n (l : list (Tool (num := num))) t :
  tools_lookup host n l = Own t -> t ∈ l /\ name t = n.
Proof.
  unfold tools_lookup, tools_object. intros H.
  assert (Hl : last_named n l None = Some t).
  { destruct (string_dec n "__proto__") as [->|Hp].
    - rewrite tools_object_proto in H by reflexivity.
      rewrite prototype_tool_fold in H.
      destruct (last_named "__proto__" l None); [|discriminate].
      cbn [String.eqb Ascii.eqb Bool.eqb] in H. congruence.
    - rewrite (tools_lookup_fold n l Hp) in H. cbn [obj_get] in H.
      destruct (last_named n l None) as [t'|]; [congruence|].
      destruct (prototype_tool l).
      + assert (String.eqb n "__proto__" = false) as E by (now apply String.eqb_neq).
        rewrite E in H. destruct (tool_member host _ n); discriminate.
      + destruct (inherited n); discriminate. }
  destruct (last_named_elem n l t None Hl) as [H'|H']; [exact H'|discriminate].
Qed.

(** A tool that is under its own name in [this.tools] is among the values
    of the object, unless its name is [__proto__]. *)
Lemma tools_lookup_value (l : list (Tool (num := num))) t :
  tools_lookup host (name t) l = Own t -> name t <> "__proto__" ->
  t ∈ Object_values (tools_object l).
Proof.
  unfold tools_lookup. intros H Hp. apply Object_values_elem.
  destruct (obj_get (name t) (tools_object l)) as [t'|] eqn:E.
  - injection H as ->. eapply obj_get_elem. exact E.
  - destruct (prototype_tool l).
    + assert (String.eqb (name t) "__proto__" = false) as E' by (now apply String.eqb_neq).
      rewrite E' in H. destruct (tool_member host _ _); discriminate.
    + destruct (inherited _); discriminate.
Qed.

Lemma getTool_run s st :
  exists r,
    getTool host s st = (Ret r, st) /\
    match r with
    | Own t => t ∈ tools st /\ (name t = s \/ source t = s)
    | Other =>
        findIndex s (tools st) = None /\
        match prototype_tool (tools st) with
        | Some p => tool_member host p s = true
        | None => inherited s = true
        end
    | Absent =>
        match prototype_tool (tools st) with
        | Some p => tool_member host p s = false
        | None => inherited s = false
        end /\
        forall t, t ∈ tools st ->
                  name t <> s /\
                  (tools_lookup host (name t) (tools st) = Own t -> name t <> "__proto__" ->
                   source t <> s)
    end.
Proof.
  unfold getTool, bind, gets.
  destruct (tools_lookup host s (tools st)) as [t| |] eqn:E.
  - exists (Own t). split; [reflexivity|].
    destruct (tools_lookup_named _ _ _ E). auto.
  - exists Other. split; [reflexivity|].
    destruct (findIndex s (tools st)) as [i|] eqn:Hf.
    { destruct (tools_lookup_registered host s _ i Hf) as (t' & Ht' & _). congruence. }
    split; [reflexivity|]. rewrite (tools_lookup_missing host s _ Hf) in E.
    destruct (prototype_tool (tools st)).
    + destruct (tool_member host _ s); [reflexivity|discriminate].
    + destruct (inherited s); [reflexivity|discriminate].
  - unfold ret.
    destruct (List.find _ _) as [t|] eqn:F.
    + exists (Own t). split; [reflexivity|].
      apply find_Some_elem in F as [Hin Hs].
      apply Object_values_elem, tools_object_elem in Hin.
      split; [exact Hin|right; now apply String.eqb_eq].
    + exists Absent. split; [reflexivity|].
      assert (Hf : findIndex s (tools st) = None).
      { destruct (findIndex s (tools st)) as [i|] eqn:Hf; [|reflexivity].
        destruct (tools_lookup_registered host s _ i Hf) as (t' & Ht' & _). congruence. }
      split.
      { rewrite (tools_lookup_missing host s _ Hf) in E.
        destruct (prototype_tool (tools st)).
        - destruct (tool_member host _ s); [discriminate|reflexivity].
        - destruct (inherited s); [discriminate|reflexivity]. }
      intros t Hin. split.
      * intros Hn.
        pose proof (findIndex_existsb s (tools st)) as Hex. rewrite Hf in Hex.
        apply (existsb_named_elem s _ Hex). apply list_elem_of_fmap. eauto.
      * intros Hv Hp Hs.
        pose proof (find_None_elem _ _ _ F (tools_lookup_value _ _ Hv Hp)) as Hfalse.
        simpl in Hfalse. apply String.eqb_neq in Hfalse. contradiction.
Qed.

(** [Tool.runTests] of the first tool of its name, an instance of [Tool]:
    what it returns and what it records, by what the harness and the
    listeners of [error] do. *)
Lemma Tool_runTests_run st i t :
  findIndex (name t) (tools st) = Some i ->
  tools st !! i = Some t ->
  instance t = true ->
  exists o st',
    Tool_runTests host services i st = (o, st') /\
    match testHarness t with
    | EmptyString =>
        tools st' = tools st /\ table st' = table st /\
        o = fst (emit host "error" ("No test harness found for tool " +:+ name t) (world st))
    | String _ _ =>
        let run := run_harness services (name t) (testHarness t) (world st) in
        match fst run with
        | Ret _ =>
            o = Ret tt /\
            exists w,
              tools st'
              = <[i := set_metrics (fst (update_switch host (UTest true) (metrics t) w))
                         (set_lastTestResult (Some (true, "All tests passed successfully")) t)]>
                  (tools st)
        | Throw e =>
            match fst (emit host "error" ("Error running tests for tool " +:+ name t +:+ ":")
                         (snd run)) with
            | Ret _ =>
                o = Ret tt /\
                exists w,
                  tools st'
                  = <[i := set_metrics (fst (update_switch host (UTest false) (metrics t) w))
                             (set_lastTestResult
                                (Some (false,
                                       "Test failed: " +:+ default "undefined" (message e))) t)]>
                      (tools st)
            | Throw e' => o = Throw e' /\ tools st' = tools st /\ table st' = table st
            end
        end
    end.
Proof.
  intros Hf Hi Hinst.
  assert (Hlen : (i < length (tools st))%nat) by (eapply lookup_lt_Some; eauto).
  unfold Tool_runTests, bind at 1, this at 1. rewrite Hi, Hinst. cbn [negb].
  destruct (testHarness t) as [|c h] eqn:Eh.
  { cbn [String.eqb]. unfold ask.
    destruct (emit host "error" _ (world st)) as [o w'].
    eexists _, _. split; [reflexivity|]. split; [reflexivity|]. split; reflexivity. }
  cbn [String.eqb]. cbv zeta. unfold try_catch, bind at 1, ask at 1.
  destruct (run_harness services (name t) (String c h) (world st)) as [[[]|e] w1] eqn:Er.
  - unfold bind at 1, this at 1. cbn [tools set_world]. rewrite Hi.
    unfold bind at 1, modify at 1.
    set (t1 := set_lastTestResult (Some (true, "All tests passed successfully")) t).
    match goal with |- context [bind (Tool_saveTool host i) _ ?s] => set (s1 := s) end.
    assert (T1 : tools s1 = <[i := t1]> (tools st)) by reflexivity.
    destruct (Tool_saveTool_run host s1 i t1) as (s2 & E2 & T2 & B2).
    { rewrite T1. cbn [name t1 set_lastTestResult]. rewrite <- Hf.
      apply findIndex_names. now apply (names_insert _ _ t). }
    { rewrite T1. now apply list_lookup_insert_eq. }
    unfold bind at 1. rewrite E2.
    destruct (Tool_updateMetrics_run host s2 i t1 (UTest true)) as (s3 & E3 & T3).
    { rewrite T2, T1. now apply list_lookup_insert_eq. }
    rewrite E3. exists (Ret tt), s3. split; [reflexivity|]. cbn [fst]. split; [reflexivity|].
    exists (world s2).
    rewrite T3, T2, T1, list_insert_insert_eq. reflexivity.
  - cbv beta iota. unfold bind at 1, this at 1. cbn [tools set_world]. rewrite Hi.
    unfold bind at 1, ask at 1. cbn [world set_world fst snd].
    destruct (emit host "error" ("Error running tests for tool " +:+ name t +:+ ":") w1)
      as [[[]|e'] w2].
    + unfold bind at 1, this at 1. cbn [tools set_world]. rewrite Hi.
      unfold bind at 1, modify at 1.
      set (t1 := set_lastTestResult
                   (Some (false, "Test failed: " +:+ default "undefined" (message e))) t).
      match goal with |- context [Tool_updateMetrics host i _ ?s] => set (s1 := s) end.
      assert (T1 : tools s1 = <[i := t1]> (tools st)) by reflexivity.
      destruct (Tool_updateMetrics_run host s1 i t1 (UTest false)) as (s3 & E3 & T3).
      { rewrite T1. now apply list_lookup_insert_eq. }
      rewrite E3. exists (Ret tt), s3. split; [reflexivity|]. split; [reflexivity|].
      exists (world s1).
      rewrite T3, T1, list_insert_insert_eq. reflexivity.
    + eexists _, _. split; [reflexivity|]. split; [reflexivity|]. split; reflexivity.
Qed.

End Facts.
End LookupFacts.

(** X14.  A call of a registered instance of [Tool] through
    [ToolRegistry.call] records the tool's version twice in the metrics
    table, whether the tool returns or throws: the history [getToolHistory]
    returns grows by two entries, both the unchanged version, and
    [totalUpdates] grows by two.  The one exception is a name that the table
    has no entry for and that is the name of a member of [Object.prototype]:
    then the table stays as it is and the history is empty. *)
Theorem call_records_version_twice :
  forall {num : Type} {arith : Registry.Arith num} {W : Type}
         (host : Registry.Host (num := num) (W := W))
         (n : string) (params : value) (st : Registry.State) (i : nat) (t : Registry.Tool),
    Registry.findIndex n (Registry.tools st) = Some i ->
    Registry.tools st !! i = Some t ->
    Registry.instance t = true ->
    exists o st',
      Registry.call host n params st = (o, st') /\
      if Registry.answered_by_prototype n st
      then Registry.table st' = Registry.table st /\
           RegistryOps.getToolHistory n st' = (Ret [], st')
      else RegistryOps.getToolHistory n st'
           = (Ret (Registry.versions (RegistryOps.entry n st)
                   ++ [Registry.version t; Registry.version t]), st') /\
           Registry.totalUpdates (RegistryOps.entry n st')
           = (Registry.totalUpdates (RegistryOps.entry n st) + 2)%Z.
Proof.
  intros num arith W host n params st i t Hf Hi Hinst.
  destruct (RegistryFacts.findIndex_Some _ _ _ Hf) as (t0 & Ht0 & Hn).
  assert (t0 = t) as -> by congruence.
  assert (Hcall : forall o st', Registry.Tool_call host i params st = (o, st') ->
                                Registry.call host n params st = (o, st')).
  { intros o st' E. unfold Registry.call, bind at 1, gets. rewrite Hf.
    unfold bind, Registry.this. rewrite Hi, Hinst. exact E. }
  destruct (Registry.answered_by_prototype n st) eqn:Ha.
  - rewrite <- Hn in Ha.
    destruct (RegistryOpsFacts.Tool_call_answered host st i t params Hi Ha)
      as (o & st' & E & B & N).
    exists o, st'. split; [now apply Hcall|]. split; [exact B|].
    unfold RegistryOps.getToolHistory, bind, gets.
    rewrite (RegistryOpsFacts.findIndex_names n _ _ N), Hf, B.
    unfold Registry.answered_by_prototype in Ha. rewrite Hn in Ha.
    destruct (Registry.table st !! n); [discriminate|reflexivity].
  - rewrite <- Hn in Ha.
    destruct (RegistryOpsFacts.Tool_call_table host st i t params Hi Ha)
      as (o & st' & m1 & m2 & E & R1 & R2 & B & N).
    rewrite Hn in R1, B.
    exists o, st'. split; [now apply Hcall|].
    destruct R1 as (V1 & U1 & _), R2 as (V2 & U2 & _).
    assert (Hm : Registry.table st' !! n = Some m2) by (rewrite B; apply lookup_insert_eq).
    split.
    + unfold RegistryOps.getToolHistory, bind, gets.
      rewrite (RegistryOpsFacts.findIndex_names n _ _ N), Hf, Hm.
      unfold ret. rewrite V2, V1, <- app_assoc. reflexivity.
    + unfold RegistryOps.entry at 1. rewrite Hm. simpl. rewrite U2, U1. lia.
Qed.

Lemma call_records_version_twice_witness :
  exists o (st' : RegistryExample.XState),
    Registry.call RegistryExample.host "echo" VNull RegistryExample.registry = (o, st') /\
    RegistryOps.getToolHistory "echo" st' = (Ret ["1.0.0"; "1.0.0"], st').
Proof.
  destruct (call_records_version_twice RegistryExample.host "echo" VNull
              RegistryExample.registry 0 (RegistryExample.new_tool "echo" "ok")
              eq_refl eq_refl eq_refl)
    as (o & st' & E & H).
  assert (Ha : Registry.answered_by_prototype "echo" RegistryExample.registry = false)
    by (vm_compute; reflexivity).
  rewrite Ha in H. destruct H as (H & _).
  exists o, st'. split; [exact E|exact H].
Defined.

(** The exception at work: a tool named [constructor], called twice, has an
    empty history. *)
Example call_constructor_history :
  let st := snd (Registry.call RegistryExample.host "constructor" VNull
                   (snd (Registry.call RegistryExample.host "constructor" VNull
                           OpsExample.odd_names))) in
  Registry.table st = ∅ /\
  fst (RegistryOps.getToolHistory "constructor" st) = Ret [].
Proof. vm_compute. split; reflexivity. Qed.

(** X15.  [updateTool] of a registered instance of [Tool] with a new,
    non-empty source and no schema, when the model returns a test harness,
    no listener of the tool's [info] events throws, and the name is not one
    that the prototype of the metrics table answers for: it returns [true];
    the tool then has the version [incrementVersion] gives and the new
    source, and that version stands twice more in the history of the metrics
    table. *)
Theorem updateTool_records_version_twice :
  forall {num : Type} {arith : Registry.Arith num} {W : Type}
         (host : Registry.Host (num := num) (W := W))
         (n : string) (c : ascii) (src : string) (newTags : option (list string))
         (st : Registry.State) (i : nat) (t : Registry.Tool),
    (forall s sc w, exists text w', Registry.harness_of host s sc w = (Ret text, w')) ->
    (forall m w, exists w', Registry.emit host "info" m w = (Ret tt, w')) ->
    Registry.answered_by_prototype n st = false ->
    Registry.findIndex n (Registry.tools st) = Some i ->
    Registry.tools st !! i = Some t ->
    Registry.instance t = true ->
    let v := Registry.incrementVersion (Registry.version t) in
    exists st' t',
      Registry.updateTool host n (Some (String c src)) None newTags st = (Ret true, st') /\
      Registry.tools st' !! i = Some t' /\
      Registry.version t' = v /\ Registry.source t' = String c src /\
      Registry.versions (RegistryOps.entry n st')
      = Registry.versions (RegistryOps.entry n st) ++ [v; v] /\
      Registry.totalUpdates (RegistryOps.entry n st')
      = (Registry.totalUpdates (RegistryOps.entry n st) + 2)%Z.
Proof.
  intros num arith W host n c src newTags st i t Hh He Ha Hf Hi Hinst v.
  destruct (RegistryOpsFacts.updateTool_with_source host n c src newTags st i t
              Hh He Ha Hf Hi Hinst)
    as (st' & m1 & m2 & t' & E & (V1 & U1 & _) & (V2 & U2 & _) & B & T & _ & Hv & Hs).
  exists st', t'. split; [exact E|]. split.
  { rewrite T. apply list_lookup_insert_eq. eapply lookup_lt_Some; eauto. }
  split; [exact Hv|]. split; [exact Hs|].
  unfold RegistryOps.entry at 1 3. rewrite B, lookup_insert_eq. simpl.
  rewrite V2, V1, U2, U1, <- app_assoc. split; [reflexivity|lia].
Qed.

Lemma updateTool_records_version_twice_witness :
  exists (st' : RegistryExample.XState),
    Registry.updateTool RegistryExample.host "echo" (Some "return 1") None (Some [])
      RegistryExample.registry = (Ret true, st') /\
    Registry.versions (RegistryOps.entry "echo" st') = ["1.0.1"; "1.0.1"].
Proof.
  destruct (updateTool_records_version_twice RegistryExample.host "echo" "r" "eturn 1"
              (Some []) RegistryExample.registry 0 (RegistryExample.new_tool "echo" "ok")
              ltac:(intros; eexists _, _; reflexivity) ltac:(intros; eexists; reflexivity)
              ltac:(vm_compute; reflexivity) eq_refl eq_refl eq_refl)
    as (st' & t' & E & _ & _ & _ & V & _).
  exists st'. split; [exact E|exact V].
Defined.

(** When the model does not answer, nobody listens to the [error] event of
    the tool that reports it: [updateTool] returns [false], with the version
    bumped and the source replaced. *)
Example updateTool_without_harness :
  let host := OpsExample.without_model in
  let run := Registry.updateTool host "echo" (Some "return 1") None (Some [])
               RegistryExample.registry in
  fst run = Ret false /\
  map (fun t => (Registry.version t, Registry.source t)) (Registry.tools (snd run))
  = [("1.0.1", "return 1"); ("1.0.0", "fail")].
Proof. vm_compute. split; reflexivity. Qed.

(** X16.  [updateTool] of a tool that is a plain object, as the tools read back
    from the registry file are, returns [false] when given a non-empty
    source; yet the tool is left with the next patch version and the new
    source.  The metrics table is as it was. *)
Theorem updateTool_fails_on_plain_object :
  forall {num : Type} {arith : Registry.Arith num} {W : Type}
         (host : Registry.Host (num := num) (W := W))
         (n : string) (c : ascii) (src : string) (newTags : option (list string))
         (st : Registry.State) (i : nat) (t : Registry.Tool),
    Registry.findIndex n (Registry.tools st) = Some i ->
    Registry.tools st !! i = Some t ->
    Registry.instance t = false ->
    exists st' t',
      Registry.updateTool host n (Some (String c src)) None newTags st = (Ret false, st') /\
      Registry.table st' = Registry.table st /\
      Registry.tools st' !! i = Some t' /\
      Registry.version t' = Registry.incrementVersion (Registry.version t) /\
      Registry.source t' = String c src.
Proof.
  intros num arith W host n c src newTags st i t Hf Hi Hinst.
  destruct (RegistryOpsFacts.updateTool_plain_object host n c src newTags st i t Hf Hi Hinst)
    as (st' & t' & E & B & T & _ & Hv & Hs).
  exists st', t'. split; [exact E|]. split; [exact B|]. split.
  { rewrite T. apply list_lookup_insert_eq. eapply lookup_lt_Some; eauto. }
  split; assumption.
Qed.

Lemma updateTool_fails_on_plain_object_witness :
  exists (st' : RegistryExample.XState) (t' : RegistryExample.XTool),
    Registry.updateTool RegistryExample.host "echo" (Some "return 1") None (Some [])
      OpsExample.read_back = (Ret false, st') /\
    Registry.tools st' !! 0%nat = Some t' /\
    Registry.version t' = "1.0.1" /\ Registry.source t' = "return 1".
Proof.
  destruct (updateTool_fails_on_plain_object RegistryExample.host "echo" "r" "eturn 1"
              (Some []) OpsExample.read_back 0 _ eq_refl eq_refl eq_refl)
    as (st' & t' & E & _ & T & V & S).
  exists st', t'. repeat split; assumption.
Defined.

(** X17.  [rollbackTool] of a registered name, when no listener of the
    registry's [text] event throws, returns [true] and only relabels the
    tool: its version is the one asked for and it is active, its source and
    schema are what they were.  The version is appended once to the history
    of the name, unless the name is one that the prototype of the metrics
    table answers for: then the table stays as it is. *)
Theorem rollbackTool_relabels :
  forall {num : Type} {arith : Registry.Arith num} {W : Type}
         (host : Registry.Host (num := num) (W := W))
         (services : RegistryOps.Services (W := W))
         (n v : string) (st : Registry.State) (i : nat) (t : Registry.Tool),
    Registry.findIndex n (Registry.tools st) = Some i ->
    Registry.tools st !! i = Some t ->
    (forall m w, exists w', RegistryOps.registry_listeners services "text" m w = (Ret tt, w')) ->
    exists st' t',
      RegistryOps.rollbackTool host services n v st = (Ret true, st') /\
      Registry.tools st' = <[i := t']> (Registry.tools st) /\
      Registry.version t' = v /\ Registry.source t' = Registry.source t /\
      Registry.schema t' = Registry.schema t /\ Registry.active t' = true /\
      if Registry.answered_by_prototype n st
      then Registry.table st' = Registry.table st
      else Registry.versions (RegistryOps.entry n st')
           = Registry.versions (RegistryOps.entry n st) ++ [v].
Proof.
  intros num arith W host services n v st i t Hf Hi Hl.
  destruct (RegistryOpsFacts.rollbackTool_run host services n v st i t Hf Hi)
    as (o & st' & E & T & H).
  destruct (H Hl) as (-> & H').
  exists st', (RegistryOps.relabel v t). split; [exact E|]. split; [exact T|].
  do 4 (split; [reflexivity|]).
  destruct (Registry.answered_by_prototype n st); [exact H'|].
  destruct H' as (m' & (V & _) & B).
  unfold RegistryOps.entry at 1. rewrite B, lookup_insert_eq. exact V.
Qed.

Lemma rollbackTool_relabels_witness :
  exists (st' : RegistryExample.XState) (t' : RegistryExample.XTool),
    RegistryOps.rollbackTool RegistryExample.host OpsExample.services "echo" "0.9.0"
      RegistryExample.registry = (Ret true, st') /\
    Registry.tools st' !! 0%nat = Some t' /\
    Registry.version t' = "0.9.0" /\ Registry.source t' = "ok".
Proof.
  destruct (rollbackTool_relabels RegistryExample.host OpsExample.services "echo" "0.9.0"
              RegistryExample.registry 0 (RegistryExample.new_tool "echo" "ok")
              eq_refl eq_refl ltac:(intros; eexists; reflexivity))
    as (st' & t' & E & T & V & S & _).
  exists st', t'. split; [exact E|]. split; [rewrite T; reflexivity|]. split; assumption.
Defined.

(** X18.  [addTool] never throws and leaves the metrics table alone.  For a
    registered name it returns [false] and changes nothing; without a schema
    it returns [false] and the tools are as they were; otherwise it returns
    [true], the tools are the former ones followed by a new tool of version
    [1.0.0] under that name, and adding the name again returns [false]. *)
Theorem addTool_registers :
  forall {num : Type} {arith : Registry.Arith num} {W : Type}
         (host : Registry.Host (num := num) (W := W))
         (services : RegistryOps.Services (W := W))
         (n src : string) (sch : option Registry.Schema) (newTags : option (list string))
         (st : Registry.State),
    exists r st',
      RegistryOps.addTool host services n src sch newTags st = (Ret r, st') /\
      Registry.table st' = Registry.table st /\
      if existsb (Registry.named n) (Registry.tools st) then r = false /\ st' = st
      else match sch with
           | None => r = false /\ Registry.tools st' = Registry.tools st
           | Some s =>
               r = true /\
               (exists src' z,
                  Registry.tools st'
                  = Registry.tools st ++ [RegistryOps.new_Tool n "1.0.0" src' newTags s z]) /\
               Registry.findIndex n (Registry.tools st') = Some (length (Registry.tools st)) /\
               RegistryOps.addTool host services n src sch newTags st' = (Ret false, st')
           end.
Proof.
  intros num arith W host services n src sch newTags st.
  destruct (RegistryOpsFacts.addTool_run host services n src sch newTags st)
    as (r & st' & E & B & H).
  exists r, st'. split; [exact E|]. split; [exact B|].
  destruct (existsb (Registry.named n) (Registry.tools st)) eqn:Ex; [exact H|].
  destruct sch as [s|]; [|exact H].
  destruct H as (-> & src' & z & T). split; [reflexivity|]. split; [eauto|].
  assert (Hfi : Registry.findIndex n (Registry.tools st') = Some (length (Registry.tools st))).
  { rewrite T. clear -Ex. induction (Registry.tools st) as [|t l IH]; simpl.
    - unfold RegistryOps.new_Tool. simpl. now rewrite String.eqb_refl.
    - simpl in Ex. unfold Registry.named at 1 in Ex.
      destruct (String.eqb (Registry.name t) n); [discriminate|].
      simpl in Ex. now rewrite (IH Ex). }
  split; [exact Hfi|].
  destruct (RegistryOpsFacts.addTool_run host services n src (Some s) newTags st')
    as (r2 & st2 & E2 & _ & H2).
  rewrite RegistryOpsFacts.findIndex_existsb, Hfi in H2. destruct H2 as (-> & ->). exact E2.
Qed.

(** X19.  Adding a tool under a name that is not registered and then removing the
    name returns [true] both times and gives back the tools and the metrics
    table there were. *)
Theorem addTool_then_removeTool :
  forall {num : Type} {arith : Registry.Arith num} {W : Type}
         (host : Registry.Host (num := num) (W := W))
         (services : RegistryOps.Services (W := W))
         (n src : string) (s : Registry.Schema) (newTags : option (list string))
         (st : Registry.State),
    existsb (Registry.named n) (Registry.tools st) = false ->
    exists st1 st2,
      RegistryOps.addTool host services n src (Some s) newTags st = (Ret true, st1) /\
      Registry.removeTool host n st1 = (Ret true, st2) /\
      Registry.tools st2 = Registry.tools st /\
      Registry.table st2 = Registry.table st.
Proof.
  intros num arith W host services n src s newTags st Hn.
  destruct (RegistryOpsFacts.addTool_run host services n src (Some s) newTags st)
    as (r & st1 & E & B & H).
  rewrite Hn in H. destruct H as (-> & src' & z & T).
  exists st1. eexists. split; [exact E|].
  rewrite RegistryFacts.removeTool_eq.
  assert (Hex : existsb (Registry.named n) (Registry.tools st1) = true).
  { rewrite T, existsb_app. simpl. unfold Registry.named at 2. simpl.
    rewrite String.eqb_refl. now rewrite orb_true_r. }
  rewrite Hex. split; [reflexivity|]. cbn. split; [|exact B].
  rewrite T, filter_app, (RegistryOpsFacts.filter_other_names n _ Hn).
  rewrite filter_cons, decide_False by (simpl; intros H; now apply H).
  apply app_nil_r.
Qed.

Lemma addTool_then_removeTool_witness :
  exists st1 st2 : RegistryExample.XState,
    RegistryOps.addTool RegistryExample.host OpsExample.services "sum" "return a + b"
      (Some {| Registry.schema_id := 1; Registry.schema_body := VObj [] |}) (Some ["math"])
      RegistryExample.registry = (Ret true, st1) /\
    Registry.removeTool RegistryExample.host "sum" st1 = (Ret true, st2) /\
    Registry.tools st2 = Registry.tools RegistryExample.registry.
Proof.
  destruct (addTool_then_removeTool RegistryExample.host OpsExample.services "sum" "return a + b"
              {| Registry.schema_id := 1; Registry.schema_body := VObj [] |} (Some ["math"])
              RegistryExample.registry eq_refl)
    as (st1 & st2 & E1 & E2 & T & _).
  exists st1, st2. repeat split; assumption.
Defined.

(** X20.  [updateTool] and [rollbackTool] leave the names of the tools as they
    are, in their order, however they end; and when the names are distinct
    they still are after [addTool], [addAutoGeneratedTool] and [removeTool]. *)
Theorem registry_names_kept :
  forall {num : Type} {arith : Registry.Arith num} {W : Type}
         (host : Registry.Host (num := num) (W := W))
         (services : RegistryOps.Services (W := W))
         (n src v : string) (source : option string) (sch : option Registry.Schema)
         (newTags : option (list string)) (st : Registry.State),
    let names (s : Registry.State) := map Registry.name (Registry.tools s) in
    names (snd (Registry.updateTool host n source sch newTags st)) = names st /\
    names (snd (RegistryOps.rollbackTool host services n v st)) = names st /\
    (NoDup (names st) ->
     NoDup (names (snd (RegistryOps.addTool host services n src sch newTags st))) /\
     NoDup (names (snd (RegistryOps.addAutoGeneratedTool host services n src sch st))) /\
     NoDup (names (snd (Registry.removeTool host n st)))).
Proof.
  intros num arith W host services n src v source sch newTags st names.
  split; [|split].
  - apply (NamesFacts.keeps_snd (fun s => names s = names st)); [|reflexivity].
    apply NamesFacts.names_updateTool.
  - apply (NamesFacts.keeps_snd (fun s => names s = names st)); [|reflexivity].
    apply NamesFacts.names_rollbackTool.
  - intros Hnd.
    assert (Hadd : forall tags,
              NoDup (names (snd (RegistryOps.addTool host services n src sch tags st)))).
    { intros tags.
      destruct (RegistryOpsFacts.addTool_run host services n src sch tags st)
        as (r & st' & E & _ & H).
      rewrite E. cbn [snd].
      destruct (existsb (Registry.named n) (Registry.tools st)) eqn:Ex.
      - destruct H as (_ & ->). exact Hnd.
      - destruct sch as [s|].
        + destruct H as (_ & src' & z & T). unfold names. rewrite T, map_app.
          apply NoDup_app. split; [exact Hnd|]. split; [|apply NoDup_singleton].
          intros x Hx Hx'. apply list_elem_of_singleton in Hx'. subst x.
          now apply (RegistryOpsFacts.existsb_named_elem n _ Ex).
        + destruct H as (_ & T). unfold names. now rewrite T. }
    split; [apply Hadd|]. split.
    + unfold RegistryOps.addAutoGeneratedTool, bind, gets.
      destruct (existsb _ _); [exact Hnd|apply Hadd].
    + rewrite RegistryFacts.removeTool_eq. cbn [snd].
      destruct (existsb _ _); cbn; now apply RegistryOpsFacts.names_of_filter.
Qed.

Lemma registry_names_kept_witness :
  NoDup (map Registry.name
           (Registry.tools
              (snd (RegistryOps.addTool RegistryExample.host OpsExample.services "echo" "return 1"
                      (Some {| Registry.schema_id := 1; Registry.schema_body := VObj [] |})
                      (Some []) RegistryExample.registry)))).
Proof.
  refine (proj1 (proj2 (proj2 (registry_names_kept RegistryExample.host OpsExample.services
                   "echo" "return 1" "1.0.0" None
                   (Some {| Registry.schema_id := 1; Registry.schema_body := VObj [] |})
                   (Some []) RegistryExample.registry)) _)).
  apply (bool_decide_unpack _). vm_compute. exact I.
Defined.

(** X25.  [Tool.runTests] of a registered instance of [Tool].  Without a test
    harness it only emits an [error] event, which throws when nobody listens,
    and the tools and the metrics table are as they were.  With one: when
    the harness runs without throwing, [runTests] returns, [lastTestResult]
    is a success and the tool's own metrics count one more run, a passed
    one; when the harness throws, an [error] event is emitted first: if no
    listener throws, [runTests] returns, [lastTestResult] is a failure and
    the metrics count one more run, a failed one; if the event throws, as it
    does when nobody listens, [runTests] throws what the event throws and
    nothing is recorded. *)
Theorem runTests_records_one_run :
  forall {num : Type} {arith : Registry.Arith num} {W : Type}
         (host : Registry.Host (num := num) (W := W))
         (services : RegistryOps.Services (W := W))
         (st : Registry.State) (i : nat) (t : Registry.Tool),
    Registry.findIndex (Registry.name t) (Registry.tools st) = Some i ->
    Registry.tools st !! i = Some t ->
    Registry.instance t = true ->
    exists o st',
      RegistryOps.Tool_runTests host services i st = (o, st') /\
      let before := Registry.testResults (Registry.metrics t) in
      let counted (ok : bool) :=
        exists t' message,
          Registry.tools st' !! i = Some t' /\
          Registry.lastTestResult t' = Some (ok, message) /\
          Registry.totalRuns (Registry.testResults (Registry.metrics t'))
          = (Registry.totalRuns before + 1)%Z /\
          Registry.passed (Registry.testResults (Registry.metrics t'))
          = (Registry.passed before + if ok then 1 else 0)%Z /\
          Registry.failed (Registry.testResults (Registry.metrics t'))
          = (Registry.failed before + if ok then 0 else 1)%Z in
      match Registry.testHarness t with
      | EmptyString =>
          Registry.tools st' = Registry.tools st /\ Registry.table st' = Registry.table st /\
          o = fst (Registry.emit host "error"
                     ("No test harness found for tool " +:+ Registry.name t)
                     (Registry.world st))
      | String _ _ =>
          let run := RegistryOps.run_harness services (Registry.name t)
                       (Registry.testHarness t) (Registry.world st) in
          match fst run with
          | Ret _ => o = Ret tt /\ counted true
          | Throw _ =>
              match fst (Registry.emit host "error"
                           ("Error running tests for tool " +:+ Registry.name t +:+ ":")
                           (snd run)) with
              | Ret _ => o = Ret tt /\ counted false
              | Throw e =>
                  o = Throw e /\
                  Registry.tools st' = Registry.tools st /\
                  Registry.table st' = Registry.table st
              end
          end
      end.
Proof.
  intros num arith W host services st i t Hf Hi Hinst.
  destruct (LookupFacts.Tool_runTests_run host services st i t Hf Hi Hinst)
    as (o & st' & E & H).
  exists o, st'. split; [exact E|]. cbv zeta in H |- *.
  assert (Hlen : (i < length (Registry.tools st))%nat) by (eapply lookup_lt_Some; eauto).
  destruct (Registry.testHarness t) as [|c h]; [exact H|].
  destruct (fst (RegistryOps.run_harness services (Registry.name t) (String c h)
                   (Registry.world st))) as [[]|e].
  - destruct H as (-> & w & T). split; [reflexivity|].
    eexists _, _. split; [rewrite T; now apply list_lookup_insert_eq|].
    simpl. break_pairs. simpl. repeat split; rewrite ?Z.add_0_r; reflexivity.
  - destruct (fst (Registry.emit host "error" _ _)) as [[]|e']; [|exact H].
    destruct H as (-> & w & T). split; [reflexivity|].
    eexists _, _. split; [rewrite T; now apply list_lookup_insert_eq|].
    simpl. break_pairs. simpl. repeat split; rewrite ?Z.add_0_r; reflexivity.
Qed.

Lemma runTests_records_one_run_witness :
  exists (st' : RegistryExample.XState) (t' : RegistryExample.XTool),
    RegistryOps.Tool_runTests RegistryExample.host OpsExample.services 0
      (OpsExample.with_harness OpsExample.passing_harness)
    = (Ret tt, st') /\
    Registry.tools st' !! 0%nat = Some t' /\
    Registry.lastTestResult t' = Some (true, "All tests passed successfully") /\
    Registry.totalRuns (Registry.testResults (Registry.metrics t')) = 1%Z /\
    Registry.passed (Registry.testResults (Registry.metrics t')) = 1%Z.
Proof.
  destruct (runTests_records_one_run RegistryExample.host OpsExample.services
              (OpsExample.with_harness OpsExample.passing_harness) 0
              (Registry.set_testHarness OpsExample.passing_harness
                 (RegistryExample.new_tool "echo" "ok"))
              eq_refl eq_refl eq_refl)
    as (o & st' & E & H).
  cbv zeta in H.
  change (o = Ret tt /\
          exists t' message,
            Registry.tools st' !! 0%nat = Some t' /\
            Registry.lastTestResult t' = Some (true, message) /\
            Registry.totalRuns (Registry.testResults (Registry.metrics t')) = (0 + 1)%Z /\
            Registry.passed (Registry.testResults (Registry.metrics t')) = (0 + 1)%Z /\
            Registry.failed (Registry.testResults (Registry.metrics t')) = (0 + 0)%Z) in H.
  destruct H as (-> & t' & message & T & L & R & P & _).
  exists st', t'. split; [exact E|]. split; [exact T|].
  assert (Hst : st' = snd (RegistryOps.Tool_runTests RegistryExample.host OpsExample.services 0
                             (OpsExample.with_harness OpsExample.passing_harness)))
    by (now rewrite E).
  split; [|split; [exact R|exact P]].
  rewrite Hst in T. vm_compute in T. injection T as <-. reflexivity.
Defined.

(** A harness in the format the prompt shows is no expression: the run
    throws, nobody listens to the [error] event, and [runTests] throws
    without recording a failed run. *)
Example runTests_prompted_harness :
  let st := OpsExample.with_harness OpsExample.prompted_harness in
  let run := RegistryOps.Tool_runTests RegistryExample.host OpsExample.services 0 st in
  fst run = Throw (Error "Unhandled error.") /\
  Registry.tools (snd run) = Registry.tools st.
Proof. vm_compute. split; reflexivity. Qed.

(** X26.  [getTool] never throws and changes nothing.  A tool it returns is
    registered and has the text as its name or as its source.  It can
    return a value that is no tool: the text is then no registered name, and
    it is the name of a member of [Object.prototype] or, when a tool named
    [__proto__] has taken the place of the prototype of [this.tools], of a
    property of that tool.  When it returns [null], the prototype has
    nothing under the text, no registered tool has the text as its name, and
    no tool that is the one [this.tools] has under its name has it as its
    source. *)
Theorem getTool_finds :
  forall {num : Type} {arith : Registry.Arith num} {W : Type}
         (host : Registry.Host (num := num) (W := W))
         (s : string) (st : Registry.State (num := num) (W := W)),
    exists r,
      RegistryOps.getTool host s st = (Ret r, st) /\
      match r with
      | RegistryOps.Own t =>
          t ∈ Registry.tools st /\ (Registry.name t = s \/ Registry.source t = s)
      | RegistryOps.Other =>
          Registry.findIndex s (Registry.tools st) = None /\
          match RegistryOps.prototype_tool (Registry.tools st) with
          | Some p => Registry.tool_member host p s = true
          | None => inherited s = true
          end
      | RegistryOps.Absent =>
          match RegistryOps.prototype_tool (Registry.tools st) with
          | Some p => Registry.tool_member host p s = false
          | None => inherited s = false
          end /\
          forall t, t ∈ Registry.tools st ->
                    Registry.name t <> s /\
                    (RegistryOps.tools_lookup host (Registry.name t) (Registry.tools st)
                     = RegistryOps.Own t ->
                     Registry.name t <> "__proto__" ->
                     Registry.source t <> s)
      end.
Proof. intros num arith W host s st. apply LookupFacts.getTool_run. Qed.

(** [getTool] of [toString] in a registry that has no such tool returns a
    value, which is no tool; [callTool] takes it for one and fails on its
    missing path. *)
Example getTool_toString :
  fst (RegistryOps.getTool RegistryExample.host "toString" RegistryExample.registry)
  = Ret RegistryOps.Other /\
  fst (RegistryOps.callTool RegistryExample.host OpsExample.services "toString" VNull
         RegistryExample.registry)
  = Throw (Error "Cannot find package 'undefined'") /\
  fst (RegistryOps.callTool RegistryExample.host OpsExample.services "missing" VNull
         RegistryExample.registry)
  = Throw (Error "Tool not found: missing").
Proof. vm_compute. repeat split; reflexivity. Qed.

Module ToolCallsFacts.
Import Assistant AssistantFacts ToolCalls.

Section Facts.
Context {num : Type} {arith : Registry.Arith num} {W : Type}.
Variable host : Registry.Host (num := num) (W := W).
Variable services : RegistryOps.Services (W := W).
Variable answer : string -> W -> string * W.
Implicit Types (st : State (W := Desk (num := num) (W := W))).

(** The error of a tool that is not found is not one the recovery
    handles. *)
Lemma recover_not_found again toolName st :
  recover answer again toolName (not_found toolName) st = (Throw (not_found toolName), st).
Proof.
  unfold recover, bind at 1.
  destruct (String.eqb toolName "ask") eqn:Ea.
  - apply String.eqb_eq in Ea. subst toolName. reflexivity.
  - unfold ret at 1. cbv beta iota. unfold bind at 1.
    destruct (String.eqb toolName "busybox") eqn:Eb.
    + apply String.eqb_eq in Eb. subst toolName. reflexivity.
    + reflexivity.
Qed.

(** An attempt on a tool that has been loaded before. *)
Lemma load_and_call_loaded toolName st :
  toolName ∈ RegistryOps.loadedTools (loader (world st)) ->
  exists st',
    load_and_call host services toolName st = (Throw (not_found toolName), st') /\
    loader (world st') = loader (world st) /\ params (world st') = params (world st) /\
    globalRetryCount st' = globalRetryCount st /\ slept st' = slept st /\
    logged st' = logged st /\ store st' = store st.
Proof.
  intros Hin. unfold load_and_call, bind, on_loader, ask.
  unfold RegistryOps.loadTool. rewrite decide_True by exact Hin.
  cbn. eexists. split; [reflexivity|]. repeat split.
Qed.

Lemma callTool_from_loaded fuel toolName p st :
  toolName ∈ RegistryOps.loadedTools (loader (world st)) ->
  isRetryableError (not_found toolName) = Ret false ->
  (globalRetryCount st < globalRetryLimit)%Z ->
  exists st',
    callTool_from host services answer fuel toolName p st = (Throw (not_found toolName), st') /\
    loader (world st') = loader (world st) /\
    globalRetryCount st' = (globalRetryCount st + 1)%Z /\
    slept st' = slept st ++ [1000%Z].
Proof.
  intros Hin Hr Hc.
  assert (E : forall again s,
            toolName ∈ RegistryOps.loadedTools (loader (world s)) ->
            exists s',
              try_catch (load_and_call host services toolName)
                (recover answer again toolName) s = (Throw (not_found toolName), s') /\
              loader (world s') = loader (world s) /\
              globalRetryCount s' = globalRetryCount s /\ slept s' = slept s).
  { intros again s Hs. unfold try_catch.
    destruct (load_and_call_loaded toolName s Hs) as (s' & E' & L & _ & C & S & _).
    rewrite E', recover_not_found. exists s'. auto. }
  destruct fuel as [|fuel]; cbn [callTool_from];
    unfold bind at 1, log at 1, modify at 1; unfold bind at 1, set_params at 1, modify at 1;
    unfold callTool, retryOperation;
    match goal with |- context [retry_loop ?op _ _ _ _ _ ?s] =>
      match op with try_catch _ (recover _ ?again _) =>
        destruct (E again (started s)) as (s' & E' & L & C & S); [exact Hin|];
        rewrite (retry_loop_final op (not_found toolName) 3 1000 (Some toolName) _ 0 s s'
                   Hc E' Hr)
      end
    end;
    (exists s'; split; [reflexivity|]; rewrite L, C, S; repeat split).
Qed.

Lemma load_and_call_first toolName m i st :
  toolName ∉ RegistryOps.loadedTools (loader (world st)) ->
  Registry.findIndex toolName (Registry.tools (RegistryOps.registry (loader (world st)))) = Some i ->
  (forall w, exists w', RegistryOps.import_module services toolName w = (Ret m, w')) ->
  truthy_value m = true ->
  (forall p w, exists r w', RegistryOps.run_module services toolName p w = (Ret r, w')) ->
  exists st',
    load_and_call host services toolName st = (Ret VUndef, st') /\
    toolName ∈ RegistryOps.loadedTools (loader (world st')) /\
    Registry.tools (RegistryOps.registry (loader (world st')))
    = Registry.tools (RegistryOps.registry (loader (world st))) /\
    globalRetryCount st' = globalRetryCount st /\ slept st' = slept st.
Proof.
  intros Hout Hf Hi Hm Hr. unfold load_and_call, bind at 1, on_loader at 1, ask at 1.
  unfold RegistryOps.loadTool. rewrite decide_False by exact Hout. rewrite Hf.
  destruct (Hi (Registry.world (RegistryOps.registry (loader (world st))))) as (w1 & ->).
  cbv beta iota zeta. rewrite Hm. cbn [negb].
  unfold bind at 1, get_params at 1, gets at 1.
  unfold on_loader, ask, RegistryOps.on_registry. cbn [world set_world loader params].
  match goal with |- context [RegistryOps.callTool host services toolName ?p ?s] =>
    destruct (RegistryOpsFacts.callTool_Ret host services toolName p s i) as (s' & E & T);
      [exact Hf|exact Hr|]; rewrite E end.
  eexists. split; [reflexivity|]. cbn. split; [set_solver|]. split; [exact T|].
  split; reflexivity.
Qed.

Lemma callTool_from_first fuel toolName p m i st :
  toolName ∉ RegistryOps.loadedTools (loader (world st)) ->
  Registry.findIndex toolName (Registry.tools (RegistryOps.registry (loader (world st)))) = Some i ->
  (forall w, exists w', RegistryOps.import_module services toolName w = (Ret m, w')) ->
  truthy_value m = true ->
  (forall p w, exists r w', RegistryOps.run_module services toolName p w = (Ret r, w')) ->
  (globalRetryCount st < globalRetryLimit)%Z ->
  exists st',
    callTool_from host services answer fuel toolName p st = (Ret VUndef, st') /\
    toolName ∈ RegistryOps.loadedTools (loader (world st')) /\
    Registry.tools (RegistryOps.registry (loader (world st')))
    = Registry.tools (RegistryOps.registry (loader (world st))) /\
    globalRetryCount st' = (globalRetryCount st + 1)%Z.
Proof.
  intros Hout Hf Hi Hm Hr Hc.
  assert (E : forall again s,
            loader (world s) = loader (world st) ->
            exists s',
              try_catch (load_and_call host services toolName)
                (recover answer again toolName) s = (Ret VUndef, s') /\
              toolName ∈ RegistryOps.loadedTools (loader (world s')) /\
              Registry.tools (RegistryOps.registry (loader (world s')))
              = Registry.tools (RegistryOps.registry (loader (world st))) /\
              globalRetryCount s' = globalRetryCount s).
  { intros again s Hs. unfold try_catch.
    destruct (load_and_call_first toolName m i s) as (s' & E' & L & T & C & _);
      try (rewrite Hs); try assumption.
    rewrite E'. exists s'. rewrite Hs in T. auto. }
  destruct fuel as [|fuel]; cbn [callTool_from];
    unfold bind at 1, log at 1, modify at 1; unfold bind at 1, set_params at 1, modify at 1;
    unfold callTool, retryOperation;
    (rewrite (retry_loop_turn _ 3 1000 (Some toolName) (Z.to_nat 3) 0) by reflexivity);
    unfold try_catch at 1; rewrite attempt_run;
    match goal with |- context [(globalRetryLimit <? globalRetryCount ?s + 1)%Z] =>
      assert ((globalRetryLimit <? globalRetryCount s + 1)%Z = false) as ->
        by (apply Z.ltb_ge; cbn; lia)
    end;
    match goal with |- context [try_catch _ (recover _ ?again _) ?s] =>
      destruct (E again s eq_refl) as (s' & E' & L & T & C); rewrite E'
    end;
    (exists s'; split; [reflexivity|]; split; [exact L|]; split; [exact T|]; rewrite C; reflexivity).
Qed.

End Facts.
End ToolCallsFacts.

Module FuelFacts.
Import Assistant AssistantFacts ToolCalls.

Section Facts.
Context {num : Type} {arith : Registry.Arith num} {W : Type}.
Variable host : Registry.Host (num := num) (W := W).
Variable services : RegistryOps.Services (W := W).
Variable answer : string -> W -> string * W.
Local Abbreviation St := (State (W := Desk (num := num) (W := W))).
Implicit Types (st : St).
Local Abbreviation steady := (ToolCalls.steady (num := num) (W := W)).
Local Abbreviation rising := (ToolCalls.rising (num := num) (W := W)).

Lemma steady_rising {A} (m : M St A) : steady m -> rising m.
Proof. intros H s. rewrite (H s). lia. Qed.

Lemma steady_bind {A B} (m : M St A) (k : A -> M St B) :
  steady m -> (forall a, steady (k a)) -> steady (bind m k).
Proof.
  intros Hm Hk s. unfold bind. specialize (Hm s).
  destruct (m s) as [[a|e] s']; simpl in *; [|exact Hm]. now rewrite (Hk a s').
Qed.

Lemma rising_bind {A B} (m : M St A) (k : A -> M St B) :
  rising m -> (forall a, rising (k a)) -> rising (bind m k).
Proof.
  intros Hm Hk s. unfold bind. specialize (Hm s).
  destruct (m s) as [[a|e] s']; simpl in *; [|exact Hm].
  specialize (Hk a s'). lia.
Qed.

Lemma rising_try_catch {A} (m : M St A) (h : thrown -> M St A) :
  rising m -> (forall e, rising (h e)) -> rising (try_catch m h).
Proof.
  intros Hm Hh s. unfold try_catch. specialize (Hm s).
  destruct (m s) as [[a|e] s']; simpl in *; [exact Hm|].
  specialize (Hh e s'). lia.
Qed.

Lemma steady_ask {A} (f : Desk -> Outcome A * Desk) : steady (ask f).
Proof. intros s. unfold ask. destruct (f (world s)). reflexivity. Qed.

Lemma steady_ret {A} (a : A) : steady (ret (S := St) a).
Proof. intros s. reflexivity. Qed.

Lemma steady_throw {A} e : steady (throw (S := St) (A := A) e).
Proof. intros s. reflexivity. Qed.

Lemma steady_load_and_call toolName : steady (load_and_call host services toolName).
Proof.
  unfold load_and_call. apply steady_bind; [apply steady_ask|]. intros tool.
  destruct (negb (truthy_value tool)); [apply steady_throw|].
  apply steady_bind; [intros s; reflexivity|]. intros p. apply steady_ask.
Qed.

Lemma steady_message_includes part error : steady (message_includes part error).
Proof. unfold message_includes. destruct (message error) as [msg|]; intros x; reflexivity. Qed.

Lemma steady_promptUser question : steady (promptUser answer question).
Proof.
  unfold promptUser. apply steady_bind; [intros s; reflexivity|]. intros _. apply steady_ask.
Qed.

Lemma rising_recover again toolName error :
  rising again -> rising (recover answer again toolName error).
Proof.
  intros Ha. unfold recover. apply rising_bind.
  { apply steady_rising. destruct (String.eqb toolName "ask");
      [apply steady_message_includes|apply steady_ret]. }
  intros [|]; [apply steady_rising, steady_ret|].
  apply rising_bind.
  { apply steady_rising. destruct (String.eqb toolName "busybox");
      [apply steady_message_includes|apply steady_ret]. }
  intros [|]; [|apply steady_rising, steady_throw].
  apply rising_bind; [apply steady_rising, steady_promptUser|].
  intros [|c alt]; [apply steady_rising, steady_throw|].
  apply rising_bind; [intros s; simpl; lia|]. intros p.
  apply rising_bind; [intros s; unfold lift; simpl; lia|]. intros p'.
  apply rising_bind; [intros s; simpl; lia|]. intros _. exact Ha.
Qed.

Lemma rising_callTool_from fuel : forall toolName p,
  rising (callTool_from host services answer fuel toolName p).
Proof.
  induction fuel as [|fuel IH]; intros toolName p; cbn [callTool_from];
    (apply rising_bind; [intros s; simpl; lia|]; intros _;
     apply rising_bind; [intros s; simpl; lia|]; intros _;
     intros s; unfold callTool, retryOperation;
     apply Z.lt_le_incl, RetryFacts.retry_loop_counts;
     apply rising_try_catch; [apply steady_rising, steady_load_and_call|];
     intros e; apply rising_recover).
  - apply steady_rising, steady_throw.
  - apply rising_bind; [intros s0; simpl; lia|]. intros p'. apply IH.
Qed.

(** Two operations that agree where the counter allows fewer than [n]
    attempts are retried alike where it allows [n]. *)
Lemma retry_loop_agree {T} (op1 op2 : M St T) maxRetries delay toolName n :
  rising op1 ->
  (forall s, (allowed s < n)%nat -> op1 s = op2 s) ->
  forall left retries st,
    (allowed st <= n)%nat ->
    retry_loop op1 maxRetries delay toolName left retries st
    = retry_loop op2 maxRetries delay toolName left retries st.
Proof.
  intros Hr Hop. induction left as [|left IH]; intros retries st Hn.
  - simpl. unfold try_catch. rewrite !attempt_run.
    destruct (globalRetryLimit <? globalRetryCount st + 1)%Z eqn:E; [reflexivity|].
    apply Z.ltb_ge in E. rewrite Hop; [reflexivity|].
    unfold allowed in *. simpl. lia.
  - simpl. unfold try_catch. rewrite !attempt_run.
    destruct (globalRetryLimit <? globalRetryCount st + 1)%Z eqn:E.
    + destruct (maxRetries <=? retries)%Z; [reflexivity|]. reflexivity.
    + apply Z.ltb_ge in E.
      assert (Hs : (allowed (started st) < n)%nat) by (unfold allowed in *; simpl; lia).
      pose proof (Hr (started st)) as Hup.
      rewrite <- (Hop _ Hs).
      destruct (op1 (started st)) as [[a|e] s']; [reflexivity|].
      destruct (maxRetries <=? retries)%Z; [reflexivity|].
      unfold bind at 1 3, lift.
      destruct (isRetryableError e) as [[|]|e']; cbv beta iota delta [negb]; try reflexivity.
      unfold bind at 1 3, log, modify. unfold bind at 1 2, pause, modify. cbv beta iota.
      apply IH. unfold allowed in *. simpl in *. lia.
Qed.

Lemma bind_agree {A B} (m : M St A) (k1 k2 : A -> M St B) st :
  steady m ->
  (forall a s', globalRetryCount s' = globalRetryCount st -> k1 a s' = k2 a s') ->
  bind m k1 st = bind m k2 st.
Proof.
  intros Hm Hk. unfold bind. specialize (Hm st).
  destruct (m st) as [[a|e] s']; [|reflexivity]. now apply Hk.
Qed.

Lemma recover_agree again1 again2 toolName error st :
  (forall s, globalRetryCount s = globalRetryCount st -> again1 s = again2 s) ->
  recover answer again1 toolName error st = recover answer again2 toolName error st.
Proof.
  intros H. unfold recover.
  apply bind_agree.
  { destruct (String.eqb toolName "ask"); [apply steady_message_includes|apply steady_ret]. }
  intros [|] s1 C1; [reflexivity|].
  apply bind_agree.
  { destruct (String.eqb toolName "busybox"); [apply steady_message_includes|apply steady_ret]. }
  intros [|] s2 C2; [|reflexivity].
  apply bind_agree; [apply steady_promptUser|].
  intros [|c alt] s3 C3; [reflexivity|].
  apply bind_agree; [intros x; reflexivity|]. intros p s4 C4.
  apply bind_agree; [intros x; unfold lift; reflexivity|]. intros p' s5 C5.
  apply bind_agree; [intros x; reflexivity|]. intros _ s6 C6.
  apply H. congruence.
Qed.

(** More fuel than the counter allows attempts changes nothing. *)
Lemma callTool_from_enough fuel1 : forall fuel2 toolName p st,
  (allowed st <= fuel1)%nat -> (allowed st <= fuel2)%nat ->
  callTool_from host services answer fuel1 toolName p st
  = callTool_from host services answer fuel2 toolName p st.
Proof.
  induction fuel1 as [|fuel1 IH]; intros fuel2 toolName p st H1 H2.
  - destruct fuel2 as [|fuel2]; [reflexivity|].
    cbn [callTool_from]. unfold bind at 1 3, log, modify. unfold bind at 1 2, set_params, modify.
    unfold callTool, retryOperation.
    apply (retry_loop_agree _ _ _ _ _ 0%nat).
    + apply rising_try_catch; [apply steady_rising, steady_load_and_call|].
      intros e. apply rising_recover. apply steady_rising, steady_throw.
    + intros s Hs. lia.
    + unfold allowed in *. simpl. lia.
  - destruct fuel2 as [|fuel2].
    + cbn [callTool_from]. unfold bind at 1 3, log, modify. unfold bind at 1 2, set_params, modify.
      unfold callTool, retryOperation.
      apply (retry_loop_agree _ _ _ _ _ 0%nat).
      * apply rising_try_catch; [apply steady_rising, steady_load_and_call|].
        intros e. apply rising_recover.
        apply rising_bind; [intros s0; simpl; lia|]. intros p'. apply rising_callTool_from.
      * intros s Hs. lia.
      * unfold allowed in *. simpl. lia.
    + cbn [callTool_from]. unfold bind at 1 3, log, modify. unfold bind at 1 2, set_params, modify.
      unfold callTool, retryOperation.
      apply (retry_loop_agree _ _ _ _ _ (S (Nat.min fuel1 fuel2))).
      * apply rising_try_catch; [apply steady_rising, steady_load_and_call|].
        intros e. apply rising_recover.
        apply rising_bind; [intros s0; simpl; lia|]. intros p'. apply rising_callTool_from.
      * intros s Hs. unfold try_catch.
        pose proof (steady_load_and_call toolName s) as C.
        destruct (load_and_call host services toolName s) as [[a|e] s']; [reflexivity|].
        apply recover_agree. intros s0 Hs0. unfold bind, get_params, gets.
        apply IH; unfold allowed in *; simpl in *; lia.
      * unfold allowed in *. simpl. lia.
Qed.

End Facts.
End FuelFacts.

(** X21.  [ToolRegistry.callTool] reads the name as a property of [this.tools].
    A registered name gives the tool of that name.  A name that gives
    nothing, which is then not registered and not answered by the prototype
    of [this.tools], throws [Tool not found] and changes nothing.  A name
    that gives a value leaves the tools as they are, also when the value is
    no tool but a member of the prototype, such as [constructor]; when the
    call returns, the result of the module is dropped and [undefined] is
    returned, and the executions counted for the name in the metrics table
    grow by one while its usage count stays, unless the table answers the
    name from its own prototype: then the table is as it was.  When the
    call throws, the table is as it was. *)
Theorem registry_callTool_discards_result :
  forall {num : Type} {arith : Registry.Arith num} {W : Type}
         (host : Registry.Host (num := num) (W := W))
         (services : RegistryOps.Services (W := W))
         (n : string) (params : value) (st : Registry.State),
    (forall i, Registry.findIndex n (Registry.tools st) = Some i ->
               exists t, RegistryOps.tools_lookup host n (Registry.tools st) = RegistryOps.Own t /\
                         Registry.name t = n) /\
    match RegistryOps.tools_lookup host n (Registry.tools st) with
    | RegistryOps.Absent =>
        Registry.findIndex n (Registry.tools st) = None /\
        match RegistryOps.prototype_tool (Registry.tools st) with
        | Some p => Registry.tool_member host p n = false
        | None => inherited n = false
        end /\
        RegistryOps.callTool host services n params st
        = (Throw (Error ("Tool not found: " +:+ n)), st)
    | _ =>
        exists o st',
          RegistryOps.callTool host services n params st = (o, st') /\
          Registry.tools st' = Registry.tools st /\
          match o with
          | Ret v =>
              v = VUndef /\
              if Registry.answered_by_prototype n st
              then Registry.table st' = Registry.table st
              else
                Registry.totalExecutions (Registry.executionStats (RegistryOps.entry n st'))
                = (Registry.totalExecutions (Registry.executionStats (RegistryOps.entry n st)) + 1)%Z /\
                Registry.usageCount (RegistryOps.entry n st')
                = Registry.usageCount (RegistryOps.entry n st)
          | Throw e => Registry.table st' = Registry.table st
          end
    end.
Proof.
  intros num arith W host services n params st.
  split; [intros i Hf; exact (RegistryOpsFacts.tools_lookup_registered host n _ i Hf)|].
  pose proof (RegistryOpsFacts.callTool_run host services n params st) as H.
  destruct (RegistryOps.tools_lookup host n (Registry.tools st)) as [t| |] eqn:Ht.
  3: { assert (Hf : Registry.findIndex n (Registry.tools st) = None).
       { destruct (Registry.findIndex n (Registry.tools st)) as [i|] eqn:Hf; [|reflexivity].
         destruct (RegistryOpsFacts.tools_lookup_registered host n _ i Hf) as (t & Ht' & _).
         congruence. }
       split; [exact Hf|]. split; [|exact H].
       rewrite (RegistryOpsFacts.tools_lookup_missing host n _ Hf) in Ht.
       destruct (RegistryOps.prototype_tool (Registry.tools st)) as [p|].
       - now destruct (Registry.tool_member host p n).
       - now destruct (inherited n). }
  all: destruct H as (o & st' & E & T & H); exists o, st'; split; [exact E|];
    split; [exact T|]; destruct o as [v|e]; [|exact H];
    destruct H as (-> & H); split; [reflexivity|];
    destruct (Registry.answered_by_prototype n st); [exact H|];
    destruct H as (d & w & B);
    unfold RegistryOps.entry at 1 3; rewrite B, lookup_insert_eq; simpl; split; reflexivity.
Qed.

(** X22.  [loadTool] never throws and leaves the tools of the registry as they
    are.  A name is loaded once: after a [loadTool] that returned a module,
    the next one of the same name returns [null], as does that of every name
    loaded before. *)
Theorem loadTool_once :
  forall {num : Type} {arith : Registry.Arith num} {W : Type}
         (services : RegistryOps.Services (W := W))
         (n : string) (ld : RegistryOps.Loader (num := num) (W := W)),
    exists v ld',
      RegistryOps.loadTool services n ld = (Ret v, ld') /\
      Registry.tools (RegistryOps.registry ld') = Registry.tools (RegistryOps.registry ld) /\
      (v <> VNull -> RegistryOps.loadTool services n ld' = (Ret VNull, ld')) /\
      (forall k, k ∈ RegistryOps.loadedTools ld ->
                 RegistryOps.loadTool services k ld' = (Ret VNull, ld')).
Proof.
  intros num arith W services n ld.
  destruct (RegistryOpsFacts.loadTool_run services n ld) as (v & ld' & E & T & _ & _ & Hv & Hk).
  exists v, ld'. split; [exact E|]. split; [exact T|].
  assert (Hnull : forall k, k ∈ RegistryOps.loadedTools ld' ->
                            RegistryOps.loadTool services k ld' = (Ret VNull, ld')).
  { intros k Hin. unfold RegistryOps.loadTool. now rewrite decide_True by exact Hin. }
  split; [intros H; apply Hnull, Hv, H|]. intros k H. apply Hnull, Hk, H.
Qed.

(** X23.  The first call of a registered tool whose module loads and runs:
    [Assistant.callTool] returns [undefined], whatever the module returned;
    the tool is then among the loaded ones and the retry counter is one
    higher. *)
Theorem callTool_discards_result :
  forall {num : Type} {arith : Registry.Arith num} {W : Type}
         (host : Registry.Host (num := num) (W := W))
         (services : RegistryOps.Services (W := W)) (answer : string -> W -> string * W)
         (toolName : string) (p m : value) (i : nat) (st : Assistant.State),
    toolName ∉ RegistryOps.loadedTools (ToolCalls.loader (Assistant.world st)) ->
    Registry.findIndex toolName
      (Registry.tools (RegistryOps.registry (ToolCalls.loader (Assistant.world st)))) = Some i ->
    (forall w, exists w', RegistryOps.import_module services toolName w = (Ret m, w')) ->
    ToolCalls.truthy_value m = true ->
    (forall q w, exists r w', RegistryOps.run_module services toolName q w = (Ret r, w')) ->
    (Assistant.globalRetryCount st < Assistant.globalRetryLimit)%Z ->
    exists st',
      ToolCalls.Assistant_callTool host services answer toolName p st = (Ret VUndef, st') /\
      toolName ∈ RegistryOps.loadedTools (ToolCalls.loader (Assistant.world st')) /\
      Assistant.globalRetryCount st' = (Assistant.globalRetryCount st + 1)%Z.
Proof.
  intros num arith W host services answer toolName p m i st Hout Hf Hi Hm Hr Hc.
  unfold ToolCalls.Assistant_callTool.
  destruct (ToolCallsFacts.callTool_from_first host services answer
              (ToolCalls.allowed st) toolName p m i st Hout Hf Hi Hm Hr Hc) as (st' & E & L & _ & C).
  exists st'. auto.
Qed.

Lemma callTool_discards_result_witness :
  exists st',
    ToolCalls.Assistant_callTool RegistryExample.host OpsExample.services OpsExample.silent
      "echo" (VObj []) (OpsExample.assistant ∅) = (Ret VUndef, st') /\
    "echo" ∈ RegistryOps.loadedTools (ToolCalls.loader (Assistant.world st')).
Proof.
  destruct (callTool_discards_result RegistryExample.host OpsExample.services OpsExample.silent
              "echo" (VObj []) (VObj []) 0 (OpsExample.assistant ∅)
              ltac:(apply not_elem_of_empty) eq_refl
              ltac:(intros; eexists; reflexivity) eq_refl
              ltac:(intros; eexists _, _; reflexivity) ltac:(vm_compute; reflexivity))
    as (st' & E & L & _).
  exists st'. split; [exact E|exact L].
Defined.

(** X24.  A call of a tool that has been loaded before fails: [loadTool] returns
    [null] for it, so [Assistant.callTool] throws [Tool '<name>' not found.]
    after one attempt, when the name does not make that message a retryable
    one; the registry is as it was and the retry counter one higher. *)
Theorem callTool_fails_once_loaded :
  forall {num : Type} {arith : Registry.Arith num} {W : Type}
         (host : Registry.Host (num := num) (W := W))
         (services : RegistryOps.Services (W := W)) (answer : string -> W -> string * W)
         (toolName : string) (p : value) (st : Assistant.State),
    toolName ∈ RegistryOps.loadedTools (ToolCalls.loader (Assistant.world st)) ->
    Assistant.isRetryableError (ToolCalls.not_found toolName) = Ret false ->
    (Assistant.globalRetryCount st < Assistant.globalRetryLimit)%Z ->
    exists st',
      ToolCalls.Assistant_callTool host services answer toolName p st
      = (Throw (Error ("Tool '" +:+ toolName +:+ "' not found.")), st') /\
      ToolCalls.loader (Assistant.world st') = ToolCalls.loader (Assistant.world st) /\
      Assistant.globalRetryCount st' = (Assistant.globalRetryCount st + 1)%Z.
Proof.
  intros num arith W host services answer toolName p st Hin Hr Hc.
  unfold ToolCalls.Assistant_callTool.
  destruct (ToolCallsFacts.callTool_from_loaded host services answer
              (ToolCalls.allowed st) toolName p st Hin Hr Hc) as (st' & E & L & C & _).
  exists st'. auto.
Qed.

Lemma callTool_fails_once_loaded_witness :
  exists st',
    ToolCalls.Assistant_callTool RegistryExample.host OpsExample.services OpsExample.silent
      "echo" (VObj []) (OpsExample.assistant {["echo"]})
    = (Throw (Error "Tool 'echo' not found."), st').
Proof.
  destruct (callTool_fails_once_loaded RegistryExample.host OpsExample.services OpsExample.silent
              "echo" (VObj []) (OpsExample.assistant {["echo"]})
              ltac:(apply elem_of_singleton; reflexivity) eq_refl
              ltac:(vm_compute; reflexivity))
    as (st' & E & _).
  exists st'. exact E.
Defined.

(** X27.  The recursion of [Assistant.callTool] is bounded by the retry counter:
    every nested call happens inside an attempt that has raised the counter,
    so with any fuel that is at least what the counter still allows the call
    gives the result of [Assistant_callTool]; and the call never lowers the
    counter. *)
Theorem callTool_recursion_bounded :
  forall {num : Type} {arith : Registry.Arith num} {W : Type}
         (host : Registry.Host (num := num) (W := W))
         (services : RegistryOps.Services (W := W)) (answer : string -> W -> string * W)
         (fuel : nat) (toolName : string) (p : value) (st : Assistant.State),
    (ToolCalls.allowed st <= fuel)%nat ->
    ToolCalls.callTool_from host services answer fuel toolName p st
    = ToolCalls.Assistant_callTool host services answer toolName p st /\
    (Assistant.globalRetryCount st
     <= Assistant.globalRetryCount
          (snd (ToolCalls.Assistant_callTool host services answer toolName p st)))%Z.
Proof.
  intros num arith W host services answer fuel toolName p st Hf. split.
  - unfold ToolCalls.Assistant_callTool.
    now apply FuelFacts.callTool_from_enough.
  - apply FuelFacts.rising_callTool_from.
Qed.

(** A [busybox] call whose file is missing, with a user who names another
    place: the recovery calls [callTool] again from inside the attempt; the
    nested call finds the tool loaded already and fails; two attempts are
    counted. *)
Lemma callTool_recursion_bounded_witness :
  let args := VObj [("args", VArr [VStr "/data"])] in
  let st := OpsExample.assistant_of OpsExample.toolbox ∅ in
  let run := ToolCalls.Assistant_callTool RegistryExample.host OpsExample.missing_file
               OpsExample.answering "busybox" args st in
  ToolCalls.callTool_from RegistryExample.host OpsExample.missing_file OpsExample.answering
    1000 "busybox" args st = run /\
  (Assistant.globalRetryCount st <= Assistant.globalRetryCount (snd run))%Z /\
  fst run = Throw (Error "Tool 'busybox' not found.") /\
  Assistant.globalRetryCount (snd run) = 2%Z /\
  Assistant.logged (snd run)
  = [("debug", "Calling tool: busybox"); ("info", ToolCalls.question);
     ("debug", "Calling tool: busybox")] /\
  ToolCalls.params (Assistant.world (snd run)) = VObj [("args", VArr [VStr "/tmp"])].
Proof.
  cbv zeta.
  destruct (callTool_recursion_bounded RegistryExample.host OpsExample.missing_file
              OpsExample.answering 1000 "busybox" (VObj [("args", VArr [VStr "/data"])])
              (OpsExample.assistant_of OpsExample.toolbox ∅)
              ltac:(vm_compute; lia)) as [E C].
  split; [exact E|]. split; [exact C|].
  vm_compute. repeat split; reflexivity.
Defined.
